(* ===== verification/_CoqProject ===== *)
-Q . S2P
Prelude.v
Calendar.v
Clock.v
Session.v
Store.v
SqlText.v
Sql.v
Page.v
PageSql.v
Script.v
Sessions.v
Races.v
Forms.v
