(* ===== verification/Prelude.v ===== *)
(** * Verification of the offline attendance registration page

    The program ([src/Offline_Attendance.py], 152 lines) is a Streamlit page.
    The page script is re-run top to bottom on every interaction.  It has
    two parts that cooperate through the local variables [i] and
    [date_string]:

    - the session selector (lines 44-66): it converts the current UTC time
      to KST, scans the configured [date_list] with a [for] loop that
      [continue]s past dates and [break]s at the first future date, and
      classifies the loop variable [i] as "no lecture", "next lecture" or
      "registration open";
    - the registration store (lines 9-40 and 68-152): the table [apply] of
      a PostgreSQL database reached through [run_query] (a SELECT read into
      a pandas frame) and [run_tx] (one statement, committed).  The page
      counts the active registrations, offers the apply form while the
      count is under [student_limit], inserts a registration after a
      duplicate check, and looks up or cancels a registration by student
      id and 4-digit secret.  Every statement is SQL text built by
      f-string interpolation of the form fields (lines 69, 88, 93, 121,
      141, 148).

    ** Files, in dependency order

    - [Prelude]: this header, the effect monad [PyM] used to model the
      script (state passing with Python exceptions [exn]), its laws and
      its program equivalence [≡] (a setoid with [Proper] bind), the
      notation scope [attend_scope], the hint database [attend], the
      generic list lemmas shared by the components and [forall_range], a
      checker of a boolean predicate on an integer range.
    - [Calendar]: the proleptic Gregorian calendar of Python's [date]:
      [days_from_civil], [civil_from_days], [valid_date] (the dates
      [datetime] accepts).
    - [Clock]: instants as [Z] microseconds since the Unix epoch, the KST
      offset, [datetime(...)] for the configured dates, [utcnow().astimezone]
      (lines 44-46, 91-92) and [strftime("%Y-%m-%d")] (line 60).
    - [Session]: the loop of lines 54-58 ([date_loop]) and the
      classification of lines 60-66 ([current_session]); the abstract
      contract of the spec ([spec_current_session]) and the refinement
      theorem relating them.
    - [Store]: the rows and the table [apply] (with its SERIAL sequence for
      [aid]), the meaning of the four SQL statements of the page as
      functions on the table, the store invariants (unique active
      registration per student and date, fresh [aid]s), and the
      abstraction into a map [(sid, date) -> secret] with the refinement
      lemmas.
    - [SqlText] (Module [SqlText]): the SQL text the page sends, built
      exactly as its f-strings are ([applycount_sql], [check_sql],
      [apply_sql], [lookup_sql], [cancel_sql]), Python's [str()] of dates
      and datetimes ([date_text], [ts_text]), and PostgreSQL's input
      functions for integer, date and timestamptz literals ([parse_int],
      [parse_date], [parse_ts]) with their round trips.
    - [Sql] (Module [Sql]): the subset of PostgreSQL the page uses: a
      lexer as a character state machine ([lex_step], [tokenize], with
      string constants, doubled quotes and [--] comments), a parser of
      SELECT/INSERT/UPDATE with [WHERE] chains of [=], [AND], [OR]
      ([parse_stmt]; [parse_script] and [exec_all] for texts of several
      statements separated by [;]), a typed analysis that coerces literals to the column
      types ([analyze]) and the execution on the table ([exec],
      [exec_sql]).
    - [Page]: the whole script run as one [PyM] program over a world
      (table, fault schedule of the database, rendered widgets): the
      handlers of the apply form (lines 79-99), the lookup button
      (lines 112-130) and the cancel button (lines 132-152), the page
      (lines 42-152), and the page step relation with its reachable-state
      invariants.  Here a statement is its meaning from [Store].
    - [PageSql] (Module [PageSql]): the same page with [run_query] and
      [run_tx] taking SQL text ([sql_query], [sql_tx]), the frame
      operations of pandas the page reads ([df_empty], [df_count],
      [df_first_aid]) and the handlers sending the f-string text
      ([page_sql]).
    - [Script] (Module [Script]): a run of the page as a tree of its
      widgets and statements ([prog], a free monad over the five
      statements [action]); [page_prog] and the handler trees follow lines
      42-152, and [interp] runs a tree with [run_query] and [run_tx].  The
      predicates [acts_ok], [clean], [armed], [guarded] and [bounded] say
      which statements a tree may send and how many steps it takes.
    - [Sessions] (Module [Sessions]): concurrent sessions.  A pool of runs
      in progress shares the table; [tstep] is one step of one run,
      [cstep] a step of any run of the pool, [sys_step] adds the arrival
      of a new run with any clock and request.
    - [Races] (Module [Races]): the capacity and duplicate checks under
      interleaving.
    - [Forms] (Module [Forms]): the widgets of the two forms (lines 74-78
      and 106-110): [text_input] keeps at most [max_chars] of the typed
      text, [form_request] is the request a click sends, [form_step] a run
      of the page on what a visitor typed.

    ** Theorems

    - Calendar, Clock (supporting lemmas of Python's [datetime], not
      claims about the page): [civil_from_days] and [days_from_civil] are inverse
      bijections between the valid dates of every year and all day
      numbers, and [strftime] of a configured [datetime] gives back its
      date.  Both conversions are periodic with the 400-year cycle of
      146097 days, so the proof shifts any date into one cycle and checks
      that cycle exhaustively ([roundtrip_years_cycle],
      [roundtrip_days_cycle], by [vm_compute]; they dominate the compile
      time of the development, about 40s).
    - Session: the loop returns the first instant strictly after [now], or
      the last instant when there is none; the page is "no lecture" once
      every session is past, "next lecture" more than 24 hours ahead and
      open inside the inclusive 24-hour window; it raises [NameError] on an
      empty list; it refines the spec's selector whenever no configured
      instant equals [now] exactly, and diverges from it at that instant
      for every schedule (the next lecture is classified instead);
      registration is only ever open from 24 hours before a configured
      lecture up to its start ([current_session_open_sound]), and
      [NameError] is raised exactly on an empty schedule.
    - Store: the inserts and cancellations of the page keep at most one
      active registration per (student, date) and distinct [aid]s, and they
      implement insert and delete on the abstract map.
    - Page: functional behaviour of each handler on every branch (three
      validation messages before any database access, duplicate, success,
      not found, cancel); a database fault raises with the table unchanged,
      [DBError] when the statement fails and [NameError] when the
      connection cannot be opened (the [except] clause then closes a
      [conn] that was never bound), so an unreachable database crashes the
      page right after its title;
      every run changes the table by at most one statement, and that
      statement is the submitted application (after the duplicate and
      capacity checks) or the cancellation of a row matching the submitted
      id and secret ([page_effect]); hence every world reachable by
      [page_step] from an empty table keeps fresh [aid]s, unique active
      registrations, the capacity bound and well-formed rows (rule
      induction on [rtc]).  The page refines the spec's registry: from a
      table with the invariant, a completed run changes [abs_table]
      exactly as [page_spec], the spec's application (add an absent key
      while the date has fewer than [student_limit] entries) or
      cancellation (delete the key when it holds the given secret) on the
      open lecture's date, and a run that raises changes nothing; the
      success branches are stated on the rows written (appended row with
      the next [aid]; the first matching row canceled in place).  Records
      are never deleted and a canceled record never
      becomes active again; the scenario of the spec is a computed
      example.
    - SqlText, Sql: printing and parsing round trips ([parse_date_text],
      [parse_ts_text], [parse_int_dec_text]); the lexer and parser read
      each f-string of the page as the intended statement whenever the
      interpolated fields contain no quote, and its execution equals the
      statement's meaning in [Store] (the SELECT and the write statements
      are equivalent to the [Store] functions).
    - Script, Sessions, Races: the tree of a run executes exactly as
      [Page.page] ([page_prog_interp]), and a sequential run is one
      schedule of the pool ([page_run_is_schedule]); these two, and the
      termination of the pool (each step consumes a node of a finite
      tree), are sanity lemmas of the model.  Under every
      interleaving of any number of runs arriving at any time, with any
      database faults: the [aid]s stay fresh, rows keep the shape the
      form checks give them and are never deleted or reactivated
      (an invariant proved once, in a Section, for every property of the
      table that every allowed statement keeps); a date never exceeds its
      initial count or [student_limit - 1] plus the number of runs, and
      that bound is reached; a student can end up registered twice; the
      runs in progress always finish (no infinite execution, at most
      [page_steps] = 8 steps per run, the longest path of [page_prog]:
      title, count, form, lookup query, message, second query, frame),
      and an execution that cannot continue has every run finished.
    - PageSql: on quote-free requests the text-level page is equivalent,
      as a [PyM] program, to [Page.page] (a functional refinement proved
      handler by handler with setoid rewriting under [≡]), so the
      reachable-state invariants of [Page] carry over.  With quotes the
      text is not the intended statement: a 10-character id
      [' OR 1=1--] passes the length check, the lookup then lists every
      row and the cancel cancels the first row of the table whatever its
      owner; a name carrying its own VALUES tuple registers a second
      active row for a student who already has one; and a student whose
      name has an apostrophe can never register (the statement is
      rejected and the page raises); a name that appends a second
      statement makes [run_tx] commit it, and the UPDATE it carries
      cancels every registration while the page reports success.
    - Forms: through the widgets every stored row has a student id of
      exactly 10 and a secret of exactly 4 characters, the spec's shape:
      the handler checks only the lower bounds, [max_chars] gives the
      upper ones.  The injected id [' OR 1=1--] fits its widget as typed.

    ** Modelling choices

    - Time is [Z] microseconds, the resolution of Python's [datetime]; a
      24-hour [timedelta] is [day_us].  The server's local UTC offset is a
      parameter of [astimezone] on a naive datetime.
    - A Python [str] is a Rocq [string]; a character is one byte, so
      [len] is [String.length] on ASCII text (the Korean column aliases of
      lines 121 and 141 are written as their UTF-8 bytes and only appear
      in SQL text, never under [len]).
    - The database is a list of rows in physical (insertion) order with
      the next value of the [aid] sequence; a SELECT without ORDER BY is
      modelled as returning rows in that order, which fixes
      [df_check.iloc[0]] (line 147).  Every database access may fail: a
      fault schedule ([db_fault]s, consumed one per access) says whether
      [init_connection()] fails, the statement fails, or neither.  A
      failed statement raises [DBError] with the table unchanged (it is
      rolled back, and [run_tx]'s [finally] then commits on a closed
      connection, which raises too); a failed connection raises
      [NameError] ([UnboundLocalError] on [conn] in the [except] clause)
      ([fault_exn]).  Which exception escapes matters only for what the
      visitor sees; the table is unchanged either way.  A statement the server rejects
      (a lexing, parsing or type error in [exec_sql]) raises the same way.
    - [aid] is an unbounded [Z]; PostgreSQL's SERIAL is an [int4] whose
      [nextval] fails after 2^31 - 1 insertions, far beyond a course.
      An UPDATE leaves the row at its place in the list, while PostgreSQL
      writes a new tuple version that a later sequential scan may return
      elsewhere; only the order of canceled rows can differ, which only the
      injected SELECT of [PageSql] (every row, canceled ones included)
      would show.  [valid_date] omits [datetime]'s range 1..9999 of years
      and [date_text] pads years below 1000, neither of which the
      configured dates reach.  In [run_query], a [psycopg2.Error] raised
      while pandas fetches the rows would be caught and [return df] would
      raise [UnboundLocalError]; a fetch failure is not separated from a
      statement failure here.
    - The column [apply_time] is assumed to be [timestamptz], [date] to be
      [date] and [aid] a SERIAL; the schema is not in the repository.
    - Every definition is structurally recursive (the loop over
      [date_list], the lexer over the characters of the text, the list
      filters of the statements, [run_requests] over the request list),
      so no fuel or bound is needed: every run of the page terminates and
      the model computes it by [vm_compute].  A run of [Script.prog]
      branches on every statement's result, so its length is bounded by
      the predicate [bounded] rather than a size function.
    - Interleaving is at the granularity of one widget or one statement
      of one run; a statement may fail at any point with [DBError] or
      [NameError], the table unchanged.  Runs arrive with any clock and request, so the
      session results hold for every schedule of visitors.

    ** Not modelled

    Streamlit's rendering and page configuration (titles, layout and
    styling are kept only as the list of widgets shown; the text inputs'
    [max_chars] are modelled in [Forms]; a value typed past the limit is
    cut by the browser, and a client that bypasses the browser is a
    request of [Page] with fields of any length), pandas beyond the three
    frame operations the page reads, [psycopg2]'s connection handling and
    [st.secrets] (I/O of the host), and the [st_aggrid] import (unused).
    PostgreSQL is modelled only for the statements the page and the
    injections produce: SELECT, INSERT of one row and UPDATE of one table,
    conditions of [=], [and], [or] without parentheses, several statements
    separated by [;], and only the literal formats Python's [str()] prints
    (plus the integers and dates a forged field can spell the same way).  In
    [Page] and [PageSql] each run of the script is one atomic step of
    [page_step]; interleaved runs are the subject of [Sessions] and
    [Races], where the unit of atomicity is one statement (the page runs
    one statement per connection and transaction), so PostgreSQL's
    isolation levels and locks play no role.  The schema (a unique
    constraint on (sid, attend_date) would change [Races]) is not in the
    repository and is not assumed. *)

From stdpp Require Export base list strings gmap.
From Stdlib Require Export ZArith Lia.

Declare Scope attend_scope.
Delimit Scope attend_scope with attend.
Open Scope attend_scope.

Create HintDb attend.
Create Rewrite HintDb attend_rw.

(** ** Python exceptions the script can raise *)

(** [DBError] is any [psycopg2.Error] or pandas [DatabaseError] escaping
    [run_query] / [run_tx]; [NameError] is the unbound loop variable [i] of
    line 60 when [date_list] is empty, and the [UnboundLocalError] (a
    subclass) on [conn] when [init_connection()] fails (lines 22, 35). *)
Inductive exn := DBError | NameError.

#[export] Instance exn_eq_dec : EqDecision exn.
Proof. solve_decision. Defined.

Inductive outcome (A : Type) := Ok (a : A) | Exc (e : exn).
Arguments Ok {A} a.
Arguments Exc {A} e.

(** ** The script monad: state passing with exceptions *)

(** On an exception the state reached so far is kept: widgets already
    rendered stay on the page above the traceback.  [let* x := m in k]
    binds, [m >>> k] sequences. *)
Record PyM (S A : Type) : Type := mkPyM { run_pym : S → outcome A * S }.
Arguments mkPyM {S A} _.
Arguments run_pym {S A} _ _.

Definition pret {S A} (a : A) : PyM S A := mkPyM (λ s, (Ok a, s)).

Definition pbind {S A B} (m : PyM S A) (f : A → PyM S B) : PyM S B :=
  mkPyM (λ s,
    match run_pym m s with
    | (Ok a, s') => run_pym (f a) s'
    | (Exc e, s') => (Exc e, s')
    end).

Notation "'let*' x ':=' m 'in' k" := (pbind m (λ x, k))
  (at level 10, x name, m at level 100, k at level 200) : attend_scope.
Notation "m '>>>' k" := (pbind m (λ _, k)) (at level 100, right associativity) : attend_scope.

Definition raise {S A} (e : exn) : PyM S A := mkPyM (λ s, (Exc e, s)).
Definition modify {S} (f : S → S) : PyM S unit := mkPyM (λ s, (Ok tt, f s)).

(** [m ⇓ s ⟶ r] : the program [m] run from state [s] ends with result [r]. *)
Notation "m '⇓' s '⟶' r" := (run_pym m s = r) (at level 70, s at next level) : attend_scope.

Section MonadLaws.
  Context {S : Type}.

Lemma bind_ok {A B} (m : PyM S A) (f : A → PyM S B) s a s' :
    m ⇓ s ⟶ (Ok a, s') → run_pym (pbind m f) s = run_pym (f a) s'.
  Proof. intros Hm. cbv [pbind]. simpl. by rewrite Hm. Qed.

Lemma bind_exc {A B} (m : PyM S A) (f : A → PyM S B) s e s' :
    m ⇓ s ⟶ (Exc e, s') → (pbind m f) ⇓ s ⟶ (Exc e, s').
  Proof. intros Hm. cbv [pbind]. simpl. by rewrite Hm. Qed.

  (** An invariant of the state that every primitive step keeps is kept by
      a whole program, whatever its result. *)
Definition preserves {A} (P : S → Prop) (m : PyM S A) : Prop :=
    ∀ s, P s → P (snd (run_pym m s)).

Lemma preserves_bind {A B} (P : S → Prop) (m : PyM S A) (f : A → PyM S B) :
    preserves P m → (∀ a, preserves P (f a)) → preserves P (pbind m f).
  Proof.
    intros Hm Hf s Hs. cbv [pbind]. simpl.
    specialize (Hm s Hs). destruct (run_pym m s) as [[a|e] s']; simpl in *; auto.
    by apply Hf.
  Qed.
End MonadLaws.

#[export] Hint Resolve preserves_bind : attend.

(** ** Programs with the same runs

    Two programs are equivalent when they give the same result and final
    state from every state; [pbind] respects it, so a statement of one
    model can be replaced by an equivalent one of another under a bind. *)
#[export] Instance pym_equiv {S A} : Equiv (PyM S A) := λ m1 m2, ∀ s, run_pym m1 s = run_pym m2 s.

#[export] Instance pym_equiv_equivalence {S A} : Equivalence (≡@{PyM S A}).
Proof.
  split.
  - by intros m s.
  - intros m1 m2 H s. by rewrite (H s).
  - intros m1 m2 m3 H1 H2 s. by rewrite (H1 s), (H2 s).
Qed.

#[export] Instance pbind_proper {S A B} :
  Proper ((≡) ==> pointwise_relation A (≡) ==> (≡)) (@pbind S A B).
Proof.
  intros m1 m2 Hm f1 f2 Hf s. cbv [pbind]. simpl. rewrite (Hm s).
  destruct (run_pym m2 s) as [[a|e] s']; [apply Hf|done].
Qed.

Lemma pbind_assoc {S A B C} (m : PyM S A) (f : A → PyM S B) (g : B → PyM S C) :
  pbind (pbind m f) g ≡ pbind m (λ a, pbind (f a) g).
Proof. intros s. cbv [pbind]. simpl. by destruct (run_pym m s) as [[a|e] s']. Qed.

Lemma pbind_ret_l {S A B} (a : A) (f : A → PyM S B) : pbind (pret a) f ≡ f a.
Proof. by intros s. Qed.

Lemma pbind_ret_r {S A} (m : PyM S A) : pbind m pret ≡ m.
Proof. intros s. cbv [pbind]. simpl. by destruct (run_pym m s) as [[a|e] s']. Qed.

Lemma pbind_ret_unit {S} (m : PyM S unit) : (m >>> pret tt) ≡ m.
Proof. intros s. cbv [pbind]. simpl. by destruct (run_pym m s) as [[[]|e] s']. Qed.

Lemma pbind_raise {S A B} (e : exn) (f : A → PyM S B) : pbind (raise e) f ≡ raise e.
Proof. by intros s. Qed.

(** ** Generic lemmas on lists shared by the components *)

Section ListFacts.
  Context {A : Type}.

Lemma filter_app_length (P : A → Prop) `{∀ x, Decision (P x)} l1 l2 :
    length (filter P (l1 ++ l2)) = length (filter P l1) + length (filter P l2).
  Proof. by rewrite filter_app, length_app. Qed.

Lemma filter_nil_forall (P : A → Prop) `{∀ x, Decision (P x)} (l : list A) :
    filter P l = [] ↔ Forall (λ x, ¬ P x) l.
  Proof.
    induction l as [|x l IH]; simpl; [split; auto|].
    rewrite filter_cons, Forall_cons. case_decide; [naive_solver|].
    rewrite IH. naive_solver.
  Qed.

  (** Mapping [f] over [l] keeps the elements of [P] when [f] is the
      identity on the elements of [l] in [P] and never moves an element into
      [P]. *)
Lemma filter_map_id (P : A → Prop) `{∀ x, Decision (P x)} (f : A → A) l :
    (∀ x, x ∈ l → P (f x) → P x) → (∀ x, x ∈ l → P x → f x = x) →
    filter P (map f l) = filter P l.
  Proof.
    intros Hback Hid. induction l as [|x l IH]; [done|]. simpl.
    rewrite !filter_cons, IH by set_solver.
    destruct (decide (P x)) as [Hx|Hx].
    - rewrite (Hid x) by set_solver. by rewrite decide_True.
    - rewrite decide_False; [done|]. intros Hf. by apply Hx, Hback; [set_solver|].
  Qed.

  (** If [f] only changes the elements it takes out of [P], mapping [f]
      never adds elements to [P]. *)
Lemma filter_map_length_le (P : A → Prop) `{∀ x, Decision (P x)} (f : A → A) l :
    (∀ x, P (f x) → f x = x) →
    length (filter P (map f l)) ≤ length (filter P l).
  Proof.
    intros Hf. induction l as [|x l IH]; [done|]. simpl. rewrite !filter_cons.
    destruct (decide (P (f x))) as [Hx|Hx].
    - rewrite (Hf x Hx) in Hx |- *. rewrite decide_True by done. simpl. lia.
    - case_decide; simpl; lia.
  Qed.

Lemma NoDup_map_inj_in {B} (f : A → B) (l : list A) x y :
    NoDup (map f l) → x ∈ l → y ∈ l → f x = f y → x = y.
  Proof.
    induction l as [|z l IH]; [set_solver|]. simpl.
    rewrite NoDup_cons, !elem_of_cons. intros [Hz Hl] Hx Hy Hxy.
    destruct Hx as [->|Hx], Hy as [->|Hy]; [done| | |by apply IH].
    - destruct Hz. rewrite Hxy. apply list_elem_of_fmap_2. done.
    - destruct Hz. rewrite <- Hxy. apply list_elem_of_fmap_2. done.
  Qed.

Lemma filter_all (P : A → Prop) `{∀ x, Decision (P x)} (l : list A) :
  (∀ x, x ∈ l → P x) → filter P l = l.
Proof.
  induction l as [|x l IH]; intros Hl; [done|].
  rewrite filter_cons_True by (apply Hl; set_solver). f_equal. apply IH. set_solver.
Qed.

Lemma Forall_last (P : A → Prop) (l : list A) x :
    Forall P l → last l = Some x → P x.
  Proof.
    intros Hl Hx. apply last_Some_elem_of in Hx.
    rewrite Forall_forall in Hl. by apply Hl.
  Qed.
End ListFacts.

(** ** Checking a predicate on a range of integers

    [forall_range f a n] tests [f] on [a], [a + 1], ..., [a + n - 1],
    counting in [Z] so that evaluation stays linear in [n]. *)
Fixpoint forall_range (f : Z → bool) (a : Z) (n : nat) : bool :=
  match n with
  | O => true
  | S n' => f a && forall_range f (a + 1)%Z n'
  end.

Lemma forall_range_spec f a n x :
  forall_range f a n = true → (a <= x < a + Z.of_nat n)%Z → f x = true.
Proof.
  revert a. induction n as [|n IH]; intros a; simpl; [lia|].
  rewrite andb_true_iff. intros [Ha Hr] Hx.
  destruct (Z.eq_dec x a) as [->|Hne]; [done|]. apply (IH (a + 1)%Z); [done|lia].
Qed.

(** [case_if] splits the first boolean test of the goal, keeping its
    equation. *)
Ltac case_if :=
  match goal with
  | |- context [if ?b then _ else _] =>
      let E := fresh "E" in destruct b eqn:E
  end.
