(* ===== verification/Calendar.v ===== *)
(** * Calendar: civil dates and day numbers

    The proleptic Gregorian calendar of Python's [datetime] module, used by
    [datetime(...)] (line 49) and [strftime] (line 60): the date record,
    [days_from_civil] and [civil_from_days] (era arithmetic), and the dates
    [datetime] accepts ([is_leap], [days_in_month], [valid_date]).  The two
    conversions are inverse bijections between the valid dates of every
    year and all day numbers.  Both are periodic with the Gregorian cycle of
    400 years = 146097 days, so the proofs shift any date or day number into
    one cycle and check that cycle exhaustively by computation
    ([roundtrip_years_cycle], [roundtrip_days_cycle]); these two checks take
    most of this file's compile time. *)

From S2P Require Import Prelude.

Local Open Scope Z_scope.

(** ** Calendar dates *)

Record date := mkDate { year : Z; month : Z; day : Z }.

#[export] Instance date_eq_dec : EqDecision date.
Proof. solve_decision. Defined.

#[export] Instance date_countable : Countable date.
Proof.
  apply (inj_countable' (λ d, (year d, month d, day d))
                        (λ '(y, m, d), mkDate y m d)).
  by intros [].
Defined.

(** Days from 1970-01-01 to the civil date [y-m-d] (March-based years,
    400-year eras of 146097 days). *)
Definition days_from_civil (y0 m d : Z) : Z :=
  let y := if m <=? 2 then y0 - 1 else y0 in
  let era := y / 400 in
  let yoe := y - era * 400 in
  let mp := if 2 <? m then m - 3 else m + 9 in
  let doy := (153 * mp + 2) / 5 + d - 1 in
  let doe := yoe * 365 + yoe / 4 - yoe / 100 + doy in
  era * 146097 + doe - 719468.

(** The civil date of the day number [z] (inverse of [days_from_civil]). *)
Definition civil_from_days (z0 : Z) : date :=
  let z := z0 + 719468 in
  let era := z / 146097 in
  let doe := z - era * 146097 in
  let yoe := (doe - doe / 1460 + doe / 36524 - doe / 146096) / 365 in
  let doy := doe - (365 * yoe + yoe / 4 - yoe / 100) in
  let mp := (5 * doy + 2) / 153 in
  let d := doy - (153 * mp + 2) / 5 + 1 in
  let m := if mp <? 10 then mp + 3 else mp - 9 in
  mkDate (if m <=? 2 then yoe + era * 400 + 1 else yoe + era * 400) m d.

(** Python's [_is_leap] and [_days_in_month]: the dates [datetime]
    accepts (it raises [ValueError] on any other). *)
Definition is_leap (y : Z) : bool :=
  (y mod 4 =? 0) && negb (y mod 100 =? 0) || (y mod 400 =? 0).

Definition days_in_month (y m : Z) : Z :=
  if m =? 2 then (if is_leap y then 29 else 28)
  else if (m =? 4) || (m =? 6) || (m =? 9) || (m =? 11) then 30
  else 31.

Definition valid_date (y m d : Z) : Prop :=
  1 <= m <= 12 ∧ 1 <= d <= days_in_month y m.

Definition valid_dateb (y m d : Z) : bool :=
  (1 <=? m) && (m <=? 12) && (1 <=? d) && (d <=? days_in_month y m).

Lemma valid_dateb_spec y m d : valid_dateb y m d = true ↔ valid_date y m d.
Proof. unfold valid_dateb, valid_date. rewrite !andb_true_iff, !Z.leb_le. tauto. Qed.

Definition date_eqb (c c' : date) : bool :=
  (year c =? year c') && (month c =? month c') && (day c =? day c').

Lemma date_eqb_spec c c' : date_eqb c c' = true ↔ c = c'.
Proof.
  destruct c, c'. unfold date_eqb. simpl. rewrite !andb_true_iff, !Z.eqb_eq.
  split; [intros [[-> ->] ->]; done | intros [=]; auto].
Qed.

(** ** The calendar round trip

    Both conversions are periodic with the 400-year Gregorian cycle of
    146097 days, so the round trips reduce to one cycle, which is checked
    exhaustively by computation. *)

Lemma is_leap_400 y k : is_leap (y + 400 * k) = is_leap y.
Proof.
  unfold is_leap.
  replace (y + 400 * k) with (y + (100 * k) * 4) by lia. rewrite Z_mod_plus_full.
  replace (y + 100 * k * 4) with (y + (4 * k) * 100) by lia. rewrite Z_mod_plus_full.
  replace (y + 4 * k * 100) with (y + k * 400) by lia. by rewrite Z_mod_plus_full.
Qed.

Lemma days_in_month_400 y m k : days_in_month (y + 400 * k) m = days_in_month y m.
Proof. unfold days_in_month. by rewrite is_leap_400. Qed.

Lemma days_from_civil_400 y m d k :
  days_from_civil (y + 400 * k) m d = days_from_civil y m d + 146097 * k.
Proof.
  unfold days_from_civil.
  destruct (m <=? 2);
    [replace (y + 400 * k - 1) with (y - 1 + k * 400) by lia
    |replace (y + 400 * k) with (y + k * 400) by lia];
    rewrite Z.div_add by lia;
    match goal with
    | |- context [?Y + k * 400 - (?Y / 400 + k) * 400] =>
        replace (Y + k * 400 - (Y / 400 + k) * 400) with (Y - Y / 400 * 400) by lia
    end; lia.
Qed.

Lemma civil_from_days_146097 z k :
  civil_from_days (z + 146097 * k) =
  let c := civil_from_days z in mkDate (year c + 400 * k) (month c) (day c).
Proof.
  unfold civil_from_days.
  replace (z + 146097 * k + 719468) with (z + 719468 + k * 146097) by lia.
  rewrite Z.div_add by lia.
  replace (z + 719468 + k * 146097 - ((z + 719468) / 146097 + k) * 146097)
    with (z + 719468 - (z + 719468) / 146097 * 146097) by lia.
  simpl. f_equal. destruct (_ <=? 2); lia.
Qed.

(** One cycle of years, every valid date. *)
Definition roundtrip_year (y : Z) : bool :=
  forall_range (λ m,
    forall_range (λ d, date_eqb (civil_from_days (days_from_civil y m d)) (mkDate y m d))
                 1 (Z.to_nat (days_in_month y m)))
    1 12.

(** One cycle of days. *)
Definition roundtrip_day (z : Z) : bool :=
  let c := civil_from_days z in
  valid_dateb (year c) (month c) (day c) &&
  (days_from_civil (year c) (month c) (day c) =? z).

Lemma roundtrip_years_cycle : forall_range roundtrip_year 0 400 = true.
Proof. vm_compute. reflexivity. Qed.

Lemma roundtrip_days_cycle : forall_range roundtrip_day 0 (Z.to_nat 146097) = true.
Proof. vm_compute. reflexivity. Qed.

Lemma roundtrip_year_spec r m d :
  0 <= r < 400 → valid_date r m d → civil_from_days (days_from_civil r m d) = mkDate r m d.
Proof.
  intros Hr [Hm Hd]. apply date_eqb_spec.
  assert (Hy : roundtrip_year r = true)
    by (apply (forall_range_spec _ 0 400 r roundtrip_years_cycle); lia).
  unfold roundtrip_year in Hy.
  apply (forall_range_spec _ 1 12 m) in Hy; [|lia].
  apply (forall_range_spec _ 1 _ d) in Hy; [done|lia].
Qed.

Lemma roundtrip_day_spec r :
  0 <= r < 146097 →
  let c := civil_from_days r in
  valid_date (year c) (month c) (day c) ∧ days_from_civil (year c) (month c) (day c) = r.
Proof.
  intros Hr. assert (Hd : roundtrip_day r = true)
    by (apply (forall_range_spec _ 0 (Z.to_nat 146097) r roundtrip_days_cycle); lia).
  unfold roundtrip_day in Hd. rewrite andb_true_iff, valid_dateb_spec, Z.eqb_eq in Hd.
  exact Hd.
Qed.

Lemma valid_date_400 y m d k : valid_date (y + 400 * k) m d ↔ valid_date y m d.
Proof. unfold valid_date. by rewrite days_in_month_400. Qed.

Lemma civil_days_roundtrip y m d :
  valid_date y m d → civil_from_days (days_from_civil y m d) = mkDate y m d.
Proof.
  intros Hv. pose proof (Z_div_mod_eq_full y 400) as Hy.
  pose proof (Z.mod_pos_bound y 400 ltac:(lia)) as Hr.
  rewrite Hy in Hv |- *. replace (400 * (y / 400) + y mod 400) with (y mod 400 + 400 * (y / 400))
    in Hv |- * by lia.
  rewrite valid_date_400 in Hv.
  rewrite days_from_civil_400, civil_from_days_146097, roundtrip_year_spec by done. done.
Qed.

(** [strftime] inverts [datetime] on the calendar: the civil date of the day number of any valid date [y-m-d] (every year, proleptic Gregorian) is [y-m-d] itself. *)
Theorem civil_from_days_from_civil y m d :
  valid_date y m d → civil_from_days (days_from_civil y m d) = mkDate y m d.
Proof. apply civil_days_roundtrip. Qed.

Lemma days_civil_roundtrip z :
  let c := civil_from_days z in
  valid_date (year c) (month c) (day c) ∧ days_from_civil (year c) (month c) (day c) = z.
Proof.
  pose proof (Z_div_mod_eq_full z 146097) as Hz.
  pose proof (Z.mod_pos_bound z 146097 ltac:(lia)) as Hr.
  rewrite Hz. replace (146097 * (z / 146097) + z mod 146097)
    with (z mod 146097 + 146097 * (z / 146097)) by lia.
  rewrite civil_from_days_146097. cbv zeta. cbn [year month day].
  destruct (roundtrip_day_spec (z mod 146097) Hr) as [Hv Hd].
  rewrite valid_date_400, days_from_civil_400, Hd. done.
Qed.

(** Every day number is the day number of exactly the valid date [civil_from_days] gives it: [civil_from_days] returns a valid date and [days_from_civil] maps it back. *)
Theorem days_from_civil_from_days z :
  let c := civil_from_days z in
  valid_date (year c) (month c) (day c) ∧ days_from_civil (year c) (month c) (day c) = z.
Proof. apply days_civil_roundtrip. Qed.

Lemma civil_from_days_from_civil_witness :
  valid_date 2023 3 7 ∧ civil_from_days (days_from_civil 2023 3 7) = mkDate 2023 3 7.
Proof.
  assert (H : valid_date 2023 3 7) by (apply valid_dateb_spec; reflexivity).
  split; [exact H | exact (civil_from_days_from_civil _ _ _ H)].
Defined.

