(* ===== verification/Clock.v ===== *)
(** * Clock: instants and the KST zone

    Python's aware [datetime] values are compared as instants; this file
    represents an instant as [Z] microseconds since 1970-01-01T00:00Z.  It
    models the calls of [src/Offline_Attendance.py] that build or read
    instants: [datetime(y, m, d, hh, mi, ss, tzinfo=timezone_kst)]
    (line 49), [datetime.utcnow().astimezone(timezone_kst)] (lines 44-46
    and 91-92), [timedelta(hours=24)] (line 63) and [strftime("%Y-%m-%d")]
    (line 60), the last two through the calendar of [Calendar].  The
    configured lectures print as their own calendar dates
    ([strftime_kst_datetime]). *)

From S2P Require Import Prelude Calendar.

Local Open Scope Z_scope.

(** ** Durations *)

Definition usec : Z := 1000000.
Definition minute_us : Z := 60 * usec.
Definition hour_us : Z := 60 * minute_us.

(** [timedelta(hours=24)] *)
Definition day_us : Z := 24 * hour_us.

(** [timezone(timedelta(hours=9))], line 45, as its UTC offset. *)
Definition timezone_kst : Z := 9 * hour_us.

(** ** Instants *)

(** [datetime(y, m, d, hh, mi, ss, tzinfo=tz)] as an instant. *)
Definition datetime (y m d hh mi ss tz : Z) : Z :=
  days_from_civil y m d * day_us + hh * hour_us + mi * minute_us + ss * usec - tz.

(** [datetime.utcnow().astimezone(timezone_kst)].  [utcnow()] returns a
    naive datetime holding the UTC wall clock [utc_wall]; [astimezone] on a
    naive value reads it as the server's local time, whose UTC offset is
    [local_offset].  The resulting aware value is the instant below; the
    target zone only changes how it prints. *)
Definition utcnow_astimezone (utc_wall local_offset : Z) : Z :=
  utc_wall - local_offset.

(** [t.strftime("%Y-%m-%d")] for an aware [t] whose zone has offset [tz]:
    the civil date of the local wall clock. *)
Definition strftime_date (tz t : Z) : date :=
  civil_from_days ((t + tz) / day_us).

(** ** Properties *)

Lemma day_us_pos : 0 < day_us.
Proof. reflexivity. Qed.

(** The local date of an instant only depends on the local day number. *)
Lemma strftime_date_shift tz t k :
  strftime_date tz (t + k * day_us) = civil_from_days ((t + tz) / day_us + k).
Proof.
  unfold strftime_date. f_equal.
  replace (t + k * day_us + tz) with (t + tz + k * day_us) by lia.
  apply Z.div_add. unfold day_us, hour_us, minute_us, usec. lia.
Qed.

(** An instant built in KST with a wall-clock time of day inside the day
    prints as the date it was built from, provided the calendar round trip
    holds for that date. *)
Lemma strftime_datetime y m d hh mi ss :
  0 <= hh < 24 → 0 <= mi < 60 → 0 <= ss < 60 →
  strftime_date timezone_kst (datetime y m d hh mi ss timezone_kst)
  = civil_from_days (days_from_civil y m d).
Proof.
  intros Hh Hm Hs. unfold strftime_date, datetime. f_equal.
  replace (days_from_civil y m d * day_us + hh * hour_us + mi * minute_us + ss * usec
           - timezone_kst + timezone_kst)
    with (hh * hour_us + mi * minute_us + ss * usec + days_from_civil y m d * day_us)
    by lia.
  rewrite Z.div_add by (unfold day_us, hour_us, minute_us, usec; lia).
  rewrite Z.div_small; [lia|].
  unfold day_us, hour_us, minute_us, usec in *. lia.
Qed.

(** An instant built by [datetime(y, m, d, hh, mi, ss, tzinfo=timezone_kst)] from a valid date and a time of day prints with [strftime("%Y-%m-%d")] in KST as [y-m-d]: the date the page writes into its SQL (line 60) is the configured lecture's calendar date. *)
Theorem strftime_kst_datetime y m d hh mi ss :
  valid_date y m d → 0 <= hh < 24 → 0 <= mi < 60 → 0 <= ss < 60 →
  strftime_date timezone_kst (datetime y m d hh mi ss timezone_kst) = mkDate y m d.
Proof. intros Hv Hh Hm Hs. rewrite strftime_datetime by done. by apply civil_days_roundtrip. Qed.

Lemma strftime_kst_datetime_witness :
  (valid_date 2023 3 9 ∧ 0 <= 11 < 24 ∧ 0 <= 0 < 60 ∧ 0 <= 0 < 60) ∧
  strftime_date timezone_kst (datetime 2023 3 9 11 0 0 timezone_kst) = mkDate 2023 3 9.
Proof.
  assert (H : valid_date 2023 3 9) by (apply valid_dateb_spec; reflexivity).
  split; [split_and!; [exact H | lia..] | apply strftime_kst_datetime; [exact H | lia..]].
Defined.
