(* ===== verification/Session.v ===== *)
(** * Session: which lecture the page offers

    Lines 44-66 of [src/Offline_Attendance.py].  The page scans [date_list]
    with
<<
    for i in date_list:
        if i < datetime_kst: continue
        if i > datetime_kst: break
>>
    and classifies the loop variable [i] left after the loop (line 61:
    past, line 63: more than 24 hours ahead, else open).  [date_loop] is the
    loop, [current_session] the classification; [spec_current_session] is
    the selector of the spec (first session not strictly before [now]) and
    the refinement theorem relates the two. *)

From S2P Require Import Prelude Calendar Clock.

Local Open Scope Z_scope.

Module Selector.

(** ** The program's configuration (lines 49 and 52) *)

Definition date_list : list Z :=
  [datetime 2023 3 7 11 0 0 timezone_kst; datetime 2023 3 9 11 0 0 timezone_kst].

Definition student_limit : nat := 50.

(** ** The loop of lines 54-58 *)

(** [i] is the loop variable: [None] while it is unbound.  An instant equal
    to [now] neither continues nor breaks, so the loop goes on to the next
    element with [i] bound to it. *)
Fixpoint date_loop (now : Z) (i : option Z) (l : list Z) : option Z :=
  match l with
  | [] => i
  | t :: l' =>
      if t <? now then date_loop now (Some t) l'
      else if now <? t then Some t
      else date_loop now (Some t) l'
  end.

Inductive session_state :=
  | NoneScheduled
  | NotYetOpen (t : Z)
  | Open (t : Z).

#[export] Instance session_state_eq_dec : EqDecision session_state.
Proof. solve_decision. Defined.

(** Lines 60-66: the branch taken on [i]; reading an unbound [i] raises
    [NameError]. *)
Definition current_session (now : Z) (l : list Z) : outcome session_state :=
  match date_loop now None l with
  | None => Exc NameError
  | Some i =>
      if i <? now then Ok NoneScheduled
      else if now + day_us <? i then Ok (NotYetOpen i)
      else Ok (Open i)
  end.

(** [date_string] of line 60. *)
Definition date_string (i : Z) : date := strftime_date timezone_kst i.

(** ** The selector of the spec (section 4.1) *)

Definition spec_current_session (now : Z) (l : list Z) : session_state :=
  match List.find (λ t, negb (t <? now)) l with
  | None => NoneScheduled
  | Some t => if now + day_us <? t then NotYetOpen t else Open t
  end.

(** ** The loop *)

Lemma date_loop_first_after now o pre t post :
  Forall (λ x, x <= now) pre → now < t →
  date_loop now o (pre ++ t :: post) = Some t.
Proof.
  intros Hpre Ht. revert o. induction Hpre as [|x pre Hx _ IH]; intros o; simpl.
  - rewrite (proj2 (Z.ltb_ge t now)), (proj2 (Z.ltb_lt now t)) by lia. done.
  - destruct (x <? now); [apply IH|].
    rewrite (proj2 (Z.ltb_ge now x)) by lia. apply IH.
Qed.

Lemma date_loop_all_before now o l :
  Forall (λ x, x <= now) l →
  date_loop now o l = match last l with Some x => Some x | None => o end.
Proof.
  intros Hl. revert o. induction Hl as [|x l Hx _ IH]; intros o; [done|].
  cbn [date_loop].
  assert (Hstep : date_loop now (Some x) l
                  = match last (x :: l) with Some y => Some y | None => o end).
  { rewrite IH. destruct l as [|y l]; [done|]. rewrite last_cons_cons.
    destruct (last (y :: l)) eqn:E; [done|]. by apply last_None in E. }
  destruct (x <? now); [done|]. by rewrite (proj2 (Z.ltb_ge now x)) by lia.
Qed.

(** The loop variable is always an element of the list scanned (or the
    initial value). *)
Lemma date_loop_in now o l i :
  date_loop now o l = Some i → i ∈ l ∨ o = Some i.
Proof.
  revert o. induction l as [|t l IH]; intros o; simpl; [by right|].
  intros H. destruct (t <? now); [|destruct (now <? t)].
  - destruct (IH _ H) as [?|[= ->]]; left; set_solver.
  - injection H as ->. left. set_solver.
  - destruct (IH _ H) as [?|[= ->]]; left; set_solver.
Qed.

(** Every list splits at its first element strictly after [now], or has
    none. *)
Lemma split_first_after now (l : list Z) :
  Forall (λ x, x <= now) l ∨
  ∃ pre t post, l = pre ++ t :: post ∧ Forall (λ x, x <= now) pre ∧ now < t.
Proof.
  induction l as [|x l [IH|(pre & t & post & -> & Hpre & Ht)]]; [by left| |].
  - destruct (Z_le_gt_dec x now); [left; by constructor|].
    right. exists [], x, l. split; [done|]. split; [constructor|lia].
  - destruct (Z_le_gt_dec x now).
    + right. exists (x :: pre), t, post. split; [done|]. split; [by constructor|lia].
    + right. exists [], x, (pre ++ t :: post). split; [done|]. split; [constructor|lia].
Qed.

(** ** Behaviour of the page's selector *)

(** The outcome once the loop stopped at the first future session [t]. *)
Lemma current_session_first_after now pre t post :
  Forall (λ x, x <= now) pre → now < t →
  current_session now (pre ++ t :: post)
  = Ok (if now + day_us <? t then NotYetOpen t else Open t).
Proof.
  intros Hpre Ht. unfold current_session.
  rewrite (date_loop_first_after _ _ _ _ _ Hpre Ht), (proj2 (Z.ltb_ge t now)) by lia.
  by destruct (now + day_us <? t).
Qed.

(** When no session lies after [now] the loop ends on the last one. *)
Lemma current_session_all_before now l :
  l ≠ [] → Forall (λ x, x <= now) l →
  current_session now l
  = match last l with
    | Some i => if i <? now then Ok NoneScheduled else Ok (Open i)
    | None => Exc NameError
    end.
Proof.
  intros Hne Hl. unfold current_session. rewrite date_loop_all_before by done.
  destruct (last l) as [i|] eqn:E; [|by apply last_None in E].
  apply (Forall_last _ _ _ Hl) in E.
  case_if; [done|]. by rewrite (proj2 (Z.ltb_ge (now + day_us) i))
    by (unfold day_us, hour_us, minute_us, usec; lia).
Qed.

(** The spec's search skips the sessions strictly before [now]. *)
Lemma find_skip_past now pre post :
  Forall (λ x, x < now) pre →
  List.find (λ t, negb (t <? now)) (pre ++ post) = List.find (λ t, negb (t <? now)) post.
Proof.
  induction 1 as [|x pre Hx _ IH]; [done|]. simpl.
  by rewrite (proj2 (Z.ltb_lt x now)) by done.
Qed.

Lemma Forall_le_ne_lt now (l : list Z) :
  Forall (λ x, x <= now) l → Forall (λ x, x ≠ now) l → Forall (λ x, x < now) l.
Proof. rewrite !Forall_forall. intros H1 H2 x Hx. specialize (H1 x Hx). specialize (H2 x Hx). lia. Qed.

(** ** Theorems on the selector *)

Lemma current_session_past now l :
  l ≠ [] → Forall (λ t, t < now) l → current_session now l = Ok NoneScheduled.
Proof.
  intros Hne Hl. rewrite current_session_all_before by
    (done || (eapply Forall_impl; [exact Hl|]; simpl; lia)).
  destruct (last l) as [i|] eqn:E; [|by apply last_None in E].
  apply (Forall_last _ _ _ Hl) in E.
  by rewrite (proj2 (Z.ltb_lt i now)).
Qed.

(** The lecture offered for registration is one of the configured ones. *)
Lemma current_session_open_in now l i : current_session now l = Ok (Open i) → i ∈ l.
Proof.
  unfold current_session. destruct (date_loop now None l) as [j|] eqn:E; [|done].
  intros Hj. assert (j = i) as -> by (revert Hj; repeat case_if; congruence).
  by destruct (date_loop_in _ _ _ _ E) as [?|?].
Qed.

(** When the first session after [now] is more than 24 hours ahead, the page announces it as the next lecture without opening registration. *)
Theorem current_session_not_yet_open now pre t post :
  Forall (λ x, x <= now) pre → now + day_us < t →
  current_session now (pre ++ t :: post) = Ok (NotYetOpen t).
Proof.
  intros Hpre Ht. rewrite current_session_first_after by
    (done || (unfold day_us, hour_us, minute_us, usec in *; lia)).
  by rewrite (proj2 (Z.ltb_lt _ _ )).
Qed.

(** C16: when the first session after [now] is at most 24 hours ahead (the bound included), registration for it is open. *)
Theorem current_session_open_window now pre t post :
  Forall (λ x, x <= now) pre → now < t <= now + day_us →
  current_session now (pre ++ t :: post) = Ok (Open t).
Proof.
  intros Hpre Ht. rewrite current_session_first_after by (done || lia).
  by rewrite (proj2 (Z.ltb_ge _ _ )) by lia.
Qed.

(** Once [i] is bound the loop never unbinds it. *)
Lemma date_loop_bound now x l : date_loop now (Some x) l ≠ None.
Proof.
  induction l as [|t l IH] in x |- *; simpl; [done|].
  destruct (t <? now); [apply IH|]. destruct (now <? t); [done|apply IH].
Qed.

(** C17: registration is only ever offered for a configured lecture, and only from 24 hours before its start up to its start, both included: whatever the schedule and the clock, an [Open i] outcome has [i] in the schedule and [now <= i <= now + 24h]. *)
Theorem current_session_open_sound now l i :
  current_session now l = Ok (Open i) → i ∈ l ∧ now <= i <= now + day_us.
Proof.
  intros H. split; [by eapply current_session_open_in|]. revert H. unfold current_session.
  destruct (date_loop now None l) as [j|]; [|done].
  destruct (j <? now) eqn:E1; [done|]. destruct (now + day_us <? j) eqn:E2; [done|].
  intros [= ->]. apply Z.ltb_ge in E1, E2. lia.
Qed.

(** C18: the session check raises [NameError] exactly when the schedule is empty: on a non-empty schedule the loop of lines 54-58 always binds [i], whatever [now]; on an empty one [i] stays unbound (the spec asks for "no session" there). *)
Theorem current_session_empty now l : current_session now l = Exc NameError ↔ l = [].
Proof.
  split; [|by intros ->]. destruct l as [|t l]; [done|]. unfold current_session.
  destruct (date_loop now None (t :: l)) as [i|] eqn:E; [by repeat case_if|].
  exfalso. revert E. cbn [date_loop].
  destruct (t <? now); [apply date_loop_bound|]. destruct (now <? t); [done|apply date_loop_bound].
Qed.

(** C14: when no configured instant equals [now] exactly, the page's loop and classification give the selector of the spec (first session not strictly before [now], open within 24 hours). *)
Theorem current_session_refines_spec now l :
  l ≠ [] → Forall (λ t, t ≠ now) l →
  current_session now l = Ok (spec_current_session now l).
Proof.
  intros Hne Hneq. unfold spec_current_session.
  destruct (split_first_after now l) as [Hall|(pre & t & post & -> & Hpre & Ht)].
  - pose proof (Forall_le_ne_lt _ _ Hall Hneq) as Hlt.
    rewrite current_session_past by done.
    rewrite <- (app_nil_r l), find_skip_past by done. done.
  - apply Forall_app in Hneq as [Hn _].
    pose proof (Forall_le_ne_lt _ _ Hpre Hn) as Hlt.
    rewrite current_session_first_after, find_skip_past by done. simpl.
    by rewrite (proj2 (Z.ltb_ge t now)) by lia.
Qed.

(** The page's own schedule: two lectures 48 hours apart, so the whole
    timeline of the configured page follows. *)
Definition lecture1 : Z := datetime 2023 3 7 11 0 0 timezone_kst.
Definition lecture2 : Z := datetime 2023 3 9 11 0 0 timezone_kst.

(** Z comparisons as booleans, one [destruct] per test. *)
Ltac split_ltb :=
  repeat match goal with
  | |- context [?a <? ?b] => destruct (Z.ltb_spec a b)
  | |- context [?a <=? ?b] => destruct (Z.leb_spec a b)
  end.

(** The timeline of any two-session schedule whose sessions are more than
    24 hours apart. *)
Lemma two_session_timeline now a b :
  a + day_us < b →
  current_session now [a; b] =
  Ok (if now <? a - day_us then NotYetOpen a
      else if now <? a then Open a
      else if now <? b - day_us then NotYetOpen b
      else if now <=? b then Open b
      else NoneScheduled).
Proof.
  intros Hab. pose proof day_us_pos as Hday.
  destruct (Z_lt_le_dec now a) as [H1|H1].
  { pose proof (current_session_first_after now [] a [b] ltac:(constructor) H1) as E.
    simpl in E. rewrite E.
    f_equal. split_ltb; first [done | exfalso; lia]. }
  destruct (Z_lt_le_dec now b) as [H2|H2].
  { pose proof (current_session_first_after now [a] b [] ltac:(repeat constructor; lia) H2)
      as E. simpl in E. rewrite E.
    f_equal. split_ltb; first [done | exfalso; lia]. }
  rewrite current_session_all_before by (done || (repeat constructor; lia)). simpl.
  split_ltb; first [done | exfalso; lia].
Qed.

(** C13: for the page's own schedule (2023-03-07 and 2023-03-09, 11:00 KST) the selector announces the first lecture until 24 hours before it, offers it until its start (exclusive), then announces the second lecture until 24 hours before it, offers it until its start (inclusive), and reports no lecture afterwards. *)
Theorem date_list_timeline now :
  current_session now date_list =
  Ok (if now <? lecture1 - day_us then NotYetOpen lecture1
      else if now <? lecture1 then Open lecture1
      else if now <? lecture2 - day_us then NotYetOpen lecture2
      else if now <=? lecture2 then Open lecture2
      else NoneScheduled).
Proof. apply two_session_timeline. vm_compute. reflexivity. Qed.

(** C15: at the exact start instant [now] of a configured lecture that is followed by a later one [t] (all earlier ones past), neither [continue] nor [break] fires on it, so the loop moves on and the page classifies [t] instead (not yet open, or open when [t] is within 24 hours), while the spec selects the lecture starting at [now], open. *)
Theorem current_session_at_start_diverges now pre t post :
  Forall (λ x, x < now) pre → now < t →
  current_session now (pre ++ now :: t :: post)
  = Ok (if now + day_us <? t then NotYetOpen t else Open t) ∧
  spec_current_session now (pre ++ now :: t :: post) = Open now.
Proof.
  intros Hpre Ht. split.
  - replace (pre ++ now :: t :: post) with ((pre ++ [now]) ++ t :: post) by (by rewrite <- app_assoc).
    apply current_session_first_after; [|done].
    apply Forall_app. split; [|by repeat constructor].
    eapply Forall_impl; [exact Hpre|]. simpl. lia.
  - unfold spec_current_session. rewrite find_skip_past by done. simpl.
    rewrite Z.ltb_irrefl. simpl.
    by rewrite (proj2 (Z.ltb_ge (now + day_us) now)) by (unfold day_us, hour_us, minute_us, usec; lia).
Qed.

(** C19: [utcnow().astimezone] reads the UTC wall clock as server-local time, so on a server [off] ahead of UTC (0 < off ≤ 24h) the first lecture's registration, open at the true instant, is still shown as not yet open for [off]. *)
Theorem server_offset_shifts_window u off :
  0 < off <= day_us → lecture1 - day_us <= u < lecture1 - day_us + off →
  current_session (utcnow_astimezone u 0) date_list = Ok (Open lecture1) ∧
  current_session (utcnow_astimezone u off) date_list = Ok (NotYetOpen lecture1).
Proof.
  intros Hoff Hu. unfold utcnow_astimezone. change date_list with [lecture1; lecture2].
  rewrite !(two_session_timeline _ lecture1 lecture2) by (vm_compute; reflexivity).
  split; f_equal; split_ltb; first [done | exfalso; lia].
Qed.

(** Once every configured session lies strictly before [now], the page reports that no lecture is scheduled. *)
Theorem current_session_all_past now l :
  l ≠ [] → Forall (λ t, t < now) l → current_session now l = Ok NoneScheduled.
Proof. apply current_session_past. Qed.

(** ** Witnesses *)

Lemma current_session_all_past_witness :
  ([lecture1; lecture2] ≠ [] ∧ Forall (λ t, t < lecture2 + 1) [lecture1; lecture2]) ∧
  current_session (lecture2 + 1) date_list = Ok NoneScheduled.
Proof.
  split; [split; [discriminate | repeat constructor; vm_compute; reflexivity]|].
  apply current_session_all_past; [discriminate | repeat constructor; vm_compute; reflexivity].
Defined.

Lemma current_session_not_yet_open_witness :
  (Forall (λ x, x <= lecture1) [lecture1] ∧ lecture1 + day_us < lecture2) ∧
  current_session lecture1 ([lecture1] ++ lecture2 :: []) = Ok (NotYetOpen lecture2).
Proof.
  split; [split; [repeat constructor; vm_compute; discriminate | vm_compute; reflexivity]|].
  apply current_session_not_yet_open;
    [repeat constructor; vm_compute; discriminate | vm_compute; reflexivity].
Defined.

Lemma current_session_open_window_witness :
  (Forall (λ x, x <= lecture1 - day_us) [] ∧
   lecture1 - day_us < lecture1 <= lecture1 - day_us + day_us) ∧
  current_session (lecture1 - day_us) ([] ++ lecture1 :: [lecture2]) = Ok (Open lecture1).
Proof.
  split; [split; [constructor | vm_compute; split; [reflexivity | discriminate]]|].
  apply current_session_open_window;
    [constructor | vm_compute; split; [reflexivity | discriminate]].
Defined.

(** The page's schedule at the first lecture's start: the second lecture,
    48 hours ahead, is announced as not yet open. *)
Lemma current_session_at_start_diverges_witness :
  (Forall (λ x, x < lecture1) [] ∧ lecture1 < lecture2) ∧
  current_session lecture1 ([] ++ lecture1 :: lecture2 :: [])
  = Ok (if lecture1 + day_us <? lecture2 then NotYetOpen lecture2 else Open lecture2) ∧
  spec_current_session lecture1 ([] ++ lecture1 :: lecture2 :: []) = Open lecture1.
Proof.
  assert (H : lecture1 < lecture2) by (vm_compute; reflexivity).
  split; [split; [constructor|exact H]|].
  exact (current_session_at_start_diverges _ _ _ _ (Forall_nil_2 _) H).
Defined.

Lemma current_session_open_sound_witness :
  current_session (lecture1 - 1) date_list = Ok (Open lecture1) ∧
  (lecture1 ∈ date_list ∧ lecture1 - 1 <= lecture1 <= lecture1 - 1 + day_us).
Proof.
  assert (H : current_session (lecture1 - 1) date_list = Ok (Open lecture1))
    by (vm_compute; reflexivity).
  split; [exact H | exact (current_session_open_sound _ _ _ H)].
Defined.

Lemma current_session_refines_spec_witness :
  (date_list ≠ [] ∧ Forall (λ t, t ≠ lecture1 - 1) date_list) ∧
  current_session (lecture1 - 1) date_list = Ok (spec_current_session (lecture1 - 1) date_list).
Proof.
  split; [split; [discriminate | repeat constructor; vm_compute; discriminate]|].
  apply current_session_refines_spec;
    [discriminate | repeat constructor; vm_compute; discriminate].
Defined.

Lemma server_offset_shifts_window_witness :
  (0 < timezone_kst <= day_us ∧
   lecture1 - day_us <= lecture1 - day_us < lecture1 - day_us + timezone_kst) ∧
  current_session (utcnow_astimezone (lecture1 - day_us) 0) date_list = Ok (Open lecture1) ∧
  current_session (utcnow_astimezone (lecture1 - day_us) timezone_kst) date_list
  = Ok (NotYetOpen lecture1).
Proof.
  assert (Hw : 0 < timezone_kst <= day_us ∧
               lecture1 - day_us <= lecture1 - day_us < lecture1 - day_us + timezone_kst)
    by (vm_compute; repeat split; (reflexivity || discriminate)).
  split; [exact Hw|]. destruct Hw as [Hoff Hu].
  apply (server_offset_shifts_window _ _ Hoff Hu).
Defined.

End Selector.
