(* ===== verification/Store.v ===== *)
(** * Store: the table [apply] and the page's SQL statements

    The table [apply(aid, sname, sid, attend_date, apply_timestamp, secret,
    canceled)] of [src/Offline_Attendance.py]: [aid] is drawn from a SERIAL
    sequence and [canceled] defaults to false.  The page sends five
    statements (lines 69, 88, 93, 121/141 and 148); each is a function on
    the table below.  A SELECT returns the rows in physical order, which is
    insertion order for the rows with [canceled = False] (an UPDATE only
    ever turns rows canceled).

    The invariants of the table are [aids_fresh] (the [aid]s are distinct
    and below the next sequence value) and [unique_active] (at most one
    active registration per student and date).  [abs_table] abstracts a
    table into the map [(sid, date) -> secret] of the spec, and the insert
    and cancel statements refine insert and delete on that map. *)

From S2P Require Import Prelude Calendar Clock.

Module Table.

Record row := mkRow {
  aid : Z;
  sname : string;
  sid : string;
  attend_date : date;
  apply_timestamp : Z;
  secret : string;
  canceled : bool
}.

#[export] Instance row_eq_dec : EqDecision row.
Proof. solve_decision. Defined.

(** The rows, and the next value of the [aid] sequence. *)
Record table := mkTable { rows : list row; aid_next : Z }.

(** A fresh table: no rows, the sequence starts at 1. *)
Definition empty_table : table := mkTable [] 1.

(** ** WHERE clauses *)

(** [attend_date = '{date_string}' and canceled = False] *)
Definition active_on (d : date) (r : row) : Prop :=
  attend_date r = d ∧ canceled r = false.

(** [sid = '{sid}' and attend_date = '{date_string}' and canceled = False] *)
Definition registered (s : string) (d : date) (r : row) : Prop :=
  sid r = s ∧ active_on d r.

(** ... [and secret = '{spwd}'] *)
Definition matches_secret (s : string) (d : date) (p : string) (r : row) : Prop :=
  registered s d r ∧ secret r = p.

#[export] Instance active_on_dec d r : Decision (active_on d r).
Proof. unfold active_on. apply _. Defined.
#[export] Instance registered_dec s d r : Decision (registered s d r).
Proof. unfold registered. apply _. Defined.
#[export] Instance matches_secret_dec s d p r : Decision (matches_secret s d p r).
Proof. unfold matches_secret. apply _. Defined.

(** ** Statements *)

(** Line 69: [SELECT count( * ) FROM apply WHERE attend_date = ... and
    canceled = False]. *)
Definition count_active (d : date) (tb : table) : nat :=
  length (filter (active_on d) (rows tb)).

(** Line 88: [SELECT * FROM apply WHERE sid = ... and attend_date = ...
    and canceled = False]. *)
Definition select_registered (s : string) (d : date) (tb : table) : list row :=
  filter (registered s d) (rows tb).

(** Lines 121 and 141: the same with [and secret = '{spwd}'].  The page
    shows the columns [aid, sname, sid, attend_date]. *)
Definition select_secret (s : string) (d : date) (p : string) (tb : table) : list row :=
  filter (matches_secret s d p) (rows tb).

(** Line 93: [INSERT INTO apply (sname, sid, attend_date, apply_timestamp,
    secret) VALUES (...)]; [aid] takes [nextval] and [canceled] its
    default. *)
Definition insert_apply (n s : string) (d : date) (ts : Z) (p : string) (tb : table) : table :=
  mkTable (rows tb ++ [mkRow (aid_next tb) n s d ts p false]) (aid_next tb + 1)%Z.

Definition cancel_row (a : Z) (r : row) : row :=
  if decide (aid r = a) then
    mkRow (aid r) (sname r) (sid r) (attend_date r) (apply_timestamp r) (secret r) true
  else r.

(** Line 148: [UPDATE apply SET canceled = True WHERE aid = '{aid}']. *)
Definition update_cancel (a : Z) (tb : table) : table :=
  mkTable (map (cancel_row a) (rows tb)) (aid_next tb).

(** ** Invariants *)

Definition aids_fresh (tb : table) : Prop :=
  Forall (λ r, aid r < aid_next tb)%Z (rows tb) ∧ NoDup (map aid (rows tb)).

Definition unique_active (tb : table) : Prop :=
  ∀ s d, length (select_registered s d tb) ≤ 1.

(** The active registrations of every date stay within the limit. *)
Definition within_capacity (limit : nat) (tb : table) : Prop :=
  ∀ d, count_active d tb ≤ limit.

(** ** Abstraction: the registrations the spec talks about *)

Definition reg_key (r : row) : string * date := (sid r, attend_date r).

Definition abs_rows (l : list row) : gmap (string * date) string :=
  list_to_map (map (λ r, (reg_key r, secret r)) (filter (λ r, canceled r = false) l)).

Definition abs_table (tb : table) : gmap (string * date) string := abs_rows (rows tb).

(** The spec's count of the registrations of one date. *)
Definition reg_count (d : date) (R : gmap (string * date) string) : nat :=
  size (filter (λ kv : (string * date) * string, kv.1.2 = d) R).

(** ** Record lifecycle *)

(** A row may only go from active to canceled; no other column changes. *)
Definition row_evolves (r r' : row) : Prop :=
  r' = r ∨
  (canceled r = false ∧
   r' = mkRow (aid r) (sname r) (sid r) (attend_date r) (apply_timestamp r) (secret r) true).

(** Every row of [tb] is still at its position in [tb'], possibly canceled;
    rows are only added at the end. *)
Definition table_evolves (tb tb' : table) : Prop :=
  ∃ kept added, Forall2 row_evolves (rows tb) kept ∧ rows tb' = kept ++ added.

(** ** Lemmas on the statements *)

Lemma registered_cancel_row s d a r :
  registered s d (cancel_row a r) → cancel_row a r = r.
Proof.
  unfold cancel_row, registered, active_on. case_decide; simpl; [|done].
  intros (_ & _ & ?). discriminate.
Qed.

Lemma active_on_cancel_row d a r :
  active_on d (cancel_row a r) → cancel_row a r = r.
Proof.
  unfold cancel_row, active_on. case_decide; simpl; [|done]. intros (_ & ?). discriminate.
Qed.

Lemma registered_active s d r : registered s d r → active_on d r.
Proof. by intros [_ ?]. Qed.

Lemma cancel_row_aid a r : aid (cancel_row a r) = aid r.
Proof. unfold cancel_row. by case_decide. Qed.

Lemma cancel_row_key a r : reg_key (cancel_row a r) = reg_key r.
Proof. unfold cancel_row. by case_decide. Qed.

Lemma map_aid_cancel a l : map aid (map (cancel_row a) l) = map aid l.
Proof. rewrite map_map. apply map_ext, cancel_row_aid. Qed.

Lemma select_registered_insert_same n s d ts p tb :
  select_registered s d (insert_apply n s d ts p tb)
  = select_registered s d tb ++ [mkRow (aid_next tb) n s d ts p false].
Proof.
  unfold select_registered, insert_apply. simpl. rewrite filter_app. f_equal.
  rewrite filter_cons_True; [done|]. by repeat split.
Qed.

Lemma select_registered_insert_other n s d ts p tb s' d' :
  (s', d') ≠ (s, d) →
  select_registered s' d' (insert_apply n s d ts p tb) = select_registered s' d' tb.
Proof.
  intros Hne. unfold select_registered, insert_apply. simpl. rewrite filter_app.
  rewrite filter_cons_False, app_nil_r; [done|].
  intros (Hs & Hd & _). simpl in *. congruence.
Qed.

Lemma count_active_insert_same n s d ts p tb :
  count_active d (insert_apply n s d ts p tb) = S (count_active d tb).
Proof.
  unfold count_active, insert_apply. simpl. rewrite filter_app_length, filter_cons_True
    by (by split). simpl. lia.
Qed.

Lemma count_active_insert_other n s d ts p tb d' :
  d' ≠ d → count_active d' (insert_apply n s d ts p tb) = count_active d' tb.
Proof.
  intros Hne. unfold count_active, insert_apply. simpl.
  rewrite filter_app_length, filter_cons_False by (intros [? _]; simpl in *; congruence).
  simpl. lia.
Qed.

Lemma count_active_cancel a d tb :
  count_active d (update_cancel a tb) ≤ count_active d tb.
Proof. apply filter_map_length_le, active_on_cancel_row. Qed.

Lemma select_registered_cancel_le a s d tb :
  length (select_registered s d (update_cancel a tb)) ≤ length (select_registered s d tb).
Proof. apply filter_map_length_le, registered_cancel_row. Qed.

Lemma select_secret_sub s d p tb r :
  r ∈ select_secret s d p tb → r ∈ select_registered s d tb.
Proof.
  unfold select_secret, select_registered. rewrite !list_elem_of_filter.
  intros [[? ?] ?]. done.
Qed.

Lemma abs_rows_lookup l s d :
  abs_rows l !! (s, d) = secret <$> head (filter (registered s d) l).
Proof.
  induction l as [|x l IH]; [done|]. unfold abs_rows in *. simpl.
  rewrite (filter_cons (λ r, canceled r = false)), (filter_cons (registered s d)).
  destruct (canceled x) eqn:Ec.
  - rewrite decide_False by done. rewrite decide_False by (intros (_ & _ & ?); congruence).
    exact IH.
  - rewrite decide_True by done. simpl. rewrite lookup_insert.
    unfold reg_key, registered, active_on.
    destruct (decide ((sid x, attend_date x) = (s, d))) as [Heq|Hne].
    + injection Heq as <- <-. by rewrite decide_True.
    + rewrite decide_False by naive_solver. exact IH.
Qed.

Lemma abs_table_lookup tb s d :
  abs_table tb !! (s, d) = secret <$> head (select_registered s d tb).
Proof. apply abs_rows_lookup. Qed.

(** With one active row per key at most, the active rows of a date are
    the registry's entries for that date. *)
Lemma abs_rows_count l d :
  (∀ s d', length (filter (registered s d') l) ≤ 1) →
  length (filter (active_on d) l) = reg_count d (abs_rows l).
Proof.
  induction l as [|x l IH]; intros Hu; [done|].
  assert (Hl : ∀ s d', length (filter (registered s d') l) ≤ 1).
  { intros s d'. specialize (Hu s d'). rewrite filter_cons in Hu.
    case_decide; simpl in Hu; lia. }
  unfold reg_count, abs_rows in *. simpl.
  rewrite (filter_cons (λ r, canceled r = false)), (filter_cons (active_on d)).
  destruct (canceled x) eqn:Ec.
  - rewrite (decide_False (P:=active_on d x)) by (intros [_ ?]; congruence).
    rewrite (decide_False (P:=true = false)) by done. by apply IH.
  - rewrite (decide_True (P:=false = false)) by done. simpl.
    assert (Hnone : abs_rows l !! reg_key x = None).
    { unfold reg_key. rewrite abs_rows_lookup.
      specialize (Hu (sid x) (attend_date x)).
      rewrite filter_cons, decide_True in Hu by done. simpl in Hu.
      destruct (filter (registered (sid x) (attend_date x)) l); [done|simpl in Hu; lia]. }
    unfold abs_rows in Hnone.
    destruct (decide (attend_date x = d)) as [<-|Hne].
    + rewrite (decide_True (P:=active_on _ x)) by done. rewrite map_filter_insert_True by done.
      rewrite map_size_insert_None; [simpl; by rewrite IH|].
      apply map_lookup_filter_None. by left.
    + rewrite (decide_False (P:=active_on d x)) by (intros [? _]; done).
      rewrite map_filter_insert_False by done. rewrite delete_id by done.
      by apply IH.
Qed.

Lemma count_active_abs d tb : unique_active tb → count_active d tb = reg_count d (abs_table tb).
Proof. apply abs_rows_count. Qed.

(** The registry holds [p] for [(s, d)] exactly when the page's
    [SELECT ... and secret = p] finds a row. *)
Lemma abs_table_secret tb s d p :
  unique_active tb → abs_table tb !! (s, d) = Some p ↔ select_secret s d p tb ≠ [].
Proof.
  intros Hu. rewrite abs_table_lookup. split.
  - destruct (select_registered s d tb) as [|r rs] eqn:E; [done|]. simpl. intros [= <-] Hnil.
    assert (Hr : r ∈ select_registered s d tb) by (rewrite E; by left).
    unfold select_registered in Hr. rewrite list_elem_of_filter in Hr.
    assert (Hs : r ∈ select_secret s d (secret r) tb)
      by (unfold select_secret; rewrite list_elem_of_filter; by destruct Hr).
    rewrite Hnil in Hs. set_solver.
  - destruct (select_secret s d p tb) as [|r rs] eqn:E; [done|]. intros _.
    assert (Hr : r ∈ select_secret s d p tb) by (rewrite E; by left).
    pose proof (select_secret_sub _ _ _ _ _ Hr) as Hreg.
    unfold select_secret in Hr. rewrite list_elem_of_filter in Hr. destruct Hr as [[_ <-] _].
    specialize (Hu s d).
    destruct (select_registered s d tb) as [|r' [|r'' rs']]; simpl in *; [set_solver| |lia].
    f_equal. set_solver.
Qed.

Lemma map_cancel_row_notin a l : a ∉ map aid l → map (cancel_row a) l = l.
Proof.
  induction l as [|x l IH]; intros Ha; [done|]. simpl in *.
  rewrite not_elem_of_cons in Ha. destruct Ha as [Hx Hl].
  unfold cancel_row at 1. rewrite decide_False by done. by rewrite IH.
Qed.

(** With distinct [aid]s the UPDATE by [aid] touches exactly one row. *)
Lemma update_cancel_split tb pre r post :
  aids_fresh tb → rows tb = pre ++ r :: post →
  rows (update_cancel (aid r) tb)
  = pre ++ mkRow (aid r) (sname r) (sid r) (attend_date r) (apply_timestamp r) (secret r) true :: post.
Proof.
  intros [_ Hnd] Hrows. unfold update_cancel. simpl. rewrite Hrows in Hnd |- *.
  rewrite map_app, NoDup_app in Hnd. destruct Hnd as (_ & Hdis & Hnd). simpl in Hnd.
  apply NoDup_cons in Hnd as [Hpost _].
  assert (Hpre : aid r ∉ map aid pre) by (intros Hin; apply (Hdis _ Hin); by left).
  rewrite map_app. simpl. rewrite !map_cancel_row_notin by done.
  unfold cancel_row. by rewrite decide_True.
Qed.

Lemma registered_nil_abs s d tb :
  select_registered s d tb = [] → abs_table tb !! (s, d) = None.
Proof. intros H. by rewrite abs_table_lookup, H. Qed.

Lemma registered_cons_abs s d tb r rs :
  select_registered s d tb = r :: rs → abs_table tb !! (s, d) = Some (secret r).
Proof. intros H. by rewrite abs_table_lookup, H. Qed.

Lemma secret_nil_abs s d p tb :
  unique_active tb → select_secret s d p tb = [] → abs_table tb !! (s, d) ≠ Some p.
Proof. intros Hu H Ha. apply (abs_table_secret _ _ _ _ Hu) in Ha. by rewrite H in Ha. Qed.

Lemma secret_cons_abs s d p tb r rs :
  unique_active tb → select_secret s d p tb = r :: rs → abs_table tb !! (s, d) = Some p.
Proof. intros Hu H. apply (abs_table_secret _ _ _ _ Hu). by rewrite H. Qed.

(** The only active registration of its student and date. *)
Lemma select_registered_single tb s d r :
  unique_active tb → r ∈ select_registered s d tb → select_registered s d tb = [r].
Proof.
  intros Hu Hr. specialize (Hu s d).
  destruct (select_registered s d tb) as [|x [|y l]] eqn:E; simpl in Hu.
  - set_solver.
  - f_equal. set_solver.
  - lia.
Qed.

(** After its cancellation, a registration that was the only one of its
    student and date leaves no active registration for them. *)
Lemma select_registered_cancel_same tb s d r :
  unique_active tb → r ∈ select_registered s d tb →
  select_registered s d (update_cancel (aid r) tb) = [].
Proof.
  intros Hu Hr. pose proof (select_registered_single _ _ _ _ Hu Hr) as Hone.
  unfold select_registered, update_cancel in *. simpl.
  apply filter_nil_forall, Forall_forall. intros y Hy Hreg.
  apply list_elem_of_In, in_map_iff in Hy as (x & <- & Hx). apply list_elem_of_In in Hx.
  pose proof (registered_cancel_row _ _ _ _ Hreg) as Hid. rewrite Hid in Hreg.
  assert (x ∈ filter (registered s d) (rows tb)) as Hin by (apply list_elem_of_filter; done).
  rewrite Hone, list_elem_of_singleton in Hin. subst x.
  unfold cancel_row in Hid. rewrite decide_True in Hid by done.
  destruct Hreg as (_ & _ & Hc). rewrite <- Hid in Hc. discriminate.
Qed.

(** Other students and dates are untouched by a cancellation by [aid]. *)
Lemma select_registered_cancel_other tb s d r s' d' :
  aids_fresh tb → r ∈ select_registered s d tb → (s', d') ≠ (s, d) →
  select_registered s' d' (update_cancel (aid r) tb) = select_registered s' d' tb.
Proof.
  intros [_ Hnd] Hr Hne. unfold select_registered, update_cancel in *. simpl.
  apply list_elem_of_filter in Hr as [Hreg Hr].
  apply filter_map_id.
  - intros x _ Hx. by rewrite <- (registered_cancel_row _ _ _ _ Hx).
  - intros x Hx Hreg'. unfold cancel_row. case_decide as Ha; [|done].
    rewrite (NoDup_map_inj_in _ _ _ _ Hnd Hx Hr Ha) in Hreg'.
    destruct Hreg as (<- & <- & _), Hreg' as (<- & <- & _). done.
Qed.

(** ** Invariant preservation *)

Lemma insert_apply_unique n s d ts p tb :
  unique_active tb → select_registered s d tb = [] →
  unique_active (insert_apply n s d ts p tb).
Proof.
  intros Hu Hnone s' d'.
  destruct (decide ((s', d') = (s, d))) as [[= -> ->]|Hne].
  - by rewrite select_registered_insert_same, Hnone.
  - rewrite select_registered_insert_other by done. apply Hu.
Qed.

Lemma update_cancel_unique a tb : unique_active tb → unique_active (update_cancel a tb).
Proof. intros Hu s d. etrans; [apply select_registered_cancel_le|apply Hu]. Qed.

Lemma insert_apply_fresh n s d ts p tb :
  aids_fresh tb → aids_fresh (insert_apply n s d ts p tb).
Proof.
  intros [Hlt Hnd]. unfold insert_apply. split; simpl.
  - apply Forall_app; split; [|constructor; [simpl; lia|constructor]].
    eapply Forall_impl; [exact Hlt|]. simpl. lia.
  - rewrite map_app. apply NoDup_app. split; [done|]. split; [|apply NoDup_singleton].
    intros a Ha Ha'. simpl in Ha'. apply list_elem_of_singleton in Ha'. subst a.
    apply list_elem_of_In, in_map_iff in Ha as (x & Hx & Hin).
    rewrite Forall_forall in Hlt. specialize (Hlt x (proj2 (list_elem_of_In _ _) Hin)). lia.
Qed.

Lemma update_cancel_fresh a tb : aids_fresh tb → aids_fresh (update_cancel a tb).
Proof.
  intros [Hlt Hnd]. unfold update_cancel. split; simpl.
  - apply Forall_map. eapply Forall_impl; [exact Hlt|]. intros x. by rewrite cancel_row_aid.
  - by rewrite map_aid_cancel.
Qed.

Lemma insert_apply_capacity limit n s d ts p tb :
  within_capacity limit tb → count_active d tb < limit →
  within_capacity limit (insert_apply n s d ts p tb).
Proof.
  intros Hc Hlt d'. destruct (decide (d' = d)) as [->|Hne].
  - rewrite count_active_insert_same. lia.
  - rewrite count_active_insert_other by done. apply Hc.
Qed.

Lemma update_cancel_capacity limit a tb :
  within_capacity limit tb → within_capacity limit (update_cancel a tb).
Proof. intros Hc d. etrans; [apply count_active_cancel|apply Hc]. Qed.

(** ** Refinement of the spec's registry *)

Lemma abs_insert_apply n s d ts p tb :
  select_registered s d tb = [] →
  abs_table (insert_apply n s d ts p tb) = <[(s, d) := p]> (abs_table tb).
Proof.
  intros Hnone. apply map_eq. intros [s' d']. rewrite !abs_table_lookup.
  destruct (decide ((s', d') = (s, d))) as [[= -> ->]|Hne].
  - by rewrite lookup_insert_eq, select_registered_insert_same, Hnone.
  - rewrite lookup_insert_ne by congruence.
    by rewrite abs_table_lookup, select_registered_insert_other.
Qed.

Lemma abs_update_cancel tb s d p r :
  aids_fresh tb → unique_active tb → r ∈ select_secret s d p tb →
  abs_table (update_cancel (aid r) tb) = delete (s, d) (abs_table tb).
Proof.
  intros Hf Hu Hr. apply select_secret_sub in Hr.
  apply map_eq. intros [s' d']. rewrite abs_table_lookup.
  destruct (decide ((s', d') = (s, d))) as [[= -> ->]|Hne].
  - by rewrite lookup_delete_eq, (select_registered_cancel_same _ _ _ _ Hu Hr).
  - rewrite lookup_delete_ne by congruence.
    by rewrite abs_table_lookup, (select_registered_cancel_other _ _ _ _ _ _ Hf Hr Hne).
Qed.

(** ** The lifecycle relation *)

#[export] Instance row_evolves_preorder : PreOrder row_evolves.
Proof.
  split; [by left|]. intros r1 r2 r3 [->|[Hc ->]] [->|[Hc' ->]]; [by left|by right|by right|].
  simpl in Hc'. discriminate.
Qed.

#[export] Instance table_evolves_preorder : PreOrder table_evolves.
Proof.
  split.
  - intros tb. exists (rows tb), []. rewrite app_nil_r. split; [|done].
    apply Forall2_same_length_lookup. split; [done|]. intros i x y Hx Hy.
    rewrite Hx in Hy. injection Hy as ->. reflexivity.
  - intros tb1 tb2 tb3 (k1 & a1 & H1 & E1) (k2 & a2 & H2 & E2).
    rewrite E1 in H2. apply Forall2_app_inv_l in H2 as (k2a & k2b & H2a & H2b & ->).
    exists k2a, (k2b ++ a2). rewrite E2, app_assoc. split; [|done].
    eapply Forall2_trans; [|exact H1|exact H2a]. intros x y z. apply transitivity.
Qed.

Lemma row_evolves_cancel_row a r : row_evolves r (cancel_row a r).
Proof.
  unfold cancel_row. case_decide; [|by left].
  destruct r as [? ? ? ? ? ? []]; [by left|by right].
Qed.

Lemma insert_apply_evolves n s d ts p tb : table_evolves tb (insert_apply n s d ts p tb).
Proof.
  exists (rows tb), [mkRow (aid_next tb) n s d ts p false]. split; [|done].
  apply Forall2_same_length_lookup. split; [done|]. intros i x y Hx Hy.
  rewrite Hx in Hy. injection Hy as ->. reflexivity.
Qed.

Lemma update_cancel_evolves a tb : table_evolves tb (update_cancel a tb).
Proof.
  exists (map (cancel_row a) (rows tb)), []. rewrite app_nil_r. split; [|done].
  apply Forall2_fmap_r, Forall_Forall2_diag, Forall_forall. intros r _.
  apply row_evolves_cancel_row.
Qed.

(** A row of an earlier table has a successor row in a later one. *)
Lemma table_evolves_row tb tb' r :
  table_evolves tb tb' → r ∈ rows tb → ∃ r', r' ∈ rows tb' ∧ row_evolves r r'.
Proof.
  intros (kept & added & Hk & ->) Hr.
  apply list_elem_of_lookup in Hr as [i Hi].
  destruct (Forall2_lookup_l _ _ _ _ _ Hk Hi) as (r' & Hr' & Hev).
  exists r'. split; [|done]. apply elem_of_app. left. by eapply list_elem_of_lookup_2.
Qed.

#[export] Hint Resolve insert_apply_evolves update_cancel_evolves : attend.

#[export] Hint Resolve insert_apply_unique update_cancel_unique insert_apply_fresh
  update_cancel_fresh insert_apply_capacity update_cancel_capacity : attend.

Lemma empty_table_fresh : aids_fresh empty_table.
Proof. split; constructor. Qed.

Lemma empty_table_unique : unique_active empty_table.
Proof. intros s d. cbn. lia. Qed.

Lemma empty_table_capacity limit : within_capacity limit empty_table.
Proof. intros d. cbn. lia. Qed.

(** ** Theorems *)

(** C4: the INSERT of line 93, run when no active registration of the
    student for the date exists, adds exactly the entry (sid, date) ↦ secret
    to the spec's registry and changes no other entry. *)
Theorem insert_apply_refines n s d ts p tb :
  select_registered s d tb = [] →
  abs_table (insert_apply n s d ts p tb) = <[(s, d) := p]> (abs_table tb).
Proof. apply abs_insert_apply. Qed.

(** C5: on a table with distinct [aid]s and at most one active registration
    per student and date, the UPDATE of line 148 on the [aid] of a row found
    by id and secret removes exactly that student's entry for the date from
    the spec's registry. *)
Theorem update_cancel_refines tb s d p r :
  aids_fresh tb → unique_active tb → r ∈ select_secret s d p tb →
  abs_table (update_cancel (aid r) tb) = delete (s, d) (abs_table tb).
Proof. apply abs_update_cancel. Qed.

(** The INSERT of line 93, guarded by the duplicate check of line 88,
    keeps at most one active registration per student and date. *)
Theorem insert_apply_preserves_unique n s d ts p tb :
  unique_active tb → select_registered s d tb = [] →
  unique_active (insert_apply n s d ts p tb).
Proof. apply insert_apply_unique. Qed.

(** ** Witnesses *)

Definition demo_date : date := mkDate 2023 3 7.

Definition demo_row : row := mkRow 1 "Hong" "2023-00001" demo_date 0 "1234" false.

Definition demo_table : table := insert_apply "Hong" "2023-00001" demo_date 0 "1234" empty_table.

Lemma insert_apply_refines_witness :
  select_registered "2023-00001" demo_date empty_table = [] ∧
  abs_table (insert_apply "Hong" "2023-00001" demo_date 0 "1234" empty_table)
  = <[("2023-00001", demo_date) := "1234"]> (abs_table empty_table).
Proof. split; [reflexivity | apply insert_apply_refines; reflexivity]. Defined.

Lemma update_cancel_refines_witness :
  (aids_fresh demo_table ∧ unique_active demo_table ∧
   demo_row ∈ select_secret "2023-00001" demo_date "1234" demo_table) ∧
  abs_table (update_cancel (aid demo_row) demo_table)
  = delete ("2023-00001", demo_date) (abs_table demo_table).
Proof.
  assert (Hf : aids_fresh demo_table) by apply (insert_apply_fresh _ _ _ _ _ _ empty_table_fresh).
  assert (Hu : unique_active demo_table)
    by apply (insert_apply_unique _ _ _ _ _ _ empty_table_unique eq_refl).
  assert (Hr : demo_row ∈ select_secret "2023-00001" demo_date "1234" demo_table)
    by (apply list_elem_of_In; vm_compute; left; reflexivity).
  split; [split_and!; assumption|]. exact (update_cancel_refines _ _ _ _ _ Hf Hu Hr).
Defined.

Lemma insert_apply_preserves_unique_witness :
  (unique_active empty_table ∧ select_registered "2023-00001" demo_date empty_table = []) ∧
  unique_active (insert_apply "Hong" "2023-00001" demo_date 0 "1234" empty_table).
Proof.
  split; [split; [exact empty_table_unique | reflexivity]|].
  apply insert_apply_preserves_unique; [exact empty_table_unique | reflexivity].
Defined.

End Table.
