(* ===== verification/SqlText.v ===== *)
(** * SqlText: the SQL text the page sends, and the literals inside it

    The page builds every statement with an f-string (lines 69, 88, 93,
    121/141 and 148), pasting in the form fields and three values printed by
    Python: the date [date_string] ([strftime("%Y-%m-%d")], line 60), the
    aware datetime [apply_timestamp] ([str] of a [datetime], line 92) and the
    [aid] read back from pandas ([str] of an integer, line 147).  This file
    holds those printers, the five statement builders, and the input
    functions of PostgreSQL that read the literals back (integer, date and
    timestamp with time zone), with the round trips between them.

    Strings here are byte strings: the text psycopg2 sends is the UTF-8
    encoding of the Python [str], and the Korean column aliases of line 121
    are written as their UTF-8 bytes. *)

From Stdlib Require Import Ascii.
From S2P Require Import Prelude Calendar Clock Session Store.

Local Open Scope string_scope.

(** stdpp makes [simpl] leave [String.append] alone; the proofs below
    compute with it. *)
#[local] Arguments String.append : simpl nomatch.

Module SqlText.

(** ** Characters *)

Definition quote : ascii := "'"%char.

(** Every character of [s] satisfies [P]. *)
Fixpoint str_forall (P : ascii → bool) (s : string) : bool :=
  match s with
  | EmptyString => true
  | String c r => P c && str_forall P r
  end.

(** [s] does not contain [c]. *)
Definition free_of (c : ascii) (s : string) : bool := str_forall (λ x, negb (Ascii.eqb x c)) s.

(** A field can be pasted between quotes without ending the literal. *)
Definition no_quote (s : string) : bool := free_of quote s.

Definition is_digit (c : ascii) : bool :=
  let n := Ascii.N_of_ascii c in N.leb 48 n && N.ltb n 58.

Definition digit_val (c : ascii) : Z := (Z.of_N (Ascii.N_of_ascii c) - 48)%Z.

Definition digit (z : Z) : ascii := Ascii.ascii_of_N (48 + Z.to_N z).

(** ** Python's printers *)

(** [z] on exactly [w] decimal digits, zero padded ([%02d], [%04d], ...). *)
Fixpoint pad_dec (w : nat) (z : Z) : string :=
  match w with
  | O => ""
  | S w' => pad_dec w' (z / 10) ++ String (digit (z mod 10)) ""
  end.

(** The number of decimal digits of a non-negative [z]; [fuel] bounds
    the number of divisions by 10, and the binary length of [z] is
    enough ([num_digits_bound]). *)
Fixpoint num_digits (fuel : nat) (z : Z) : nat :=
  match fuel with
  | O => 1
  | S f => if (z <? 10)%Z then 1 else S (num_digits f (z / 10))
  end.

(** [str(n)] for a Python (or numpy) integer, line 148. *)
Definition nat_text (z : Z) : string :=
  pad_dec (num_digits (Z.to_nat (Z.log2 z + 1)) z) z.

Definition dec_text (z : Z) : string :=
  if (z <? 0)%Z then "-" ++ nat_text (- z) else nat_text z.

(** [date_string], line 60: [strftime("%Y-%m-%d")]. *)
Definition date_text (d : date) : string :=
  pad_dec 4 (year d) ++ "-" ++ pad_dec 2 (month d) ++ "-" ++ pad_dec 2 (day d).

(** [str(apply_timestamp)], line 93: [YYYY-MM-DD HH:MM:SS[.ffffff]+09:00] for
    an aware datetime in [timezone_kst]; the fraction is printed only when
    the microseconds are not zero. *)
Definition clock_text (tod : Z) : string :=
  pad_dec 2 (tod / hour_us) ++ ":" ++ pad_dec 2 ((tod / minute_us) mod 60) ++ ":" ++
  pad_dec 2 ((tod / usec) mod 60) ++
  (if (tod mod usec =? 0)%Z then "" else "." ++ pad_dec 6 (tod mod usec)).

Definition ts_text (t : Z) : string :=
  let local := (t + timezone_kst)%Z in
  date_text (civil_from_days (local / day_us)) ++ " " ++
  clock_text (local mod day_us) ++ "+09:00".

(** ** The statements, as the f-strings build them *)

(** Line 69. *)
Definition applycount_sql (date_string : string) : string :=
  "SELECT count(*) FROM apply WHERE attend_date = '" ++ date_string ++ "' and canceled = False".

(** Line 88. *)
Definition check_sql (sid date_string : string) : string :=
  "SELECT * FROM apply WHERE sid = '" ++ sid ++ "' and attend_date = '" ++ date_string ++
  "' and canceled = False".

(** Line 93. *)
Definition apply_sql (sname sid date_string apply_timestamp spwd : string) : string :=
  "INSERT INTO apply (sname, sid, attend_date, apply_timestamp, secret) VALUES ('" ++
  sname ++ "','" ++ sid ++ "','" ++ date_string ++ "','" ++ apply_timestamp ++ "','" ++
  spwd ++ "')".

(** Lines 121 and 141 (the source calls it [check_sql] as well). *)
Definition lookup_sql (sid date_string spwd : string) : string :=
  "SELECT aid, sname as 이름, sid as 학번, attend_date as 참석일자 FROM apply WHERE sid = '" ++
  sid ++ "' and attend_date = '" ++ date_string ++ "' and canceled = False and secret = '" ++
  spwd ++ "'".

(** Line 148. *)
Definition cancel_sql (aid : string) : string :=
  "UPDATE apply SET canceled = True WHERE aid = '" ++ aid ++ "'".

(** ** PostgreSQL's input functions

    The literals of the statements are read by the input function of the
    column they are compared with or inserted into.  Only the layouts
    Python prints are accepted here; PostgreSQL accepts more (surrounding
    blanks, other date styles, negative offsets), which the page never
    sends. *)

Fixpoint digits_val (acc : Z) (s : string) : option Z :=
  match s with
  | EmptyString => Some acc
  | String c r => if is_digit c then digits_val (acc * 10 + digit_val c)%Z r else None
  end.

Definition parse_digits (s : string) : option Z :=
  match s with EmptyString => None | _ => digits_val 0 s end.

(** [int4in] / [int8in] on an optionally signed decimal. *)
Definition parse_int (s : string) : option Z :=
  match s with
  | String c r =>
      if Ascii.eqb c "-"%char then option_map Z.opp (parse_digits r)
      else if Ascii.eqb c "+"%char then parse_digits r
      else parse_digits s
  | EmptyString => None
  end.

(** The pieces of [s] between the occurrences of [c]. *)
Fixpoint split_on (c : ascii) (s : string) : list string :=
  match s with
  | EmptyString => [EmptyString]
  | String x r =>
      if Ascii.eqb x c then EmptyString :: split_on c r
      else match split_on c r with
           | [] => [String x EmptyString]
           | w :: ws => String x w :: ws
           end
  end.

(** [date_in] on an ISO date; an impossible date is an error. *)
Definition parse_date (s : string) : option date :=
  match split_on "-"%char s with
  | [ys; ms; ds] =>
      match parse_digits ys, parse_digits ms, parse_digits ds with
      | Some y, Some m, Some d => if valid_dateb y m d then Some (mkDate y m d) else None
      | _, _, _ => None
      end
  | _ => None
  end.

(** Fractional seconds of at most six digits, in microseconds. *)
Definition parse_frac (s : string) : option Z :=
  if Nat.leb (String.length s) 6 then
    match parse_digits s with
    | Some f => Some (f * 10 ^ (6 - Z.of_nat (String.length s)))%Z
    | None => None
    end
  else None.

(** Seconds with an optional fraction, in microseconds. *)
Definition parse_seconds (s : string) : option (Z * Z) :=
  match split_on "."%char s with
  | [ss] => match parse_digits ss with Some sec => Some (sec, 0%Z) | None => None end
  | [ss; fs] =>
      match parse_digits ss, parse_frac fs with
      | Some sec, Some us => Some (sec, us)
      | _, _ => None
      end
  | _ => None
  end.

(** The time of day [HH:MM:SS[.f]], in microseconds since midnight. *)
Definition parse_clock (s : string) : option Z :=
  match split_on ":"%char s with
  | [hs; ms; ss] =>
      match parse_digits hs, parse_digits ms, parse_seconds ss with
      | Some h, Some m, Some (sec, us) =>
          if (h <? 24)%Z && (m <? 60)%Z && (sec <? 60)%Z then
            Some (h * hour_us + m * minute_us + sec * usec + us)%Z
          else None
      | _, _, _ => None
      end
  | _ => None
  end.

(** A positive UTC offset [HH:MM], in microseconds. *)
Definition parse_offset (s : string) : option Z :=
  match split_on ":"%char s with
  | [hs; ms] =>
      match parse_digits hs, parse_digits ms with
      | Some h, Some m => Some (h * hour_us + m * minute_us)%Z
      | _, _ => None
      end
  | _ => None
  end.

(** [timestamptz_in] on [YYYY-MM-DD HH:MM:SS[.f]+HH:MM]: the instant. *)
Definition parse_ts (s : string) : option Z :=
  match split_on " "%char s with
  | [ds; rest] =>
      match split_on "+"%char rest with
      | [cs; os] =>
          match parse_date ds, parse_clock cs, parse_offset os with
          | Some d, Some tod, Some off =>
              Some (days_from_civil (year d) (month d) (day d) * day_us + tod - off)%Z
          | _, _, _ => None
          end
      | _ => None
      end
  | _ => None
  end.

(** ** Strings *)

Lemma str_app_assoc (a b c : string) : (a ++ b) ++ c = a ++ (b ++ c).
Proof. induction a as [|x a IH]; simpl; [done|by rewrite IH]. Qed.

Lemma str_forall_app P a b : str_forall P (a ++ b) = str_forall P a && str_forall P b.
Proof. induction a as [|x a IH]; simpl; [done|by rewrite IH, andb_assoc]. Qed.

Lemma str_forall_impl (P Q : ascii → bool) s :
  (∀ x, P x = true → Q x = true) → str_forall P s = true → str_forall Q s = true.
Proof.
  intros HPQ. induction s as [|x s IH]; simpl; [done|].
  rewrite !andb_true_iff. intros [??]; auto.
Qed.

Lemma split_on_free c s : free_of c s = true → split_on c s = [s].
Proof.
  unfold free_of. induction s as [|x s IH]; simpl; [done|].
  rewrite andb_true_iff, negb_true_iff. intros [Hx Hs]. by rewrite Hx, IH.
Qed.

Lemma split_on_app c a b :
  free_of c a = true → split_on c (a ++ String c b) = a :: split_on c b.
Proof.
  unfold free_of. induction a as [|x a IH]; simpl.
  - by rewrite Ascii.eqb_refl.
  - rewrite andb_true_iff, negb_true_iff. intros [Hx Ha]. by rewrite Hx, IH.
Qed.

Lemma str_app_single c s : String c EmptyString ++ s = String c s.
Proof. reflexivity. Qed.

Lemma str_app_nil s : s ++ EmptyString = s.
Proof. induction s as [|x s IH]; simpl; [done|by rewrite IH]. Qed.

Lemma str_length_app a b : String.length (a ++ b) = (String.length a + String.length b)%nat.
Proof. induction a as [|x a IH]; simpl; [done|by rewrite IH]. Qed.

(** A string of digits is free of every character that is not a digit. *)
Lemma digits_free_of c s :
  is_digit c = false → str_forall is_digit s = true → free_of c s = true.
Proof.
  intros Hc. apply str_forall_impl. intros x Hx.
  destruct (Ascii.eqb_spec x c) as [->|]; [congruence|done].
Qed.

#[export] Hint Rewrite str_forall_app andb_true_iff : attend_rw.

(** ** Decimal digits *)

Lemma digit_spec k : (0 <= k < 10)%Z → is_digit (digit k) = true ∧ digit_val (digit k) = k.
Proof.
  intros Hk.
  assert (H : forall_range (λ k, is_digit (digit k) && (digit_val (digit k) =? k)%Z) 0 10 = true)
    by reflexivity.
  apply (forall_range_spec _ _ _ k) in H; [|lia].
  by apply andb_true_iff in H as [? ->%Z.eqb_eq].
Qed.

Lemma digits_val_app acc a b :
  digits_val acc (a ++ b) = match digits_val acc a with Some v => digits_val v b | None => None end.
Proof.
  revert acc. induction a as [|x a IH]; intros acc; simpl; [done|].
  destruct (is_digit x); [apply IH|done].
Qed.

Lemma pad_dec_digits w z : str_forall is_digit (pad_dec w z) = true.
Proof.
  revert z. induction w as [|w IH]; intros z; cbn [pad_dec]; [done|].
  rewrite str_forall_app, IH. cbn [str_forall].
  by rewrite (proj1 (digit_spec _ (Z.mod_pos_bound z 10 ltac:(lia)))).
Qed.

Lemma pad_dec_val w z acc :
  (0 <= z < 10 ^ Z.of_nat w)%Z → digits_val acc (pad_dec w z) = Some (acc * 10 ^ Z.of_nat w + z)%Z.
Proof.
  revert z acc. induction w as [|w IH]; intros z acc Hz; cbn [pad_dec].
  - simpl in Hz |- *. f_equal. lia.
  - rewrite Nat2Z.inj_succ, Z.pow_succ_r in Hz |- * by lia.
    pose proof (Z.div_mod z 10 ltac:(lia)) as Hdm.
    pose proof (Z.mod_pos_bound z 10 ltac:(lia)) as Hm.
    rewrite digits_val_app, IH by (split; [apply Z.div_pos|apply Z.div_lt_upper_bound]; lia).
    cbn [digits_val]. destruct (digit_spec (z mod 10) Hm) as [-> ->]. f_equal. nia.
Qed.

Lemma parse_digits_pad w z :
  (0 < w)%nat → (0 <= z < 10 ^ Z.of_nat w)%Z → parse_digits (pad_dec w z) = Some z.
Proof.
  intros Hw Hz. destruct w as [|w]; [lia|].
  assert (Hne : pad_dec (S w) z ≠ EmptyString).
  { cbn [pad_dec]. destruct (pad_dec w (z / 10)); discriminate. }
  pose proof (pad_dec_val (S w) z 0 Hz) as H. rewrite Z.mul_0_l, Z.add_0_l in H.
  unfold parse_digits. by destruct (pad_dec (S w) z).
Qed.

(** The binary length of [z] is enough fuel to count its digits. *)
Lemma num_digits_bound f z :
  (0 <= z < 2 ^ Z.of_nat f)%Z → (0 < Z.of_nat (num_digits f z))%Z ∧
  (z < 10 ^ Z.of_nat (num_digits f z))%Z.
Proof.
  revert z. induction f as [|f IH]; intros z Hz; simpl.
  - simpl in Hz. lia.
  - destruct (Z.ltb_spec z 10); [simpl; lia|].
    rewrite Nat2Z.inj_succ, Z.pow_succ_r in Hz by lia.
    destruct (IH (z / 10)%Z) as [Hp Hlt].
    { split; [apply Z.div_pos; lia|]. apply Z.div_lt_upper_bound; lia. }
    rewrite Nat2Z.inj_succ, Z.pow_succ_r by lia.
    pose proof (Z.mod_pos_bound z 10 ltac:(lia)). pose proof (Z.div_mod z 10 ltac:(lia)). lia.
Qed.

Lemma nat_text_digits z : str_forall is_digit (nat_text z) = true.
Proof. apply pad_dec_digits. Qed.

Lemma parse_digits_nat_text z : (0 <= z)%Z → parse_digits (nat_text z) = Some z.
Proof.
  intros Hz. unfold nat_text.
  assert (Hf : (0 <= z < 2 ^ Z.of_nat (Z.to_nat (Z.log2 z + 1)))%Z).
  { pose proof (Z.log2_nonneg z). rewrite Z2Nat.id by lia.
    destruct (Z.eq_dec z 0) as [->|]; [simpl; lia|]. pose proof (Z.log2_spec z). lia. }
  destruct (num_digits_bound _ _ Hf). apply parse_digits_pad; lia.
Qed.

Lemma parse_int_digits s : str_forall is_digit s = true → parse_int s = parse_digits s.
Proof.
  destruct s as [|c r]; [done|]. simpl. rewrite andb_true_iff. intros [Hc _].
  destruct (Ascii.eqb_spec c "-"%char) as [->|]; [discriminate|].
  destruct (Ascii.eqb_spec c "+"%char) as [->|]; [discriminate|done].
Qed.

Lemma pad_dec_length w z : String.length (pad_dec w z) = w.
Proof.
  revert z. induction w as [|w IH]; intros z; cbn [pad_dec]; [done|].
  rewrite str_length_app, IH. simpl. lia.
Qed.

(** The separators Python prints between the numbers are not digits. *)
Lemma pad_dec_free c w z : is_digit c = false → free_of c (pad_dec w z) = true.
Proof. intros Hc. apply digits_free_of; [done|apply pad_dec_digits]. Qed.

#[export] Hint Resolve pad_dec_free : attend.

Lemma free_of_app c a b : free_of c (a ++ b) = free_of c a && free_of c b.
Proof. apply str_forall_app. Qed.

Lemma free_of_cons c x s : free_of c (String x s) = negb (Ascii.eqb x c) && free_of c s.
Proof. reflexivity. Qed.

(** [free_tac] shows that printed text is free of a non-digit separator. *)
Ltac free_tac :=
  repeat (rewrite free_of_app || rewrite free_of_cons || rewrite pad_dec_free by reflexivity);
  reflexivity.

Lemma days_in_month_bound y m : (28 <= days_in_month y m <= 31)%Z.
Proof. unfold days_in_month. repeat case_if; lia. Qed.

(** The time of day in hours, minutes, seconds and microseconds. *)
Lemma clock_decomp tod :
  (0 <= tod)%Z →
  tod = (tod / hour_us * hour_us + (tod / minute_us) mod 60 * minute_us +
         (tod / usec) mod 60 * usec + tod mod usec)%Z.
Proof.
  intros Htod. unfold hour_us, minute_us, usec.
  Z.to_euclidean_division_equations. lia.
Qed.

(** ** Round trips between Python's printers and PostgreSQL's input *)

(** The integer column reads back the [aid] printed by Python. *)
Lemma parse_int_dec_text z : parse_int (dec_text z) = Some z.
Proof.
  unfold dec_text. destruct (Z.ltb_spec z 0).
  - simpl. rewrite parse_digits_nat_text by lia. simpl. f_equal. lia.
  - rewrite parse_int_digits by apply nat_text_digits. by apply parse_digits_nat_text.
Qed.

(** The dates [strftime("%Y-%m-%d")] prints on four year digits. *)
Definition printable_date (d : date) : Prop :=
  valid_date (year d) (month d) (day d) ∧ (0 <= year d < 10000)%Z.

Lemma date_text_no_quote d : no_quote (date_text d) = true.
Proof. unfold no_quote, date_text. rewrite !str_app_single. free_tac. Qed.

Lemma ts_text_no_quote t : no_quote (ts_text t) = true.
Proof. unfold no_quote, ts_text, date_text, clock_text. rewrite !str_app_single. case_if; free_tac. Qed.

Lemma dec_text_no_quote z : no_quote (dec_text z) = true.
Proof. unfold no_quote, dec_text, nat_text. case_if; rewrite ?str_app_single; free_tac. Qed.

Lemma date_text_one_line d : free_of "010"%char (date_text d) = true.
Proof. unfold date_text. rewrite !str_app_single. free_tac. Qed.

Lemma ts_text_one_line t : free_of "010"%char (ts_text t) = true.
Proof. unfold ts_text, date_text, clock_text. rewrite !str_app_single. case_if; free_tac. Qed.

#[export] Hint Resolve date_text_no_quote ts_text_no_quote dec_text_no_quote : attend.

(** The date column reads back [date_string], for every date of a
    four-digit year. *)
Lemma parse_date_text d :
  valid_date (year d) (month d) (day d) → (0 <= year d < 10000)%Z →
  parse_date (date_text d) = Some d.
Proof.
  destruct d as [y m dd]. cbn [year month day]. intros [Hm Hd] Hy.
  pose proof (days_in_month_bound y m).
  unfold parse_date, date_text. rewrite !str_app_single.
  rewrite split_on_app, split_on_app, split_on_free by (apply pad_dec_free; reflexivity).
  rewrite !parse_digits_pad by (simpl; lia).
  cbv beta iota. cbn [year month day].
  by rewrite (proj2 (valid_dateb_spec y m dd)) by (split; lia).
Qed.

Lemma parse_clock_text tod : (0 <= tod < day_us)%Z → parse_clock (clock_text tod) = Some tod.
Proof.
  intros Htod. pose proof (clock_decomp tod ltac:(lia)) as Hd.
  assert (Hb : (0 <= tod / hour_us < 24 ∧ 0 <= (tod / minute_us) mod 60 < 60 ∧
                0 <= (tod / usec) mod 60 < 60 ∧ 0 <= tod mod usec < 1000000)%Z).
  { unfold day_us, hour_us, minute_us, usec in *. Z.to_euclidean_division_equations. lia. }
  destruct Hb as (Hh & Hm & Hs & Hu).
  unfold parse_clock, clock_text. rewrite !str_app_single.
  destruct (Z.eqb_spec (tod mod usec) 0) as [E|E]; cbv beta iota.
  - rewrite str_app_nil, split_on_app, split_on_app, split_on_free by free_tac.
    unfold parse_seconds. rewrite split_on_free by free_tac.
    rewrite !parse_digits_pad by (simpl; lia). cbv beta iota.
    rewrite (proj2 (Z.ltb_lt _ _) (proj2 Hh)), (proj2 (Z.ltb_lt _ _) (proj2 Hm)),
      (proj2 (Z.ltb_lt _ _) (proj2 Hs)). simpl. f_equal. lia.
  - rewrite split_on_app, split_on_app, split_on_free by free_tac.
    unfold parse_seconds. rewrite split_on_app, split_on_free by free_tac.
    unfold parse_frac. rewrite pad_dec_length. simpl (Nat.leb 6 6).
    rewrite !parse_digits_pad by (simpl; lia). cbv beta iota.
    rewrite (proj2 (Z.ltb_lt _ _) (proj2 Hh)), (proj2 (Z.ltb_lt _ _) (proj2 Hm)),
      (proj2 (Z.ltb_lt _ _) (proj2 Hs)). simpl. f_equal. lia.
Qed.

(** The timestamp column reads back [str(apply_timestamp)] as the same
    instant, for every instant whose KST date has a four-digit year. *)
Lemma parse_ts_text t :
  (0 <= year (strftime_date timezone_kst t) < 10000)%Z → parse_ts (ts_text t) = Some t.
Proof.
  unfold strftime_date, parse_ts, ts_text. intros Hy.
  pose proof day_us_pos as Hpos.
  pose proof (Z.div_mod (t + timezone_kst) day_us ltac:(lia)) as Hdm.
  pose proof (Z.mod_pos_bound (t + timezone_kst) day_us Hpos) as Hmod.
  destruct (days_civil_roundtrip ((t + timezone_kst) / day_us)) as [Hv Hdn].
  rewrite str_app_single, split_on_app, split_on_free, split_on_app, split_on_free
    by (unfold date_text, clock_text; rewrite ?str_app_single; try case_if; free_tac).
  rewrite parse_date_text, parse_clock_text by done. cbv beta iota.
  rewrite Hdn. change (parse_offset "09:00") with (Some timezone_kst). simpl. f_equal. lia.
Qed.

End SqlText.
