(* ===== verification/Sql.v ===== *)
(** * Sql: what PostgreSQL does with the text the page sends

    [run_query] and [run_tx] (lines 15-40) hand the statement text of
    [SqlText] to PostgreSQL.  This file models the part of PostgreSQL the
    page relies on: the lexer (string literals with doubled quotes, [--]
    comments, identifiers folded to lower case, integers, one-character
    operators), a parser for the statement shapes the page uses (SELECT of
    [count( * )], [*] or a column list with aliases, INSERT of one row of
    values, UPDATE of one column, WHERE conditions built from [=], [and] and
    [or] with their usual precedence, several statements separated by [;]
    and run in one transaction, as psycopg2's [cur.execute] sends them),
    the analysis that gives each literal the type of the column it is
    compared with, and the execution on the table [apply] of [Store].

    Texts outside this subset (parentheses in a condition, other
    operators, several rows of values, other statements) are rejected here;
    PostgreSQL accepts some of them.  The theorems below only speak of texts
    inside the subset, so this never makes them claim an error PostgreSQL
    would not raise. *)

From Stdlib Require Import Ascii.
From S2P Require Import Prelude Calendar Clock Session Store SqlText.
Import Table SqlText.

Local Open Scope string_scope.
#[local] Arguments String.append : simpl nomatch.

Module Sql.

(** ** Lexer *)

Inductive token :=
  | TWord (w : string)      (* identifier or keyword, lower case *)
  | TNum (n : Z)            (* integer constant *)
  | TLit (s : string)       (* string constant, quotes removed *)
  | TSym (c : ascii).       (* operator or punctuation *)

#[export] Instance token_eq_dec : EqDecision token.
Proof. solve_decision. Defined.

Definition is_space (c : ascii) : bool :=
  Ascii.eqb c " "%char || Ascii.eqb c "009"%char || Ascii.eqb c "010"%char ||
  Ascii.eqb c "012"%char || Ascii.eqb c "013"%char.

Definition is_upper (c : ascii) : bool :=
  let n := Ascii.N_of_ascii c in N.leb 65 n && N.leb n 90.

Definition is_lower (c : ascii) : bool :=
  let n := Ascii.N_of_ascii c in N.leb 97 n && N.leb n 122.

(** ASCII letters are folded to lower case; other bytes are kept. *)
Definition lower (c : ascii) : ascii :=
  if is_upper c then
    match c with Ascii b0 b1 b2 b3 b4 _ b6 b7 => Ascii b0 b1 b2 b3 b4 true b6 b7 end
  else c.

(** An identifier starts with a letter, [_] or a non-ASCII byte. *)
Definition is_ident_start (c : ascii) : bool :=
  is_upper c || is_lower c || Ascii.eqb c "_"%char || N.leb 128 (Ascii.N_of_ascii c).

Definition is_ident_char (c : ascii) : bool :=
  is_ident_start c || is_digit c || Ascii.eqb c "$"%char.

(** The lexer's state between two characters. *)
Inductive lex_mode :=
  | MNormal
  | MWord (acc : string)
  | MNum (acc : Z)
  | MLit (acc : string)         (* inside a string constant *)
  | MLitQuote (acc : string)    (* a quote inside a string constant: its end or a doubled quote *)
  | MDash                       (* one [-] *)
  | MComment.                   (* after [--], up to the end of the line *)

(** The state after [c] when no token is in progress. *)
Definition lex_start (c : ascii) : lex_mode * list token :=
  if is_space c then (MNormal, [])
  else if Ascii.eqb c quote then (MLit "", [])
  else if Ascii.eqb c "-"%char then (MDash, [])
  else if is_digit c then (MNum (digit_val c), [])
  else if is_ident_start c then (MWord (String (lower c) ""), [])
  else (MNormal, [TSym c]).

Definition lex_step (m : lex_mode) (c : ascii) : lex_mode * list token :=
  match m with
  | MNormal => lex_start c
  | MWord acc =>
      if is_ident_char c then (MWord (acc ++ String (lower c) ""), [])
      else let '(m', ts) := lex_start c in (m', TWord acc :: ts)
  | MNum n =>
      if is_digit c then (MNum (n * 10 + digit_val c)%Z, [])
      else let '(m', ts) := lex_start c in (m', TNum n :: ts)
  | MLit acc => if Ascii.eqb c quote then (MLitQuote acc, []) else (MLit (acc ++ String c ""), [])
  | MLitQuote acc =>
      if Ascii.eqb c quote then (MLit (acc ++ String quote ""), [])
      else let '(m', ts) := lex_start c in (m', TLit acc :: ts)
  | MDash =>
      if Ascii.eqb c "-"%char then (MComment, [])
      else let '(m', ts) := lex_start c in (m', TSym "-"%char :: ts)
  | MComment => if Ascii.eqb c "010"%char then (MNormal, []) else (MComment, [])
  end.

Fixpoint lex_run (m : lex_mode) (s : string) : lex_mode * list token :=
  match s with
  | EmptyString => (m, [])
  | String c r =>
      let '(m1, ts1) := lex_step m c in
      let '(m2, ts2) := lex_run m1 r in (m2, (ts1 ++ ts2)%list)
  end.

(** The end of the text; an open string constant is a syntax error. *)
Definition lex_finish (m : lex_mode) : option (list token) :=
  match m with
  | MNormal | MComment => Some []
  | MWord acc => Some [TWord acc]
  | MNum n => Some [TNum n]
  | MLit _ => None
  | MLitQuote acc => Some [TLit acc]
  | MDash => Some [TSym "-"%char]
  end.

Definition tokenize (s : string) : option (list token) :=
  let '(m, ts) := lex_run MNormal s in
  match lex_finish m with Some tl => Some (ts ++ tl)%list | None => None end.

(** ** Parser *)

Definition tok_eqb (t1 t2 : token) : bool :=
  match t1, t2 with
  | TWord a, TWord b => String.eqb a b
  | TNum a, TNum b => Z.eqb a b
  | TLit a, TLit b => String.eqb a b
  | TSym a, TSym b => Ascii.eqb a b
  | _, _ => false
  end.

(** The pieces of [ts] between the occurrences of [sep]. *)
Fixpoint split_tok (sep : token) (ts : list token) : list (list token) :=
  match ts with
  | [] => [[]]
  | t :: r =>
      if tok_eqb t sep then [] :: split_tok sep r
      else match split_tok sep r with
           | [] => [[t]]
           | g :: gs => (t :: g) :: gs
           end
  end.

(** The tokens before the first [sep], and those after it. *)
Fixpoint take_until (sep : token) (ts : list token) : option (list token * list token) :=
  match ts with
  | [] => None
  | t :: r =>
      if tok_eqb t sep then Some ([], r)
      else match take_until sep r with
           | Some (l, rest) => Some (t :: l, rest)
           | None => None
           end
  end.

Inductive operand :=
  | OCol (c : string)
  | OLit (s : string)
  | ONum (n : Z)
  | OBool (b : bool).

Inductive cond :=
  | CEq (a b : operand)
  | CAnd (p q : cond)
  | COr (p q : cond).

Inductive sel_list :=
  | SelCount                                  (* count( * ) *)
  | SelStar                                   (* * *)
  | SelCols (cs : list (string * option string)).  (* columns, with their aliases *)

Inductive stmt :=
  | Select (sel : sel_list) (tbl : string) (where_ : cond)
  | Insert (tbl : string) (cols : list string) (vals : list operand)
  | Update (tbl : string) (col : string) (v : operand) (where_ : cond).

Definition parse_operand (ts : list token) : option operand :=
  match ts with
  | [TWord w] =>
      if String.eqb w "true" then Some (OBool true)
      else if String.eqb w "false" then Some (OBool false)
      else Some (OCol w)
  | [TLit s] => Some (OLit s)
  | [TNum n] => Some (ONum n)
  | _ => None
  end.

Definition parse_atom (ts : list token) : option cond :=
  match split_tok (TSym "="%char) ts with
  | [l; r] =>
      match parse_operand l, parse_operand r with
      | Some a, Some b => Some (CEq a b)
      | _, _ => None
      end
  | _ => None
  end.

(** [p1 op p2 op ... op pn], associated to the left. *)
Definition parse_chain (sep : token) (mk : cond → cond → cond)
    (item : list token → option cond) (ts : list token) : option cond :=
  match split_tok sep ts with
  | [] => None
  | g :: gs =>
      fold_left (λ acc g', match acc, item g' with
                           | Some c, Some c' => Some (mk c c')
                           | _, _ => None
                           end) gs (item g)
  end.

(** [and] binds tighter than [or]; [=] tighter than both. *)
Definition parse_cond (ts : list token) : option cond :=
  parse_chain (TWord "or") COr (parse_chain (TWord "and") CAnd parse_atom) ts.

Definition parse_col (ts : list token) : option (string * option string) :=
  match ts with
  | [TWord c] => Some (c, None)
  | [TWord c; TWord kw; TWord a] => if String.eqb kw "as" then Some (c, Some a) else None
  | _ => None
  end.

Definition parse_sel (ts : list token) : option sel_list :=
  if bool_decide (ts = [TWord "count"; TSym "("%char; TSym "*"%char; TSym ")"%char]) then Some SelCount
  else if bool_decide (ts = [TSym "*"%char]) then Some SelStar
  else SelCols <$> mapM parse_col (split_tok (TSym ","%char) ts).

Definition parse_name (ts : list token) : option string :=
  match ts with [TWord c] => Some c | _ => None end.

Definition parse_stmt (ts : list token) : option stmt :=
  match ts with
  | TWord kw :: rest =>
      if String.eqb kw "select" then
        match take_until (TWord "from") rest with
        | Some (sel, TWord t :: TWord w :: cts) =>
            if String.eqb w "where" then
              match parse_sel sel, parse_cond cts with
              | Some sl, Some c => Some (Select sl t c)
              | _, _ => None
              end
            else None
        | _ => None
        end
      else if String.eqb kw "insert" then
        match rest with
        | TWord into :: TWord t :: TSym lp :: rest1 =>
            if String.eqb into "into" && Ascii.eqb lp "("%char then
              match take_until (TSym ")"%char) rest1 with
              | Some (cts, TWord vk :: TSym lp2 :: rest2) =>
                  if String.eqb vk "values" && Ascii.eqb lp2 "("%char then
                    match take_until (TSym ")"%char) rest2 with
                    | Some (vts, []) =>
                        match mapM parse_name (split_tok (TSym ","%char) cts),
                              mapM parse_operand (split_tok (TSym ","%char) vts) with
                        | Some cols, Some vals => Some (Insert t cols vals)
                        | _, _ => None
                        end
                    | _ => None
                    end
                  else None
              | _ => None
              end
            else None
        | _ => None
        end
      else if String.eqb kw "update" then
        match rest with
        | TWord t :: TWord sk :: TWord col :: TSym eq :: rest1 =>
            if String.eqb sk "set" && Ascii.eqb eq "="%char then
              match take_until (TWord "where") rest1 with
              | Some (vts, cts) =>
                  match parse_operand vts, parse_cond cts with
                  | Some v, Some c => Some (Update t col v c)
                  | _, _ => None
                  end
              | None => None
              end
            else None
        | _ => None
        end
      else None
  | _ => None
  end.

(** A text may hold several statements separated by [;] (psycopg2 sends
    the whole text with the simple query protocol); empty pieces are
    skipped. *)
Definition nonempty {A} (l : list A) : bool := match l with [] => false | _ => true end.

Definition parse_script (ts : list token) : option (list stmt) :=
  mapM parse_stmt (List.filter nonempty (split_tok (TSym ";"%char) ts)).

(** ** Values, analysis and execution on the table [apply] *)

Inductive sqltype := TyInt | TyText | TyDate | TyTs | TyBool.

Inductive value :=
  | VInt (z : Z)
  | VText (s : string)
  | VDate (d : date)
  | VTs (t : Z)
  | VBool (b : bool).

#[export] Instance sqltype_eq_dec : EqDecision sqltype.
Proof. solve_decision. Defined.
#[export] Instance value_eq_dec : EqDecision value.
Proof. solve_decision. Defined.

(** The columns of [apply] and their types. *)
Definition col_type (c : string) : option sqltype :=
  if String.eqb c "aid" then Some TyInt
  else if String.eqb c "sname" then Some TyText
  else if String.eqb c "sid" then Some TyText
  else if String.eqb c "attend_date" then Some TyDate
  else if String.eqb c "apply_timestamp" then Some TyTs
  else if String.eqb c "secret" then Some TyText
  else if String.eqb c "canceled" then Some TyBool
  else None.

Definition col_value (r : row) (c : string) : option value :=
  if String.eqb c "aid" then Some (VInt (aid r))
  else if String.eqb c "sname" then Some (VText (sname r))
  else if String.eqb c "sid" then Some (VText (sid r))
  else if String.eqb c "attend_date" then Some (VDate (attend_date r))
  else if String.eqb c "apply_timestamp" then Some (VTs (apply_timestamp r))
  else if String.eqb c "secret" then Some (VText (secret r))
  else if String.eqb c "canceled" then Some (VBool (canceled r))
  else None.

(** [boolin] on the spellings [t], [true], [f], [false]. *)
Definition parse_bool (s : string) : option bool :=
  if String.eqb s "t" || String.eqb s "true" then Some true
  else if String.eqb s "f" || String.eqb s "false" then Some false
  else None.

(** A string constant takes the type of the column it meets. *)
Definition coerce (ty : sqltype) (s : string) : option value :=
  match ty with
  | TyInt => VInt <$> parse_int s
  | TyText => Some (VText s)
  | TyDate => VDate <$> parse_date s
  | TyTs => VTs <$> parse_ts s
  | TyBool => VBool <$> parse_bool s
  end.

Inductive texpr := XCol (c : string) | XConst (v : value).

Inductive tcond :=
  | XEq (a b : texpr)
  | XAnd (p q : tcond)
  | XOr (p q : tcond).

Definition operand_type (o : operand) : option sqltype :=
  match o with
  | OCol c => col_type c
  | ONum _ => Some TyInt
  | OBool _ => Some TyBool
  | OLit _ => None
  end.

Definition operand_expr (o : operand) : texpr :=
  match o with
  | OCol c => XCol c
  | ONum n => XConst (VInt n)
  | OBool b => XConst (VBool b)
  | OLit s => XConst (VText s)
  end.

(** The type analysis of [a = b]: a mismatch, an unknown column or a
    constant that does not read as the column's type is an error of the
    whole statement, whatever the rows. *)
Definition analyze_eq (a b : operand) : option tcond :=
  match a, b with
  | OLit s, OLit s' => Some (XEq (XConst (VText s)) (XConst (VText s')))
  | OLit s, o =>
      ty ← operand_type o; v ← coerce ty s; Some (XEq (XConst v) (operand_expr o))
  | o, OLit s =>
      ty ← operand_type o; v ← coerce ty s; Some (XEq (operand_expr o) (XConst v))
  | o1, o2 =>
      ty1 ← operand_type o1; ty2 ← operand_type o2;
      if decide (ty1 = ty2) then Some (XEq (operand_expr o1) (operand_expr o2)) else None
  end.

Fixpoint analyze (c : cond) : option tcond :=
  match c with
  | CEq a b => analyze_eq a b
  | CAnd p q => p' ← analyze p; q' ← analyze q; Some (XAnd p' q')
  | COr p q => p' ← analyze p; q' ← analyze q; Some (XOr p' q')
  end.

Definition eval_expr (r : row) (x : texpr) : option value :=
  match x with XCol c => col_value r c | XConst v => Some v end.

Fixpoint eval_cond (r : row) (c : tcond) : bool :=
  match c with
  | XEq a b => bool_decide (eval_expr r a = eval_expr r b)
  | XAnd p q => eval_cond r p && eval_cond r q
  | XOr p q => eval_cond r p || eval_cond r q
  end.

Definition select_where (c : tcond) (tb : table) : list row :=
  filter (λ r, eval_cond r c = true) (rows tb).

(** The value a VALUES item or a SET right-hand side stores in a column. *)
Definition store_value (ty : sqltype) (o : operand) : option value :=
  match o with
  | OLit s => coerce ty s
  | ONum n => if decide (ty = TyInt) then Some (VInt n) else None
  | OBool b => if decide (ty = TyBool) then Some (VBool b) else None
  | OCol _ => None
  end.

(** [UPDATE ... SET col = v] on one row. *)
Definition set_col (r : row) (c : string) (v : value) : row :=
  match v with
  | VInt z => if String.eqb c "aid" then mkRow z (sname r) (sid r) (attend_date r) (apply_timestamp r) (secret r) (canceled r) else r
  | VText s =>
      if String.eqb c "sname" then mkRow (aid r) s (sid r) (attend_date r) (apply_timestamp r) (secret r) (canceled r)
      else if String.eqb c "sid" then mkRow (aid r) (sname r) s (attend_date r) (apply_timestamp r) (secret r) (canceled r)
      else if String.eqb c "secret" then mkRow (aid r) (sname r) (sid r) (attend_date r) (apply_timestamp r) s (canceled r)
      else r
  | VDate d => if String.eqb c "attend_date" then mkRow (aid r) (sname r) (sid r) d (apply_timestamp r) (secret r) (canceled r) else r
  | VTs t => if String.eqb c "apply_timestamp" then mkRow (aid r) (sname r) (sid r) (attend_date r) t (secret r) (canceled r) else r
  | VBool b => if String.eqb c "canceled" then mkRow (aid r) (sname r) (sid r) (attend_date r) (apply_timestamp r) (secret r) b else r
  end.

(** The column list of line 93; [aid] takes [nextval] and [canceled] its
    default. *)
Definition insert_cols : list string := ["sname"; "sid"; "attend_date"; "apply_timestamp"; "secret"].

Definition insert_row (vals : list value) (tb : table) : option table :=
  match vals with
  | [VText n; VText s; VDate d; VTs ts; VText p] =>
      Some (mkTable (rows tb ++ [mkRow (aid_next tb) n s d ts p false])%list (aid_next tb + 1)%Z)
  | _ => None
  end.

Inductive qresult :=
  | RCount (n : nat)
  | RRows (rs : list row)
  | RCols (names : list string) (vals : list (list value))
  | RDone.

Definition exec (st : stmt) (tb : table) : option (qresult * table) :=
  match st with
  | Select sel t w =>
      if String.eqb t "apply" then
        c ← analyze w;
        let rs := select_where c tb in
        match sel with
        | SelCount => Some (RCount (length rs), tb)
        | SelStar => Some (RRows rs, tb)
        | SelCols cs =>
            vals ← mapM (λ r, mapM (λ '(c, _), col_value r c) cs) rs;
            Some (RCols (map (λ '(c, a), default c a) cs) vals, tb)
        end
      else None
  | Insert t cols vals =>
      if String.eqb t "apply" && bool_decide (cols = insert_cols) then
        vs ← mapM (λ '(c, o), ty ← col_type c; store_value ty o) (zip cols vals);
        if Nat.eqb (length vals) (length cols) then
          tb' ← insert_row vs tb; Some (RDone, tb')
        else None
      else None
  | Update t col v w =>
      if String.eqb t "apply" then
        ty ← col_type col; val ← store_value ty v; c ← analyze w;
        Some (RDone, mkTable (map (λ r, if eval_cond r c then set_col r col val else r) (rows tb))
                             (aid_next tb))
      else None
  end.

(** The statements of one text run in order in one implicit transaction:
    the result is the last statement's, and an error in any of them rolls
    the whole text back ([None]). *)
Fixpoint exec_all (sts : list stmt) (tb : table) : option (qresult * table) :=
  match sts with
  | [] => None
  | [st] => exec st tb
  | st :: rest => '(_, tb') ← exec st tb; exec_all rest tb'
  end.

(** A text sent by [run_query] or [run_tx]: its result and the table after
    it, or [None] for an error. *)
Definition exec_sql (text : string) (tb : table) : option (qresult * table) :=
  ts ← tokenize text; sts ← parse_script ts; exec_all sts tb.

(** ** Lexing the page's statements *)

Lemma lex_run_app m a b :
  lex_run m (a ++ b) =
  let '(m1, t1) := lex_run m a in let '(m2, t2) := lex_run m1 b in (m2, (t1 ++ t2)%list).
Proof.
  revert m. induction a as [|c a IH]; intros m; simpl.
  - by destruct (lex_run m b).
  - destruct (lex_step m c) as [m1 t1]. rewrite IH.
    destruct (lex_run m1 a) as [m2 t2]. destruct (lex_run m2 b) as [m3 t3]. by rewrite app_assoc.
Qed.

(** Inside a string constant, a field without quotes is copied as is. *)
Lemma lex_run_lit acc s : no_quote s = true → lex_run (MLit acc) s = (MLit (acc ++ s), []).
Proof.
  revert acc. induction s as [|c s IH]; intros acc; simpl.
  - by rewrite str_app_nil.
  - unfold no_quote, free_of. simpl. rewrite andb_true_iff, negb_true_iff. intros [Hc Hs].
    rewrite Hc, IH by done. by rewrite str_app_assoc.
Qed.

Lemma lex_lit_segment acc s rest :
  no_quote s = true → lex_run (MLit acc) (s ++ rest) = lex_run (MLit (acc ++ s)) rest.
Proof. intros Hs. rewrite lex_run_app, lex_run_lit by done. by destruct (lex_run _ rest). Qed.

(** Inside a [--] comment, text without a line break is skipped. *)
Lemma lex_run_comment s : free_of "010"%char s = true → lex_run MComment s = (MComment, []).
Proof.
  induction s as [|c s IH]; simpl; [done|].
  rewrite free_of_cons, andb_true_iff, negb_true_iff. intros [Hc Hs]. by rewrite Hc, IH.
Qed.

(** [lex_tac] runs the lexer over the fixed text of a statement and over
    the quote-free fields pasted into its string constants. *)
Ltac lex_tac :=
  unfold tokenize; simpl;
  repeat (rewrite lex_lit_segment by done; simpl);
  rewrite ?str_app_nil; simpl; rewrite ?lex_run_lit by done; simpl.

Definition lookup_names : list string := ["aid"; "이름"; "학번"; "참석일자"].

Section Statements.
  Context (sid ds spwd sname tstext aidtext : string).
  Hypothesis (Hsid : no_quote sid = true) (Hds : no_quote ds = true)
    (Hp : no_quote spwd = true) (Hn : no_quote sname = true) (Hts : no_quote tstext = true)
    (Ha : no_quote aidtext = true).

Lemma parse_applycount_sql :
    tokenize (applycount_sql ds) ≫= parse_script =
    Some [Select SelCount "apply" (CAnd (CEq (OCol "attend_date") (OLit ds))
                                        (CEq (OCol "canceled") (OBool false)))].
  Proof. unfold applycount_sql. lex_tac. reflexivity. Qed.

Lemma parse_check_sql :
    tokenize (check_sql sid ds) ≫= parse_script =
    Some [Select SelStar "apply" (CAnd (CAnd (CEq (OCol "sid") (OLit sid))
                                             (CEq (OCol "attend_date") (OLit ds)))
                                       (CEq (OCol "canceled") (OBool false)))].
  Proof. unfold check_sql. lex_tac. reflexivity. Qed.

Lemma parse_lookup_sql :
    tokenize (lookup_sql sid ds spwd) ≫= parse_script =
    Some [Select (SelCols [("aid", None); ("sname", Some "이름"); ("sid", Some "학번");
                           ("attend_date", Some "참석일자")]) "apply"
            (CAnd (CAnd (CAnd (CEq (OCol "sid") (OLit sid)) (CEq (OCol "attend_date") (OLit ds)))
                        (CEq (OCol "canceled") (OBool false)))
                  (CEq (OCol "secret") (OLit spwd)))].
  Proof. unfold lookup_sql. lex_tac. reflexivity. Qed.

Lemma parse_apply_sql :
    tokenize (apply_sql sname sid ds tstext spwd) ≫= parse_script =
    Some [Insert "apply" insert_cols [OLit sname; OLit sid; OLit ds; OLit tstext; OLit spwd]].
  Proof. unfold apply_sql. lex_tac. reflexivity. Qed.

Lemma parse_cancel_sql :
    tokenize (cancel_sql aidtext) ≫= parse_script =
    Some [Update "apply" "canceled" (OBool true) (CEq (OCol "aid") (OLit aidtext))].
  Proof. unfold cancel_sql. lex_tac. reflexivity. Qed.
End Statements.

(** ** The statements on the table: equivalence with [Store] *)

Lemma exec_sql_script text tb sts :
  tokenize text ≫= parse_script = Some sts → exec_sql text tb = exec_all sts tb.
Proof. unfold exec_sql. destruct (tokenize text); simpl; [by intros ->|done]. Qed.

Lemma exec_sql_parse text tb st :
  tokenize text ≫= parse_script = Some [st] → exec_sql text tb = exec st tb.
Proof. apply exec_sql_script. Qed.

Lemma mapM_Some_map {A B} (g : A → B) l : mapM (λ x, Some (g x)) l = Some (map g l).
Proof. induction l as [|x l IH]; simpl; [done|by rewrite IH]. Qed.

(** The columns of lines 121 and 141, for one row. *)
Definition lookup_values (r : row) : list value :=
  [VInt (aid r); VText (sname r); VText (sid r); VDate (attend_date r)].

Definition active_cond (d : date) : tcond :=
  XAnd (XEq (XCol "attend_date") (XConst (VDate d))) (XEq (XCol "canceled") (XConst (VBool false))).

Definition registered_cond (s : string) (d : date) : tcond :=
  XAnd (XAnd (XEq (XCol "sid") (XConst (VText s))) (XEq (XCol "attend_date") (XConst (VDate d))))
       (XEq (XCol "canceled") (XConst (VBool false))).

Definition secret_cond (s : string) (d : date) (p : string) : tcond :=
  XAnd (registered_cond s d) (XEq (XCol "secret") (XConst (VText p))).

(** [eval_tac] evaluates a condition on a symbolic row. *)
Ltac eval_tac :=
  cbn [eval_cond eval_expr active_cond registered_cond secret_cond]; unfold col_value; simpl;
  rewrite ?andb_true_iff, ?bool_decide_eq_true.

Lemma eval_active_cond d r : eval_cond r (active_cond d) = true ↔ active_on d r.
Proof.
  eval_tac. unfold active_on.
  split; [intros [[= ->] [= ->]]|intros [-> ->]]; done.
Qed.

Lemma eval_registered_cond s d r : eval_cond r (registered_cond s d) = true ↔ registered s d r.
Proof.
  eval_tac. unfold registered, active_on.
  split; [intros [[[= ->] [= ->]] [= ->]]|intros (-> & -> & ->)]; done.
Qed.

Lemma eval_secret_cond s d p r : eval_cond r (secret_cond s d p) = true ↔ matches_secret s d p r.
Proof.
  unfold secret_cond. cbn [eval_cond]. rewrite andb_true_iff, eval_registered_cond.
  eval_tac. unfold matches_secret. split; [intros [? [= ->]]|intros [? ->]]; done.
Qed.

(** [analyze_tac] runs the type analysis of a statement whose literals
    are symbolic. *)
Ltac analyze_tac :=
  cbn [exec analyze analyze_eq operand_type operand_expr store_value]; unfold col_type;
  cbn -[coerce date_text select_where];
  repeat match goal with H : coerce _ _ = _ |- _ => rewrite H end;
  rewrite ?decide_True by done; cbn -[select_where].

Section Equivalence.
  Context (s p : string) (d : date) (tb : table).
  Hypothesis (Hs : no_quote s = true) (Hp : no_quote p = true) (Hd : printable_date d).

Lemma coerce_date_text : coerce TyDate (date_text d) = Some (VDate d).
  Proof. simpl. rewrite parse_date_text; [done|apply Hd|apply Hd]. Qed.

Lemma exec_applycount : exec_sql (applycount_sql (date_text d)) tb = Some (RCount (count_active d tb), tb).
  Proof.
    rewrite (exec_sql_parse _ _ _ (parse_applycount_sql (date_text d) (date_text_no_quote d))).
    pose proof coerce_date_text. analyze_tac.
    unfold select_where, count_active.
    rewrite (list_filter_iff _ (active_on d)); [done|]. intros r. apply eval_active_cond.
  Qed.

Lemma exec_check : exec_sql (check_sql s (date_text d)) tb = Some (RRows (select_registered s d tb), tb).
  Proof.
    rewrite (exec_sql_parse _ _ _ (parse_check_sql s (date_text d) Hs (date_text_no_quote d))).
    pose proof coerce_date_text. analyze_tac.
    unfold select_where, select_registered.
    rewrite (list_filter_iff _ (registered s d)); [done|]. intros r. apply eval_registered_cond.
  Qed.

Lemma exec_lookup :
    exec_sql (lookup_sql s (date_text d) p) tb =
    Some (RCols lookup_names (map lookup_values (select_secret s d p tb)), tb).
  Proof.
    rewrite (exec_sql_parse _ _ _ (parse_lookup_sql s (date_text d) p Hs (date_text_no_quote d) Hp)).
    pose proof coerce_date_text. analyze_tac.
    rewrite (mapM_ext _ (λ r, Some (lookup_values r))) by done.
    rewrite mapM_Some_map. unfold select_where, select_secret.
    rewrite (list_filter_iff _ (matches_secret s d p)); [done|]. intros r. apply eval_secret_cond.
  Qed.
End Equivalence.

Lemma exec_apply n s d ts p tb :
  no_quote n = true → no_quote s = true → no_quote p = true → printable_date d →
  (0 <= year (strftime_date timezone_kst ts) < 10000)%Z →
  exec_sql (apply_sql n s (date_text d) (ts_text ts) p) tb = Some (RDone, insert_apply n s d ts p tb).
Proof.
  intros Hn Hs Hp Hd Hts.
  rewrite (exec_sql_parse _ _ _ (parse_apply_sql _ _ _ _ _ Hs (date_text_no_quote d) Hp Hn
                                   (ts_text_no_quote ts))).
  pose proof (coerce_date_text d Hd).
  assert (coerce TyTs (ts_text ts) = Some (VTs ts)) by (simpl; by rewrite parse_ts_text).
  analyze_tac. reflexivity.
Qed.

Lemma exec_cancel a tb : exec_sql (cancel_sql (dec_text a)) tb = Some (RDone, update_cancel a tb).
Proof.
  rewrite (exec_sql_parse _ _ _ (parse_cancel_sql _ (dec_text_no_quote a))).
  assert (coerce TyInt (dec_text a) = Some (VInt a)) by (simpl; by rewrite parse_int_dec_text).
  analyze_tac. unfold update_cancel. do 3 f_equal. apply map_ext. intros r.
  unfold cancel_row. cbn [eval_cond eval_expr]. unfold col_value. simpl.
  case_decide as Ha; [by rewrite Ha, bool_decide_true|by rewrite bool_decide_false by congruence].
Qed.

(** C29: for a student id and secret without quotes and a date of a four-digit year, the three SELECT texts of lines 69, 88 and 121/141, run by PostgreSQL, return exactly [count_active], [select_registered] and the four columns of [select_secret] of [Store], and leave the table unchanged. *)
Theorem sql_select_statements_equiv s p d tb :
  no_quote s = true → no_quote p = true → printable_date d →
  exec_sql (applycount_sql (date_text d)) tb = Some (RCount (count_active d tb), tb) ∧
  exec_sql (check_sql s (date_text d)) tb = Some (RRows (select_registered s d tb), tb) ∧
  exec_sql (lookup_sql s (date_text d) p) tb =
    Some (RCols lookup_names (map lookup_values (select_secret s d p tb)), tb).
Proof. intros Hs Hp Hd. split_and!; [apply exec_applycount|apply exec_check|apply exec_lookup]; done. Qed.

(** C30: for fields without quotes, a date and an application timestamp of four-digit years, the INSERT text of line 93 performs exactly [insert_apply] (next [aid], [canceled] false) and the UPDATE text of line 148 with the printed [aid] performs exactly [update_cancel]. *)
Theorem sql_write_statements_equiv n s p d ts a tb :
  no_quote n = true → no_quote s = true → no_quote p = true → printable_date d →
  (0 <= year (strftime_date timezone_kst ts) < 10000)%Z →
  exec_sql (apply_sql n s (date_text d) (ts_text ts) p) tb = Some (RDone, insert_apply n s d ts p tb) ∧
  exec_sql (cancel_sql (dec_text a)) tb = Some (RDone, update_cancel a tb).
Proof. intros. split; [by apply exec_apply|apply exec_cancel]. Qed.

(** ** Injection: fields that end the string constant *)

(** [free_solve] shows that a text built from pieces is free of a
    character, from hypotheses on the symbolic pieces. *)
Ltac free_solve :=
  repeat (rewrite free_of_app || rewrite free_of_cons);
  repeat match goal with H : free_of ?c ?x = true |- context [free_of ?c ?x] => rewrite H end;
  reflexivity.

(** Lexing a text whose tail, after a [--] injected by a field, is a comment. *)
Ltac lex_comment_tac :=
  unfold tokenize; simpl; rewrite lex_run_comment by free_solve; simpl.

(** A student id of exactly 10 characters that passes the length check of
    lines 115 and 135 and turns the rest of the WHERE clause into a comment. *)
Definition inj_sid : string := "' OR 1=1--".

(** A name that closes the first value of line 93 and supplies the other
    four, for another student. *)
Definition forged_sname : string := "x','2023-00001','2023-03-07','2023-03-06 12:00:00+09:00','0000')--".

Definition forged_ts : Z := datetime 2023 3 6 12 0 0 timezone_kst.

Lemma exec_lookup_injected ds p tb :
  free_of "010"%char ds = true → free_of "010"%char p = true →
  exec_sql (lookup_sql inj_sid ds p) tb =
  Some (RCols lookup_names (map lookup_values (rows tb)), tb).
Proof.
  intros Hds Hp.
  assert (Hparse : tokenize (lookup_sql inj_sid ds p) ≫= parse_script =
    Some [Select (SelCols [("aid", None); ("sname", Some "이름"); ("sid", Some "학번");
                           ("attend_date", Some "참석일자")]) "apply"
            (COr (CEq (OCol "sid") (OLit "")) (CEq (ONum 1) (ONum 1)))]).
  { unfold lookup_sql, inj_sid. lex_comment_tac. reflexivity. }
  rewrite (exec_sql_parse _ _ _ Hparse). analyze_tac.
  rewrite (mapM_ext _ (λ r, Some (lookup_values r))) by done.
  rewrite mapM_Some_map. unfold select_where. rewrite filter_all; [done|].
  intros r _. simpl. by rewrite orb_true_r.
Qed.

Lemma exec_insert_forged tb :
  exec (Insert "apply" insert_cols
          [OLit "x"; OLit "2023-00001"; OLit "2023-03-07"; OLit "2023-03-06 12:00:00+09:00";
           OLit "0000"]) tb =
  Some (RDone, insert_apply "x" "2023-00001" (mkDate 2023 3 7) forged_ts "0000" tb).
Proof. vm_compute. reflexivity. Qed.

Lemma exec_apply_forged s ds tst p tb :
  free_of "010"%char s = true → free_of "010"%char ds = true →
  free_of "010"%char tst = true → free_of "010"%char p = true →
  exec_sql (apply_sql forged_sname s ds tst p) tb =
  Some (RDone, insert_apply "x" "2023-00001" (mkDate 2023 3 7) forged_ts "0000" tb).
Proof.
  intros Hs Hds Hts Hp.
  assert (Hparse : tokenize (apply_sql forged_sname s ds tst p) ≫= parse_script =
    Some [Insert "apply" insert_cols
            [OLit "x"; OLit "2023-00001"; OLit "2023-03-07"; OLit "2023-03-06 12:00:00+09:00";
             OLit "0000"]]).
  { unfold apply_sql, forged_sname. lex_comment_tac. reflexivity. }
  rewrite (exec_sql_parse _ _ _ Hparse). apply exec_insert_forged.
Qed.

(** The same name followed by a second statement: psycopg2 sends the text
    as it is, and PostgreSQL runs both statements. *)
Definition stacked_sname : string :=
  "x','2023-00001','2023-03-07','2023-03-06 12:00:00+09:00','0000'); UPDATE apply SET canceled = True WHERE canceled = False--".

(** Every row canceled, nothing else changed. *)
Definition cancel_every (tb : table) : table :=
  mkTable (map (λ r, mkRow (aid r) (sname r) (sid r) (attend_date r) (apply_timestamp r) (secret r) true)
               (rows tb)) (aid_next tb).

Lemma exec_update_cancel_every tb :
  exec (Update "apply" "canceled" (OBool true) (CEq (OCol "canceled") (OBool false))) tb =
  Some (RDone, cancel_every tb).
Proof.
  cbn. rewrite !decide_True by done. cbn. unfold cancel_every. do 3 f_equal.
  apply map_ext. intros [a n s d ts p c]. cbn. by destruct c.
Qed.

Lemma exec_apply_stacked s ds tst p tb :
  free_of "010"%char s = true → free_of "010"%char ds = true →
  free_of "010"%char tst = true → free_of "010"%char p = true →
  exec_sql (apply_sql stacked_sname s ds tst p) tb =
  Some (RDone, cancel_every (insert_apply "x" "2023-00001" (mkDate 2023 3 7) forged_ts "0000" tb)).
Proof.
  intros Hs Hds Hts Hp.
  assert (Hparse : tokenize (apply_sql stacked_sname s ds tst p) ≫= parse_script =
    Some [Insert "apply" insert_cols
            [OLit "x"; OLit "2023-00001"; OLit "2023-03-07"; OLit "2023-03-06 12:00:00+09:00";
             OLit "0000"];
          Update "apply" "canceled" (OBool true) (CEq (OCol "canceled") (OBool false))]).
  { unfold apply_sql, stacked_sname. lex_comment_tac. reflexivity. }
  rewrite (exec_sql_script _ _ _ Hparse). cbn [exec_all]. rewrite exec_insert_forged.
  cbn [mbind option_bind]. apply exec_update_cancel_every.
Qed.

(** ** Witnesses *)

Lemma demo_date_printable : printable_date (mkDate 2023 3 7).
Proof. split; [apply valid_dateb_spec; reflexivity|simpl; lia]. Qed.

Lemma sql_select_statements_equiv_witness :
  (no_quote "2023-00001" = true ∧ no_quote "1234" = true ∧ printable_date (mkDate 2023 3 7)) ∧
  exec_sql (applycount_sql (date_text (mkDate 2023 3 7))) demo_table
    = Some (RCount (count_active (mkDate 2023 3 7) demo_table), demo_table) ∧
  exec_sql (check_sql "2023-00001" (date_text (mkDate 2023 3 7))) demo_table
    = Some (RRows (select_registered "2023-00001" (mkDate 2023 3 7) demo_table), demo_table) ∧
  exec_sql (lookup_sql "2023-00001" (date_text (mkDate 2023 3 7)) "1234") demo_table =
    Some (RCols lookup_names (map lookup_values (select_secret "2023-00001" (mkDate 2023 3 7) "1234" demo_table)),
          demo_table).
Proof.
  split; [split_and!; [reflexivity|reflexivity|exact demo_date_printable]|].
  apply sql_select_statements_equiv; [reflexivity|reflexivity|exact demo_date_printable].
Defined.

Lemma sql_write_statements_equiv_witness :
  (no_quote "Hong" = true ∧ no_quote "2023-00001" = true ∧ no_quote "1234" = true ∧
   printable_date (mkDate 2023 3 7) ∧ (0 <= year (strftime_date timezone_kst forged_ts) < 10000)%Z) ∧
  exec_sql (apply_sql "Hong" "2023-00001" (date_text (mkDate 2023 3 7)) (ts_text forged_ts) "1234") demo_table
    = Some (RDone, insert_apply "Hong" "2023-00001" (mkDate 2023 3 7) forged_ts "1234" demo_table) ∧
  exec_sql (cancel_sql (dec_text 1)) demo_table = Some (RDone, update_cancel 1 demo_table).
Proof.
  assert (Hy : (0 <= year (strftime_date timezone_kst forged_ts) < 10000)%Z).
  { assert (E : year (strftime_date timezone_kst forged_ts) = 2023%Z) by (vm_compute; reflexivity).
    rewrite E. lia. }
  split; [exact (conj eq_refl (conj eq_refl (conj eq_refl (conj demo_date_printable Hy))))|].
  apply sql_write_statements_equiv; first [reflexivity | exact demo_date_printable | exact Hy].
Defined.

End Sql.
