(* ===== verification/Page.v ===== *)
(** * Page: one run of the Streamlit script

    Streamlit runs [src/Offline_Attendance.py] from top to bottom on every
    interaction; a run sees which form button was pressed and with which
    field values.  [page] models one run (lines 42-152) as a [PyM] program
    over a [world]: the table [apply], the fault schedule of the database
    (one [db_fault] per access: none, the connection fails, or the
    statement fails) and the widgets rendered so far.  [apply_submit] is the apply form's handler
    (lines 79-99), [lookup_submit] and [cancel_submit] the handlers of the
    lookup and cancel buttons (lines 112-130 and 132-152); [run_query] and
    [run_tx] are lines 15-40.  [page_step] is the relation between worlds
    before and after a run, whatever the request and the clock.
    [page_spec] is the spec's operation on the registry (sid, date) ↦
    secret that a run of the page refines ([page_refines_registry]). *)

From S2P Require Import Prelude Calendar Clock Session Store.
Import Selector Table.

Module Page.

(** ** What the page renders *)

Inductive widget :=
  | TitleNoLecture                 (* line 62 *)
  | TitleNextLecture (d : date)    (* line 64 *)
  | TitleApply (d : date)          (* line 66 *)
  | ApplyForm                      (* lines 73-78 *)
  | CapacityFull                   (* line 102 *)
  | LookupForm                     (* lines 105-110 *)
  | ErrEmptyField                  (* lines 99, 130, 152 *)
  | ErrStudentId                   (* lines 83, 116, 136 *)
  | ErrPassword                    (* lines 85, 118, 138 *)
  | ErrAlreadyApplied              (* line 97 *)
  | Applied                        (* line 95 *)
  | ErrNotFound                    (* lines 124, 144 *)
  | LookedUp                       (* line 127 *)
  | Frame (rs : list (Z * string * string * date))  (* line 128 *)
  | Canceled.                      (* line 150 *)

#[export] Instance widget_eq_dec : EqDecision widget.
Proof. solve_decision. Defined.

(** The columns [aid, sname, sid, attend_date] of lines 121 and 141. *)
Definition lookup_columns (r : row) : Z * string * string * date :=
  (aid r, sname r, sid r, attend_date r).

(** ** The world a run acts on *)

(** What happens to one database access: nothing, [init_connection()]
    (line 10) raises [psycopg2.OperationalError], or the server rejects
    the statement. *)
Inductive db_fault := NoFault | ConnectFault | StmtFault.

#[export] Instance db_fault_eq_dec : EqDecision db_fault.
Proof. solve_decision. Defined.

(** The exception that escapes [run_query] and [run_tx] on a fault.
    - [ConnectFault]: line 17 (or 29) raises before [conn] is bound; the
      [except psycopg2.Error] clause runs [conn.close()] (line 22) or
      [conn.rollback()] (line 35) on the unbound local and raises
      [UnboundLocalError], a [NameError]; the [finally] clause (line 24
      or 38) raises it again, and that one escapes.
    - [StmtFault] in [run_query]: [pd.read_sql] reports the error as
      pandas' [DatabaseError], which the [except psycopg2.Error] clause
      does not catch; [finally] closes the connection and it escapes.
    - [StmtFault] in [run_tx]: [cur.execute] raises a [psycopg2.Error];
      lines 34-36 roll back and close, and the [finally] clause's
      [conn.commit()] on the closed connection raises [InterfaceError]. *)
Definition fault_exn (f : db_fault) : exn :=
  match f with ConnectFault => NameError | _ => DBError end.

Record world := mkWorld { tbl : table; faults : list db_fault; shown : list widget }.

Abbreviation M := (PyM world).

(** [st.title], [st.error], [st.success], [st.write], ... *)
Definition st_show (x : widget) : M unit :=
  modify (λ w, mkWorld (tbl w) (faults w) (shown w ++ [x])).

(** [init_connection()] and the statement: the next entry of the fault
    schedule says what goes wrong with this access; an empty schedule
    never fails. *)
Definition connect : M db_fault :=
  mkPyM (λ w, match faults w with
              | [] => (Ok NoFault, w)
              | f :: fs => (Ok f, mkWorld (tbl w) fs (shown w))
              end).

(** [run_query(query)], lines 15-25. *)
Definition run_query {A} (q : table → A) : M A :=
  let* f := connect in
  match f with
  | NoFault => mkPyM (λ w, (Ok (q (tbl w)), w))
  | _ => raise (fault_exn f)
  end.

(** [run_tx(query)], lines 27-40: a failing statement is rolled back. *)
Definition run_tx (u : table → table) : M unit :=
  let* f := connect in
  match f with
  | NoFault => modify (λ w, mkWorld (u (tbl w)) (faults w) (shown w))
  | _ => raise (fault_exn f)
  end.

(** Python's truth value of a [str]. *)
Definition truthy (s : string) : bool :=
  match s with EmptyString => false | _ => true end.

(** The length checks shared by the three handlers (lines 82-86, 115-119,
    135-139); [k] runs when both pass. *)
Definition check_form (sid spwd : string) (k : M unit) : M unit :=
  if Nat.ltb (String.length sid) 10 then st_show ErrStudentId
  else if Nat.ltb (String.length spwd) 4 then st_show ErrPassword
  else k.

(** ** Handlers *)

(** Lines 79-99, on the date [d] of the open lecture; [ts] is the
    timestamp of lines 91-92. *)
Definition apply_submit (d : date) (ts : Z) (sname sid spwd : string) : M unit :=
  if truthy sname && truthy sid && truthy spwd then
    check_form sid spwd
      (let* found := run_query (select_registered sid d) in
       match found with
       | [] => run_tx (insert_apply sname sid d ts spwd) >>> st_show Applied
       | _ :: _ => st_show ErrAlreadyApplied
       end)
  else st_show ErrEmptyField.

(** Lines 112-130: the query runs a second time to print the frame. *)
Definition lookup_submit (d : date) (sid spwd : string) : M unit :=
  if truthy sid && truthy spwd then
    check_form sid spwd
      (let* df := run_query (select_secret sid d spwd) in
       match df with
       | [] => st_show ErrNotFound
       | _ :: _ =>
           st_show LookedUp >>>
           let* df' := run_query (select_secret sid d spwd) in
           st_show (Frame (map lookup_columns df'))
       end)
  else st_show ErrEmptyField.

(** Lines 132-152: the first row's [aid] is canceled. *)
Definition cancel_submit (d : date) (sid spwd : string) : M unit :=
  if truthy sid && truthy spwd then
    check_form sid spwd
      (let* df := run_query (select_secret sid d spwd) in
       match df with
       | [] => st_show ErrNotFound
       | r :: _ => run_tx (update_cancel (aid r)) >>> st_show Canceled
       end)
  else st_show ErrEmptyField.

(** ** One run of the script *)

(** The button pressed in this run, with the form's field values. *)
Inductive request :=
  | NoSubmit
  | SubmitApply (sname sid spwd : string)
  | SubmitLookup (sid spwd : string)
  | SubmitCancel (sid spwd : string).

(** The clock readings of a run: the UTC wall clock at line 44 and at
    line 91, and the server's local UTC offset. *)
Record run_env := mkEnv { utc_wall : Z; utc_wall_apply : Z; local_offset : Z }.

(** The configuration of lines 49 and 52. *)
Record config := mkConfig { cfg_dates : list Z; cfg_limit : nat }.

Definition config_2023 : config := mkConfig date_list student_limit.

Definition page (cfg : config) (e : run_env) (req : request) : M unit :=
  let now := utcnow_astimezone (utc_wall e) (local_offset e) in
  match current_session now (cfg_dates cfg) with
  | Exc ex => raise ex
  | Ok NoneScheduled => st_show TitleNoLecture
  | Ok (NotYetOpen i) => st_show (TitleNextLecture (date_string i))
  | Ok (Open i) =>
      let d := date_string i in
      st_show (TitleApply d) >>>
      let* cnt := run_query (count_active d) in
      (if Nat.ltb cnt (cfg_limit cfg) then
         st_show ApplyForm >>>
         match req with
         | SubmitApply n s p =>
             apply_submit d (utcnow_astimezone (utc_wall_apply e) (local_offset e)) n s p
         | _ => pret tt
         end
       else st_show CapacityFull) >>>
      st_show LookupForm >>>
      match req with
      | SubmitLookup s p => lookup_submit d s p
      | SubmitCancel s p => cancel_submit d s p
      | _ => pret tt
      end
  end.

(** Successive runs of the page. *)
Inductive page_step (cfg : config) : world → world → Prop :=
  | PageRun e req w : page_step cfg w (snd (run_pym (page cfg e req) w)).

Definition initial_world (fs : list db_fault) : world := mkWorld empty_table fs [].

(** Successive runs of the page, one per request, with the same clock. *)
Fixpoint run_requests (cfg : config) (e : run_env) (reqs : list request) (w : world) : world :=
  match reqs with
  | [] => w
  | r :: rs => run_requests cfg e rs (snd (run_pym (page cfg e r) w))
  end.

(** The table effect a run on request [req] may have: none, one insertion
    of the submitted application after the duplicate and capacity checks, or
    one cancellation of a row matching the submitted id and secret. *)
Definition page_effect (limit : nat) (req : request) (tb tb' : table) : Prop :=
  tb' = tb ∨
  (∃ n s p d ts, req = SubmitApply n s p ∧ select_registered s d tb = [] ∧
                 count_active d tb < limit ∧ tb' = insert_apply n s d ts p tb) ∨
  (∃ s p d r, req = SubmitCancel s p ∧ r ∈ select_secret s d p tb ∧
              tb' = update_cancel (aid r) tb).

(** The invariant of the table the page maintains. *)
Definition page_inv (limit : nat) (tb : table) : Prop :=
  aids_fresh tb ∧ unique_active tb ∧ within_capacity limit tb.

(** The shape of every stored row: a student id of at least 10 and a
    secret of at least 4 characters, a non-empty name, and the date of a
    configured lecture. *)
Definition row_wf (dates : list Z) (r : row) : Prop :=
  (10 ≤ String.length (sid r))%nat ∧ (4 ≤ String.length (secret r))%nat ∧
  truthy (sname r) = true ∧ ∃ i, i ∈ dates ∧ attend_date r = date_string i.

Definition table_wf (dates : list Z) (tb : table) : Prop := Forall (row_wf dates) (rows tb).

(** ** The registry of the spec and its operations

    The spec's state is the map (sid, date) ↦ secret of the active
    registrations ([abs_table]).  An application for [d] adds the key when
    it is absent and the date has fewer than [limit] entries; a
    cancellation deletes the key when it holds the given secret.  Both are
    guarded by the field checks of the page (non-empty fields, an id of at
    least 10 and a secret of at least 4 characters). *)
Abbreviation registry := (gmap (string * date) string).

Definition fields_ok (s p : string) : bool :=
  truthy s && truthy p && (10 <=? String.length s)%nat && (4 <=? String.length p)%nat.

Definition reg_apply (limit : nat) (d : date) (s p : string) (R : registry) : registry :=
  if decide (R !! (s, d) = None ∧ reg_count d R < limit) then <[(s, d) := p]> R else R.

Definition reg_cancel (d : date) (s p : string) (R : registry) : registry :=
  if decide (R !! (s, d) = Some p) then delete (s, d) R else R.

Definition reg_step (limit : nat) (d : date) (req : request) (R : registry) : registry :=
  match req with
  | SubmitApply n s p => if truthy n && fields_ok s p then reg_apply limit d s p R else R
  | SubmitCancel s p => if fields_ok s p then reg_cancel d s p R else R
  | _ => R
  end.

(** What a run of the page on [req] does to the registry: the registry
    operation on the date of the open lecture, nothing otherwise. *)
Definition page_spec (cfg : config) (e : run_env) (req : request) (R : registry) : registry :=
  match current_session (utcnow_astimezone (utc_wall e) (local_offset e)) (cfg_dates cfg) with
  | Ok (Open i) => reg_step (cfg_limit cfg) (date_string i) req R
  | _ => R
  end.

(** ** Running the primitives *)

Ltac run_pym_simpl :=
  cbv [apply_submit lookup_submit cancel_submit check_form run_query run_tx connect
       st_show modify pbind pret raise] in *; simpl in *.

Ltac close_effect :=
  unfold page_effect; simpl;
  first
    [ by left
    | right; left; do 5 eexists; split_and!;
        [reflexivity | eassumption | apply Nat.ltb_lt; eassumption | reflexivity]
    | right; right;
        match goal with
        | H : select_secret ?s ?d ?p _ = ?r :: _ |- _ =>
            exists s, p, d, r; rewrite H; split_and!; [reflexivity | by left | reflexivity]
        end ].

(** Every run of the page changes the table by at most one statement, and
    only through the guarded insert or the cancellation of a matching row. *)
Lemma page_effect_run cfg e req w :
  page_effect (cfg_limit cfg) req (tbl w) (tbl (snd (run_pym (page cfg e req) w))).
Proof.
  destruct w as [tb fs sh]. unfold page.
  destruct (current_session _ _) as [[|i|i]|ex]; run_pym_simpl;
    [close_effect|close_effect| |close_effect].
  destruct req; repeat (case_match; simplify_eq/=); close_effect.
Qed.

Lemma page_effect_inv limit req tb tb' :
  page_inv limit tb → page_effect limit req tb tb' → page_inv limit tb'.
Proof.
  intros (Hf & Hu & Hc) [->|[(n & s & p & d & ts & _ & Hnone & Hlt & ->)|(s & p & d & r & _ & Hr & ->)]].
  - done.
  - split_and!; eauto with attend.
  - split_and!; eauto with attend.
Qed.

Lemma page_effect_evolves limit req tb tb' :
  page_effect limit req tb tb' → table_evolves tb tb'.
Proof.
  intros [->|[(n & s & p & d & ts & _ & _ & _ & ->)|(s & p & d & r & _ & _ & ->)]];
    [reflexivity|eauto with attend..].
Qed.

Lemma initial_world_inv limit fs : page_inv limit (tbl (initial_world fs)).
Proof.
  split_and!; [apply empty_table_fresh | apply empty_table_unique | apply empty_table_capacity].
Qed.

Lemma apply_submit_effect d ts n s p w :
  let tb' := tbl (snd (run_pym (apply_submit d ts n s p) w)) in
  tb' = tbl w ∨ (select_registered s d (tbl w) = [] ∧ tb' = insert_apply n s d ts p (tbl w)).
Proof.
  run_pym_simpl. destruct w as [tb fs sh]; simpl.
  repeat (case_match; simplify_eq/=); first [by left | by right].
Qed.

Lemma page_step_effect cfg w w' :
  page_step cfg w w' → ∃ req, page_effect (cfg_limit cfg) req (tbl w) (tbl w').
Proof. intros []. eexists. apply page_effect_run. Qed.

Lemma select_secret_nil s d p tb :
  select_registered s d tb = [] → select_secret s d p tb = [].
Proof.
  intros Hn. destruct (select_secret s d p tb) as [|r rs] eqn:E; [done|].
  assert (r ∈ select_registered s d tb) as Hr
    by (apply (select_secret_sub _ _ p); rewrite E; by left).
  rewrite Hn in Hr. set_solver.
Qed.

Lemma rtc_page_step_inv cfg w w' :
  page_inv (cfg_limit cfg) (tbl w) → rtc (page_step cfg) w w' → page_inv (cfg_limit cfg) (tbl w').
Proof.
  intros H0 Hr. revert H0. induction Hr as [|w1 w2 w3 Hs _ IH]; [done|].
  intros Hinv. apply IH. destruct (page_step_effect _ _ _ Hs) as [req Hreq].
  by eapply page_effect_inv.
Qed.

Lemma table_wf_cancel dates a tb : table_wf dates tb → table_wf dates (update_cancel a tb).
Proof.
  unfold table_wf, update_cancel. simpl. rewrite Forall_map. intros H.
  eapply Forall_impl; [exact H|]. intros r Hr. unfold cancel_row. by case_decide.
Qed.

Lemma table_wf_insert dates n s d ts p tb :
  (10 ≤ String.length s)%nat → (4 ≤ String.length p)%nat → truthy n = true →
  (∃ i, i ∈ dates ∧ d = date_string i) → table_wf dates tb →
  table_wf dates (insert_apply n s d ts p tb).
Proof.
  intros Hs Hp Hn Hd Hwf. unfold table_wf, insert_apply. simpl.
  rewrite Forall_app, Forall_singleton. split; [done|]. by split_and!.
Qed.

Ltac wf_close :=
  first
    [ done
    | by apply table_wf_cancel
    | apply table_wf_insert;
        [ by apply Nat.ltb_ge | by apply Nat.ltb_ge
        | repeat match goal with H : _ && _ = true |- _ => apply andb_true_iff in H as [? ?] end;
          done
        | by eexists; split
        | done ] ].

(** Every run of the page keeps every row in shape. *)
Lemma page_run_wf cfg e req w :
  table_wf (cfg_dates cfg) (tbl w) →
  table_wf (cfg_dates cfg) (tbl (snd (run_pym (page cfg e req) w))).
Proof.
  destruct w as [tb fs sh]. simpl. intros Hwf. unfold page.
  destruct (current_session _ _) as [[|i|i]|ex] eqn:Hcs; try (run_pym_simpl; done).
  pose proof (current_session_open_in _ _ _ Hcs) as Hi. run_pym_simpl.
  destruct req; repeat (case_match; simplify_eq/=); wf_close.
Qed.

(** C1: in every world reachable by runs of the page from an empty table, whatever the requests, clocks and database faults, the [aid]s are distinct and below the sequence, each student has at most one active registration per date, and no date has more active registrations than [student_limit]. *)
Theorem reachable_page_inv cfg fs w :
  rtc (page_step cfg) (initial_world fs) w → page_inv (cfg_limit cfg) (tbl w).
Proof. intros Hr. eapply rtc_page_step_inv; [apply initial_world_inv|exact Hr]. Qed.

Lemma rtc_page_step_evolves cfg w w' :
  rtc (page_step cfg) w w' → table_evolves (tbl w) (tbl w').
Proof.
  induction 1 as [|w1 w2 w3 Hs _ IH]; [reflexivity|].
  etrans; [|exact IH]. destruct (page_step_effect _ _ _ Hs) as [req Hreq].
  by eapply page_effect_evolves.
Qed.

(** A canceled row stays in the table, canceled, through any later runs of the page. *)
Theorem canceled_is_terminal cfg w w' r :
  rtc (page_step cfg) w w' → r ∈ rows (tbl w) → canceled r = true → r ∈ rows (tbl w').
Proof.
  intros Hr Hin Hc.
  destruct (table_evolves_row _ _ _ (rtc_page_step_evolves _ _ _ Hr) Hin) as (r' & Hr' & [->|[Hc' _]]);
    [done|congruence].
Qed.

Lemma fields_guard n s p :
  truthy n && fields_ok s p =
  (truthy n && truthy s && truthy p) && negb (String.length s <? 10) && negb (String.length p <? 4).
Proof. unfold fields_ok. rewrite !Nat.leb_antisym. by destruct (truthy n), (truthy s), (truthy p). Qed.

Lemma fields_guard_ok s p :
  fields_ok s p = (truthy s && truthy p) && negb (String.length s <? 10) && negb (String.length p <? 4).
Proof. unfold fields_ok. by rewrite !Nat.leb_antisym. Qed.

(** Closes a branch of a run against the registry operations: the insert
    and the cancel commute with [abs_table]; in every other branch the
    query results the run saw contradict the registry's guard. *)
Ltac refine_close Hf Hu :=
  first
    [ match goal with
      | H : select_registered _ _ ?tb = [] |- abs_table (insert_apply _ _ _ _ _ ?tb) = _ =>
          by apply abs_insert_apply
      | H : select_secret _ _ _ ?tb = _ :: _ |- abs_table (update_cancel _ ?tb) = _ =>
          eapply abs_update_cancel; [exact Hf|exact Hu|rewrite H; by left]
      end
    | exfalso;
      repeat match goal with
      | H : select_registered _ _ _ = [] |- _ => apply registered_nil_abs in H
      | H : select_registered _ _ _ = _ :: _ |- _ => apply registered_cons_abs in H
      | H : select_secret _ _ _ _ = [] |- _ => apply (secret_nil_abs _ _ _ _ Hu) in H
      | H : select_secret _ _ _ _ = _ :: _ |- _ => apply (secret_cons_abs _ _ _ _ _ _ Hu) in H
      | H : (_ <? _)%nat = true |- _ => apply Nat.ltb_lt in H
      | H : (_ <? _)%nat = false |- _ => apply Nat.ltb_ge in H
      end;
      first [naive_solver | destruct_and?; lia] ].

(** C3: the page refines the spec's registry.  From a table satisfying the invariant, a run of the page keeps the invariant, and if it completes its effect on the registry (sid, date) ↦ secret is exactly the spec's operation for the request on the open lecture's date: an application adds the key when it is absent and the date has fewer than [student_limit] entries, a cancellation deletes the key when it holds the given secret, and nothing else changes; a run that raises leaves the registry as it was. *)
Theorem page_refines_registry cfg e req w :
  page_inv (cfg_limit cfg) (tbl w) →
  let r := run_pym (page cfg e req) w in
  page_inv (cfg_limit cfg) (tbl (snd r)) ∧
  abs_table (tbl (snd r)) =
    match fst r with
    | Ok _ => page_spec cfg e req (abs_table (tbl w))
    | Exc _ => abs_table (tbl w)
    end.
Proof.
  intros Hinv. split; [eapply page_effect_inv; [exact Hinv|apply page_effect_run]|].
  destruct Hinv as (Hf & Hu & _).
  destruct w as [tb fs sh]. unfold page, page_spec. simpl in *.
  destruct (current_session _ _) as [[|i|i]|ex]; try (run_pym_simpl; done).
  destruct req as [|n s p|s p|s p]; unfold reg_step, reg_apply, reg_cancel;
    rewrite ?fields_guard, ?fields_guard_ok;
    run_pym_simpl; destruct fs as [|[| |] fs]; simpl; try done;
    rewrite (count_active_abs _ _ Hu);
    destruct (reg_count _ _ <? cfg_limit cfg) eqn:Hlt;
    try destruct (truthy n && truthy s && truthy p); try destruct (truthy s && truthy p);
    try destruct (String.length s <? 10); try destruct (String.length p <? 4);
    simpl; repeat (case_match; simplify_eq/=); try done; refine_close Hf Hu.
Qed.

(** C2: every run of the page, whatever the request, the clock, the
    configuration and the database faults, leaves the table unchanged, or
    inserts the submitted application when the duplicate check found nothing
    and the count was under the limit, or cancels one row matching the
    submitted id and secret. *)
Theorem page_run_single_effect cfg e req w :
  page_effect (cfg_limit cfg) req (tbl w) (tbl (snd (run_pym (page cfg e req) w))).
Proof. apply page_effect_run. Qed.

(** Along any sequence of page runs, rows are never deleted or reordered, a row only changes from active to canceled, and new rows are appended at the end. *)
Theorem page_runs_evolve cfg w w' :
  rtc (page_step cfg) w w' → table_evolves (tbl w) (tbl w').
Proof. apply rtc_page_step_evolves. Qed.

(** C10: an application with an empty field, a student id shorter than 10 or a secret shorter than 4 characters shows the matching error and touches neither the table nor the database connections. *)
Theorem apply_submit_validation d ts n s p w x :
  (x = ErrEmptyField ∧ truthy n && truthy s && truthy p = false) ∨
  (x = ErrStudentId ∧ truthy n && truthy s && truthy p = true ∧ String.length s < 10) ∨
  (x = ErrPassword ∧ truthy n && truthy s && truthy p = true ∧
   10 ≤ String.length s ∧ String.length p < 4) →
  run_pym (apply_submit d ts n s p) w = (Ok tt, mkWorld (tbl w) (faults w) (shown w ++ [x])).
Proof.
  intros [[-> Ht]|[(-> & Ht & Hs)|(-> & Ht & Hs & Hp)]]; run_pym_simpl; rewrite Ht; [done| |].
  - by rewrite (proj2 (Nat.ltb_lt _ _) Hs).
  - by rewrite (proj2 (Nat.ltb_ge _ _) Hs), (proj2 (Nat.ltb_lt _ _) Hp).
Qed.

Lemma run_apply_submit_insert d ts n s p tb sh :
  truthy n && truthy s && truthy p = true →
  10 ≤ String.length s → 4 ≤ String.length p →
  select_registered s d tb = [] →
  run_pym (apply_submit d ts n s p) (mkWorld tb [] sh)
  = (Ok tt, mkWorld (insert_apply n s d ts p tb) [] (sh ++ [Applied])).
Proof.
  intros Ht Hs Hp Hn. run_pym_simpl.
  rewrite Ht, (proj2 (Nat.ltb_ge _ _) Hs), (proj2 (Nat.ltb_ge _ _) Hp). simpl.
  by rewrite Hn.
Qed.

Lemma run_apply_submit_duplicate d ts n s p tb sh r rs :
  truthy n && truthy s && truthy p = true →
  10 ≤ String.length s → 4 ≤ String.length p →
  select_registered s d tb = r :: rs →
  run_pym (apply_submit d ts n s p) (mkWorld tb [] sh)
  = (Ok tt, mkWorld tb [] (sh ++ [ErrAlreadyApplied])).
Proof.
  intros Ht Hs Hp Hn. run_pym_simpl.
  rewrite Ht, (proj2 (Nat.ltb_ge _ _) Hs), (proj2 (Nat.ltb_ge _ _) Hp). simpl.
  by rewrite Hn.
Qed.

(** C6: after a successful application, the same application again (any timestamp) shows the duplicate error and leaves the table unchanged. *)
Theorem apply_twice_refused d ts ts' n s p tb sh :
  truthy n && truthy s && truthy p = true →
  10 ≤ String.length s → 4 ≤ String.length p →
  select_registered s d tb = [] →
  let w1 := snd (run_pym (apply_submit d ts n s p) (mkWorld tb [] sh)) in
  run_pym (apply_submit d ts' n s p) w1
  = (Ok tt, mkWorld (tbl w1) [] (shown w1 ++ [ErrAlreadyApplied])).
Proof.
  intros Ht Hs Hp Hn. simpl. rewrite run_apply_submit_insert by done. simpl.
  apply (run_apply_submit_duplicate _ _ _ _ _ _ _ (mkRow (aid_next tb) n s d ts p false) []);
    [done..|]. by rewrite select_registered_insert_same, Hn.
Qed.

(** C11: when the INSERT fails, the run raises, the table is unchanged and no success message is shown: [DBError] (the [InterfaceError] of the [finally] clause's commit) when the server rejects the statement, [NameError] (the [UnboundLocalError] of the [except] clause) when the connection cannot be opened. *)
Theorem apply_submit_insert_fault d ts n s p tb f fs sh :
  truthy n && truthy s && truthy p = true →
  10 ≤ String.length s → 4 ≤ String.length p →
  select_registered s d tb = [] → f ≠ NoFault →
  run_pym (apply_submit d ts n s p) (mkWorld tb (NoFault :: f :: fs) sh)
  = (Exc (fault_exn f), mkWorld tb fs sh).
Proof.
  intros Ht Hs Hp Hn Hf. run_pym_simpl.
  rewrite Ht, (proj2 (Nat.ltb_ge _ _) Hs), (proj2 (Nat.ltb_ge _ _) Hp). simpl.
  rewrite Hn. by destruct f.
Qed.

(** C12: when the database cannot be reached while a lecture is open, the page renders the lecture's title and then, at the count of line 71, [run_query]'s [except psycopg2.Error] clause calls [conn.close()] on the never-bound [conn]: the run raises [NameError] ([UnboundLocalError]), shows neither form nor a database message, and leaves the table unchanged. *)
Theorem page_unreachable_db cfg e req i tb fs sh :
  current_session (utcnow_astimezone (utc_wall e) (local_offset e)) (cfg_dates cfg) = Ok (Open i) →
  run_pym (page cfg e req) (mkWorld tb (ConnectFault :: fs) sh)
  = (Exc NameError, mkWorld tb fs (sh ++ [TitleApply (date_string i)])).
Proof. intros Hcs. unfold page. rewrite Hcs. reflexivity. Qed.

Lemma run_cancel_submit d s p tb sh r rs :
  truthy s && truthy p = true →
  10 ≤ String.length s → 4 ≤ String.length p →
  select_secret s d p tb = r :: rs →
  run_pym (cancel_submit d s p) (mkWorld tb [] sh)
  = (Ok tt, mkWorld (update_cancel (aid r) tb) [] (sh ++ [Canceled])).
Proof.
  intros Ht Hs Hp Hr. run_pym_simpl.
  rewrite Ht, (proj2 (Nat.ltb_ge _ _) Hs), (proj2 (Nat.ltb_ge _ _) Hp). simpl.
  by rewrite Hr.
Qed.

Lemma lookup_submit_not_found d s p tb sh :
  truthy s && truthy p = true →
  10 ≤ String.length s → 4 ≤ String.length p →
  select_secret s d p tb = [] →
  run_pym (lookup_submit d s p) (mkWorld tb [] sh) = (Ok tt, mkWorld tb [] (sh ++ [ErrNotFound])).
Proof.
  intros Ht Hs Hp Hr. run_pym_simpl.
  rewrite Ht, (proj2 (Nat.ltb_ge _ _) Hs), (proj2 (Nat.ltb_ge _ _) Hp). simpl.
  by rewrite Hr.
Qed.

Lemma cancel_submit_not_found d s p tb sh :
  truthy s && truthy p = true →
  10 ≤ String.length s → 4 ≤ String.length p →
  select_secret s d p tb = [] →
  run_pym (cancel_submit d s p) (mkWorld tb [] sh) = (Ok tt, mkWorld tb [] (sh ++ [ErrNotFound])).
Proof.
  intros Ht Hs Hp Hr. run_pym_simpl.
  rewrite Ht, (proj2 (Nat.ltb_ge _ _) Hs), (proj2 (Nat.ltb_ge _ _) Hp). simpl.
  by rewrite Hr.
Qed.

(** A valid lookup whose id and secret match active rows shows the success message and then the frame of their [aid, sname, sid, attend_date] columns, without changing the table. *)
Theorem lookup_submit_found d s p tb sh r rs :
  truthy s && truthy p = true →
  10 ≤ String.length s → 4 ≤ String.length p →
  select_secret s d p tb = r :: rs →
  run_pym (lookup_submit d s p) (mkWorld tb [] sh)
  = (Ok tt, mkWorld tb [] (sh ++ [LookedUp] ++ [Frame (map lookup_columns (r :: rs))])).
Proof.
  intros Ht Hs Hp Hr. run_pym_simpl.
  rewrite Ht, (proj2 (Nat.ltb_ge _ _) Hs), (proj2 (Nat.ltb_ge _ _) Hp). simpl.
  rewrite Hr. simpl. rewrite Hr. by rewrite <- app_assoc.
Qed.

Lemma cancel_twice_inv d s p tb sh r rs :
  aids_fresh tb → unique_active tb →
  truthy s && truthy p = true →
  10 ≤ String.length s → 4 ≤ String.length p →
  select_secret s d p tb = r :: rs →
  let w1 := snd (run_pym (cancel_submit d s p) (mkWorld tb [] sh)) in
  run_pym (cancel_submit d s p) w1 = (Ok tt, mkWorld (tbl w1) [] (shown w1 ++ [ErrNotFound])) ∧
  run_pym (lookup_submit d s p) w1 = (Ok tt, mkWorld (tbl w1) [] (shown w1 ++ [ErrNotFound])).
Proof.
  intros Hf Hu Ht Hs Hp Hr. simpl. rewrite run_cancel_submit with (r := r) (rs := rs) by done.
  simpl.
  assert (Hin : r ∈ select_registered s d tb)
    by (apply (select_secret_sub _ _ p); rewrite Hr; by left).
  pose proof (select_secret_nil s d p _ (select_registered_cancel_same _ _ _ _ Hu Hin)) as Hnil.
  split; [by apply cancel_submit_not_found | by apply lookup_submit_not_found].
Qed.

(** C7: in every world reachable by runs of the page from an empty table (where each student has at most one active registration per date, C1), after a cancellation by id and secret that found a row, a second cancellation and a lookup with the same id and secret both show the not-found error and leave the table unchanged. *)
Theorem cancel_twice_not_found cfg fs w d s p sh r rs :
  rtc (page_step cfg) (initial_world fs) w →
  truthy s && truthy p = true →
  10 ≤ String.length s → 4 ≤ String.length p →
  select_secret s d p (tbl w) = r :: rs →
  let w1 := snd (run_pym (cancel_submit d s p) (mkWorld (tbl w) [] sh)) in
  run_pym (cancel_submit d s p) w1 = (Ok tt, mkWorld (tbl w1) [] (shown w1 ++ [ErrNotFound])) ∧
  run_pym (lookup_submit d s p) w1 = (Ok tt, mkWorld (tbl w1) [] (shown w1 ++ [ErrNotFound])).
Proof.
  intros Hr. destruct (rtc_page_step_inv _ _ _ (initial_world_inv _ _) Hr) as (Hf & Hu & _).
  by apply cancel_twice_inv.
Qed.

(** C8: when the lecture is open and its active count has reached the limit, the page shows the capacity message instead of the apply form and a submitted application leaves the table unchanged. *)
Theorem page_capacity_full cfg e n s p tb sh i :
  current_session (utcnow_astimezone (utc_wall e) (local_offset e)) (cfg_dates cfg) = Ok (Open i) →
  cfg_limit cfg ≤ count_active (date_string i) tb →
  run_pym (page cfg e (SubmitApply n s p)) (mkWorld tb [] sh)
  = (Ok tt, mkWorld tb [] (sh ++ [TitleApply (date_string i); CapacityFull; LookupForm])).
Proof.
  intros Hs Hc. unfold page. rewrite Hs. run_pym_simpl.
  rewrite (proj2 (Nat.ltb_ge _ _) Hc). simpl. by rewrite <- !app_assoc.
Qed.

(** The length checks only reject short values: an 11-character student id with a 5-character secret is accepted and stored. *)
Theorem apply_accepts_overlong_fields d ts tb sh :
  select_registered "2023-000001" d tb = [] →
  run_pym (apply_submit d ts "Hong" "2023-000001" "12345") (mkWorld tb [] sh)
  = (Ok tt, mkWorld (insert_apply "Hong" "2023-000001" d ts "12345" tb) [] (sh ++ [Applied])).
Proof. intros Hn. apply run_apply_submit_insert; [reflexivity|simpl; lia|simpl; lia|exact Hn]. Qed.

(** The scenario of the spec (section 8): one session on 2023-03-07 at
    11:00 KST, capacity 2, clock at 2023-03-06 12:00 KST. *)
Definition scenario_config : config :=
  mkConfig [datetime 2023 3 7 11 0 0 timezone_kst] 2.

Definition scenario_env : run_env :=
  mkEnv (datetime 2023 3 6 12 0 0 timezone_kst) (datetime 2023 3 6 12 0 0 timezone_kst) 0.

Definition scenario_requests : list request :=
  [SubmitApply "Hong" "2023-00001" "1234"; SubmitApply "Hong" "2023-00001" "1234";
   SubmitLookup "2023-00001" "9999"; SubmitCancel "2023-00001" "1234";
   SubmitLookup "2023-00001" "1234"].

(** The scenario of the spec (section 8) runs as described: success, duplicate, not found with a wrong secret, cancellation, then not found. *)
Theorem spec_scenario :
  let w := run_requests scenario_config scenario_env scenario_requests (initial_world []) in
  let d := mkDate 2023 3 7 in
  shown w =
    [TitleApply d; ApplyForm; Applied; LookupForm;
     TitleApply d; ApplyForm; ErrAlreadyApplied; LookupForm;
     TitleApply d; ApplyForm; LookupForm; ErrNotFound;
     TitleApply d; ApplyForm; LookupForm; Canceled;
     TitleApply d; ApplyForm; LookupForm; ErrNotFound] ∧
  map canceled (rows (tbl w)) = [true].
Proof. vm_compute. split; reflexivity. Qed.

(** C9: a valid application with no active registration of the student for the date appends one row to the table, with the next value of the [aid] sequence, the submitted name, id, date, timestamp and secret and [canceled = false], advances the sequence, and shows the success message; the fields are only checked from below, so longer ids and secrets are stored as they are. *)
Theorem apply_submit_inserts d ts n s p tb sh :
  truthy n && truthy s && truthy p = true →
  10 ≤ String.length s → 4 ≤ String.length p →
  select_registered s d tb = [] →
  run_pym (apply_submit d ts n s p) (mkWorld tb [] sh)
  = (Ok tt, mkWorld (mkTable (rows tb ++ [mkRow (aid_next tb) n s d ts p false]) (aid_next tb + 1))
                    [] (sh ++ [Applied])).
Proof. apply run_apply_submit_insert. Qed.

(** A valid application for a student who already has an active registration for the date shows the duplicate error and leaves the table unchanged. *)
Theorem apply_submit_duplicate d ts n s p tb sh r rs :
  truthy n && truthy s && truthy p = true →
  10 ≤ String.length s → 4 ≤ String.length p →
  select_registered s d tb = r :: rs →
  run_pym (apply_submit d ts n s p) (mkWorld tb [] sh)
  = (Ok tt, mkWorld tb [] (sh ++ [ErrAlreadyApplied])).
Proof. apply run_apply_submit_duplicate. Qed.

(** C21: on a table with distinct [aid]s, a valid cancellation whose id and secret match active rows sets [canceled] on the first matching row, at its place in the table, changes no other row and no other column, keeps the sequence, and shows the success message. *)
Theorem cancel_submit_cancels d s p tb sh r rs pre post :
  aids_fresh tb →
  truthy s && truthy p = true →
  10 ≤ String.length s → 4 ≤ String.length p →
  select_secret s d p tb = r :: rs → rows tb = pre ++ r :: post →
  run_pym (cancel_submit d s p) (mkWorld tb [] sh)
  = (Ok tt, mkWorld (mkTable (pre ++ mkRow (aid r) (sname r) (sid r) (attend_date r)
                                            (apply_timestamp r) (secret r) true :: post)
                             (aid_next tb)) [] (sh ++ [Canceled])).
Proof.
  intros Hf Ht Hs Hp Hr Hrows. rewrite (run_cancel_submit _ _ _ _ _ r rs) by done.
  by rewrite <- (update_cancel_split _ _ _ _ Hf Hrows).
Qed.

(** C34: in every world reachable by runs of the page from an empty table, every row has a student id of at least 10 characters, a secret of at least 4, a non-empty name, and the date of one of the configured lectures. *)
Theorem reachable_rows_wf cfg fs w :
  rtc (page_step cfg) (initial_world fs) w → table_wf (cfg_dates cfg) (tbl w).
Proof.
  intros Hr. assert (H0 : table_wf (cfg_dates cfg) (tbl (initial_world fs))) by constructor.
  revert H0. induction Hr as [|w1 w2 w3 Hs _ IH]; [done|].
  intros Hwf. apply IH. destruct Hs. by apply page_run_wf.
Qed.

(** ** Witnesses *)

Definition demo_apply : request := SubmitApply "Hong" "2023-00001" "1234".

Lemma demo_table_fresh : aids_fresh demo_table.
Proof. apply (insert_apply_fresh _ _ _ _ _ _ empty_table_fresh). Qed.

Lemma demo_table_unique : unique_active demo_table.
Proof. apply (insert_apply_unique _ _ _ _ _ _ empty_table_unique eq_refl). Qed.

Lemma reachable_page_inv_witness :
  let w := snd (run_pym (page scenario_config scenario_env demo_apply) (initial_world [])) in
  rtc (page_step scenario_config) (initial_world []) w ∧ page_inv (cfg_limit scenario_config) (tbl w).
Proof.
  intros w. assert (H : rtc (page_step scenario_config) (initial_world []) w)
    by (apply rtc_once; constructor).
  split; [exact H | exact (reachable_page_inv _ _ _ H)].
Defined.

Lemma page_refines_registry_witness :
  page_inv (cfg_limit scenario_config) (tbl (initial_world [])) ∧
  let r := run_pym (page scenario_config scenario_env demo_apply) (initial_world []) in
  page_inv (cfg_limit scenario_config) (tbl (snd r)) ∧
  abs_table (tbl (snd r)) =
    match fst r with
    | Ok _ => page_spec scenario_config scenario_env demo_apply (abs_table (tbl (initial_world [])))
    | Exc _ => abs_table (tbl (initial_world []))
    end.
Proof.
  pose proof (initial_world_inv (cfg_limit scenario_config) []) as H.
  split; [exact H | exact (page_refines_registry _ _ _ _ H)].
Defined.

Lemma apply_twice_refused_witness :
  (truthy "Hong" && truthy "2023-00001" && truthy "1234" = true ∧
   10 ≤ String.length "2023-00001" ∧ 4 ≤ String.length "1234" ∧
   select_registered "2023-00001" demo_date empty_table = []) ∧
  let w1 := snd (run_pym (apply_submit demo_date 0 "Hong" "2023-00001" "1234")
                         (mkWorld empty_table [] [])) in
  run_pym (apply_submit demo_date 1 "Hong" "2023-00001" "1234") w1
  = (Ok tt, mkWorld (tbl w1) [] (shown w1 ++ [ErrAlreadyApplied])).
Proof.
  split; [split_and!; (reflexivity || (simpl; lia))|].
  apply apply_twice_refused; (reflexivity || (simpl; lia)).
Defined.

(** One application through the page, then its cancellation twice. *)
Definition demo_applied_world : world :=
  snd (run_pym (page scenario_config scenario_env demo_apply) (initial_world [])).

Definition demo_applied_row : row :=
  mkRow 1 "Hong" "2023-00001" (mkDate 2023 3 7)
        (utcnow_astimezone (utc_wall_apply scenario_env) (local_offset scenario_env)) "1234" false.

Lemma cancel_twice_not_found_witness :
  (rtc (page_step scenario_config) (initial_world []) demo_applied_world ∧
   truthy "2023-00001" && truthy "1234" = true ∧
   10 ≤ String.length "2023-00001" ∧ 4 ≤ String.length "1234" ∧
   select_secret "2023-00001" (mkDate 2023 3 7) "1234" (tbl demo_applied_world) = [demo_applied_row]) ∧
  let w1 := snd (run_pym (cancel_submit (mkDate 2023 3 7) "2023-00001" "1234")
                          (mkWorld (tbl demo_applied_world) [] [])) in
  run_pym (cancel_submit (mkDate 2023 3 7) "2023-00001" "1234") w1
  = (Ok tt, mkWorld (tbl w1) [] (shown w1 ++ [ErrNotFound])) ∧
  run_pym (lookup_submit (mkDate 2023 3 7) "2023-00001" "1234") w1
  = (Ok tt, mkWorld (tbl w1) [] (shown w1 ++ [ErrNotFound])).
Proof.
  assert (Hr : rtc (page_step scenario_config) (initial_world []) demo_applied_world)
    by (apply rtc_once; constructor).
  split; [split_and!; first [exact Hr | vm_compute; reflexivity | simpl; lia]|].
  apply (cancel_twice_not_found scenario_config [] _ _ _ _ _ demo_applied_row []);
    first [exact Hr | vm_compute; reflexivity | simpl; lia].
Defined.

Definition full_config : config := mkConfig (cfg_dates scenario_config) 1.

Lemma page_capacity_full_witness :
  (current_session (utcnow_astimezone (utc_wall scenario_env) (local_offset scenario_env))
     (cfg_dates full_config) = Ok (Open (datetime 2023 3 7 11 0 0 timezone_kst)) ∧
   cfg_limit full_config ≤ count_active (date_string (datetime 2023 3 7 11 0 0 timezone_kst)) demo_table) ∧
  run_pym (page full_config scenario_env demo_apply) (mkWorld demo_table [] [])
  = (Ok tt, mkWorld demo_table []
       ([] ++ [TitleApply (date_string (datetime 2023 3 7 11 0 0 timezone_kst)); CapacityFull; LookupForm])).
Proof.
  assert (Hs : current_session (utcnow_astimezone (utc_wall scenario_env) (local_offset scenario_env))
     (cfg_dates full_config) = Ok (Open (datetime 2023 3 7 11 0 0 timezone_kst)))
    by (vm_compute; reflexivity).
  assert (Hc : cfg_limit full_config ≤ count_active (date_string (datetime 2023 3 7 11 0 0 timezone_kst)) demo_table)
    by (vm_compute; lia).
  split; [split; assumption | exact (page_capacity_full _ _ _ _ _ _ _ _ Hs Hc)].
Defined.

(** An 11-character id and a 5-character secret are stored as typed. *)
Lemma apply_submit_inserts_witness :
  (truthy "Hong" && truthy "2023-000001" && truthy "12345" = true ∧
   10 ≤ String.length "2023-000001" ∧ 4 ≤ String.length "12345" ∧
   select_registered "2023-000001" demo_date empty_table = []) ∧
  run_pym (apply_submit demo_date 0 "Hong" "2023-000001" "12345") (mkWorld empty_table [] [])
  = (Ok tt, mkWorld (mkTable (rows empty_table ++ [mkRow (aid_next empty_table) "Hong" "2023-000001" demo_date 0 "12345" false])
                             (aid_next empty_table + 1)) [] ([] ++ [Applied])).
Proof.
  split; [split_and!; (reflexivity || (simpl; lia))|].
  apply apply_submit_inserts; (reflexivity || (simpl; lia)).
Defined.

Lemma apply_submit_validation_witness :
  ((ErrStudentId = ErrEmptyField ∧ truthy "Hong" && truthy "2023-1" && truthy "1234" = false) ∨
   (ErrStudentId = ErrStudentId ∧ truthy "Hong" && truthy "2023-1" && truthy "1234" = true ∧
    String.length "2023-1" < 10) ∨
   (ErrStudentId = ErrPassword ∧ truthy "Hong" && truthy "2023-1" && truthy "1234" = true ∧
    10 ≤ String.length "2023-1" ∧ String.length "1234" < 4)) ∧
  run_pym (apply_submit demo_date 0 "Hong" "2023-1" "1234") (mkWorld empty_table [] [])
  = (Ok tt, mkWorld empty_table [] ([] ++ [ErrStudentId])).
Proof.
  assert (H : (ErrStudentId = ErrEmptyField ∧ truthy "Hong" && truthy "2023-1" && truthy "1234" = false) ∨
   (ErrStudentId = ErrStudentId ∧ truthy "Hong" && truthy "2023-1" && truthy "1234" = true ∧
    String.length "2023-1" < 10) ∨
   (ErrStudentId = ErrPassword ∧ truthy "Hong" && truthy "2023-1" && truthy "1234" = true ∧
    10 ≤ String.length "2023-1" ∧ String.length "1234" < 4))
    by (right; left; split_and!; [reflexivity | reflexivity | simpl; lia]).
  split; [exact H | exact (apply_submit_validation _ _ _ _ _ (mkWorld empty_table [] []) _ H)].
Defined.

Lemma apply_submit_insert_fault_witness :
  (truthy "Hong" && truthy "2023-00001" && truthy "1234" = true ∧
   10 ≤ String.length "2023-00001" ∧ 4 ≤ String.length "1234" ∧
   select_registered "2023-00001" demo_date empty_table = [] ∧ ConnectFault ≠ NoFault) ∧
  run_pym (apply_submit demo_date 0 "Hong" "2023-00001" "1234") (mkWorld empty_table [NoFault; ConnectFault] [])
  = (Exc (fault_exn ConnectFault), mkWorld empty_table [] []).
Proof.
  split; [split_and!; first [reflexivity | simpl; lia | discriminate]|].
  apply apply_submit_insert_fault; first [reflexivity | simpl; lia | discriminate].
Defined.

Lemma page_unreachable_db_witness :
  current_session (utcnow_astimezone (utc_wall scenario_env) (local_offset scenario_env))
    (cfg_dates scenario_config) = Ok (Open (datetime 2023 3 7 11 0 0 timezone_kst)) ∧
  run_pym (page scenario_config scenario_env demo_apply) (mkWorld empty_table [ConnectFault] [])
  = (Exc NameError, mkWorld empty_table []
       ([] ++ [TitleApply (date_string (datetime 2023 3 7 11 0 0 timezone_kst))])).
Proof.
  assert (Hs : current_session (utcnow_astimezone (utc_wall scenario_env) (local_offset scenario_env))
    (cfg_dates scenario_config) = Ok (Open (datetime 2023 3 7 11 0 0 timezone_kst)))
    by (vm_compute; reflexivity).
  split; [exact Hs|exact (page_unreachable_db _ _ _ _ _ _ _ Hs)].
Defined.

Definition demo_canceled_world : world := mkWorld (update_cancel 1 demo_table) [] [].

Lemma canceled_is_terminal_witness :
  (rtc (page_step scenario_config) demo_canceled_world demo_canceled_world ∧
   cancel_row 1 demo_row ∈ rows (tbl demo_canceled_world) ∧ canceled (cancel_row 1 demo_row) = true) ∧
  cancel_row 1 demo_row ∈ rows (tbl demo_canceled_world).
Proof.
  assert (Hin : cancel_row 1 demo_row ∈ rows (tbl demo_canceled_world))
    by (apply list_elem_of_In; vm_compute; left; reflexivity).
  split; [split_and!; [apply rtc_refl | exact Hin | reflexivity]|].
  exact (canceled_is_terminal scenario_config _ _ _ (rtc_refl _ _) Hin eq_refl).
Defined.

Lemma page_runs_evolve_witness :
  let w := snd (run_pym (page scenario_config scenario_env demo_apply) (initial_world [])) in
  rtc (page_step scenario_config) (initial_world []) w ∧ table_evolves (tbl (initial_world [])) (tbl w).
Proof.
  intros w. assert (H : rtc (page_step scenario_config) (initial_world []) w)
    by (apply rtc_once; constructor).
  split; [exact H | exact (page_runs_evolve _ _ _ H)].
Defined.

Lemma lookup_submit_found_witness :
  (truthy "2023-00001" && truthy "1234" = true ∧
   10 ≤ String.length "2023-00001" ∧ 4 ≤ String.length "1234" ∧
   select_secret "2023-00001" demo_date "1234" demo_table = [demo_row]) ∧
  run_pym (lookup_submit demo_date "2023-00001" "1234") (mkWorld demo_table [] [])
  = (Ok tt, mkWorld demo_table [] ([] ++ [LookedUp] ++ [Frame (map lookup_columns [demo_row])])).
Proof.
  split; [split_and!; (reflexivity || (simpl; lia))|].
  apply lookup_submit_found; (reflexivity || (simpl; lia)).
Defined.

Lemma cancel_submit_cancels_witness :
  (aids_fresh demo_table ∧ truthy "2023-00001" && truthy "1234" = true ∧
   10 ≤ String.length "2023-00001" ∧ 4 ≤ String.length "1234" ∧
   select_secret "2023-00001" demo_date "1234" demo_table = [demo_row] ∧
   rows demo_table = [] ++ demo_row :: []) ∧
  run_pym (cancel_submit demo_date "2023-00001" "1234") (mkWorld demo_table [] [])
  = (Ok tt, mkWorld (mkTable ([] ++ mkRow (aid demo_row) (sname demo_row) (sid demo_row)
                                        (attend_date demo_row) (apply_timestamp demo_row)
                                        (secret demo_row) true :: [])
                             (aid_next demo_table)) [] ([] ++ [Canceled])).
Proof.
  split; [split_and!; first [exact demo_table_fresh | reflexivity | simpl; lia]|].
  apply (cancel_submit_cancels _ _ _ _ _ demo_row [] [] []);
    first [exact demo_table_fresh | reflexivity | simpl; lia].
Defined.

Lemma apply_submit_duplicate_witness :
  (truthy "Hong" && truthy "2023-00001" && truthy "1234" = true ∧
   10 ≤ String.length "2023-00001" ∧ 4 ≤ String.length "1234" ∧
   select_registered "2023-00001" demo_date demo_table = [demo_row]) ∧
  run_pym (apply_submit demo_date 5 "Hong" "2023-00001" "1234") (mkWorld demo_table [] [])
  = (Ok tt, mkWorld demo_table [] ([] ++ [ErrAlreadyApplied])).
Proof.
  split; [split_and!; (reflexivity || (simpl; lia))|].
  apply apply_submit_duplicate with (r := demo_row) (rs := []); (reflexivity || (simpl; lia)).
Defined.

Lemma apply_accepts_overlong_fields_witness :
  select_registered "2023-000001" demo_date empty_table = [] ∧
  run_pym (apply_submit demo_date 0 "Hong" "2023-000001" "12345") (mkWorld empty_table [] [])
  = (Ok tt, mkWorld (insert_apply "Hong" "2023-000001" demo_date 0 "12345" empty_table) []
              ([] ++ [Applied])).
Proof. split; [reflexivity | apply apply_accepts_overlong_fields; reflexivity]. Defined.

Lemma reachable_rows_wf_witness :
  let w := snd (run_pym (page scenario_config scenario_env demo_apply) (initial_world [])) in
  rtc (page_step scenario_config) (initial_world []) w ∧ table_wf (cfg_dates scenario_config) (tbl w).
Proof.
  intros w. assert (H : rtc (page_step scenario_config) (initial_world []) w)
    by (apply rtc_once; constructor).
  split; [exact H | exact (reachable_rows_wf _ _ _ H)].
Defined.

End Page.
