(* ===== verification/PageSql.v ===== *)
(** * PageSql: the page run as it talks to the database, in SQL text

    [Page] models each statement by its meaning on the table.  The script
    itself sends text: [run_query(check_sql)] and [run_tx(apply_sql)] pass
    the f-strings of [SqlText] to PostgreSQL, modelled by [Sql.exec_sql].
    This file writes the handlers and the page again with those texts
    ([sql_query], [sql_tx], [apply_submit_sql], [lookup_submit_sql],
    [cancel_submit_sql], [page_sql]) and proves:
    - refinement: for requests whose fields contain no quote, every run of
      [page_sql] is a run of [Page.page], so the theorems of [Page] hold of
      the text-level page;
    - what a quote does: a student id that comments out the rest of the
      WHERE clause shows and cancels other students' registrations, a name
      that supplies its own VALUES registers another student twice, a name
      that appends an UPDATE cancels every registration (the statements a
      [run_tx] text holds are all executed and committed; those of a
      [run_query] text are rolled back, since [run_query] never commits,
      which [sql_query] models by keeping the table), and a name with an
      apostrophe cannot register at all. *)

From Stdlib Require Import Ascii.
From S2P Require Import Prelude Calendar Clock Session Store SqlText Sql Page.
Import Selector Table SqlText Sql Page.

Local Open Scope string_scope.

Module PageSql.

(** ** Statements through [run_query] and [run_tx] *)

(** [run_query(text)], lines 15-25: a fault raises as in [Page.run_query];
    a text PostgreSQL rejects raises pandas' [DatabaseError].  The
    connection is closed without a commit, so the table is kept. *)
Definition sql_query (text : string) : M qresult :=
  let* f := connect in
  match f with
  | NoFault => mkPyM (λ w, match exec_sql text (tbl w) with
                           | Some (r, _) => (Ok r, w)
                           | None => (Exc DBError, w)
                           end)
  | _ => raise (fault_exn f)
  end.

(** [run_tx(text)], lines 27-40: a failing statement is rolled back and
    the [finally] clause's [commit] on the closed connection raises. *)
Definition sql_tx (text : string) : M unit :=
  let* f := connect in
  match f with
  | NoFault => mkPyM (λ w, match exec_sql text (tbl w) with
                           | Some (_, tb') => (Ok tt, mkWorld tb' (faults w) (shown w))
                           | None => (Exc DBError, w)
                           end)
  | _ => raise (fault_exn f)
  end.

(** [df.empty] *)
Definition df_empty (r : qresult) : bool :=
  match r with
  | RCount _ | RDone => false
  | RRows rs => bool_decide (rs = [])
  | RCols _ vs => bool_decide (vs = [])
  end.

(** [run_query(applycount_sql).iloc[0]['count']], line 71. *)
Definition df_count (r : qresult) : option nat :=
  match r with RCount n => Some n | _ => None end.

(** [df_check.iloc[0]['aid']], line 147. *)
Definition df_first_aid (r : qresult) : option Z :=
  match r with RCols _ ((VInt a :: _) :: _) => Some a | _ => None end.

Definition values_tuple (vs : list value) : option (Z * string * string * date) :=
  match vs with
  | [VInt a; VText n; VText s; VDate d] => Some (a, n, s, d)
  | _ => None
  end.

(** [st.write(df)], line 128. *)
Definition df_frame (r : qresult) : list (Z * string * string * date) :=
  match r with RCols _ vs => omap values_tuple vs | _ => [] end.

(** ** The handlers, sending text *)

(** Lines 79-99. *)
Definition apply_submit_sql (d : date) (ts : Z) (sname sid spwd : string) : M unit :=
  if truthy sname && truthy sid && truthy spwd then
    check_form sid spwd
      (let* df := sql_query (check_sql sid (date_text d)) in
       if df_empty df then
         sql_tx (apply_sql sname sid (date_text d) (ts_text ts) spwd) >>> st_show Applied
       else st_show ErrAlreadyApplied)
  else st_show ErrEmptyField.

(** Lines 112-130. *)
Definition lookup_submit_sql (d : date) (sid spwd : string) : M unit :=
  if truthy sid && truthy spwd then
    check_form sid spwd
      (let* df := sql_query (lookup_sql sid (date_text d) spwd) in
       if df_empty df then st_show ErrNotFound
       else
         st_show LookedUp >>>
         let* df' := sql_query (lookup_sql sid (date_text d) spwd) in
         st_show (Frame (df_frame df')))
  else st_show ErrEmptyField.

(** Lines 132-152. *)
Definition cancel_submit_sql (d : date) (sid spwd : string) : M unit :=
  if truthy sid && truthy spwd then
    check_form sid spwd
      (let* df := sql_query (lookup_sql sid (date_text d) spwd) in
       if df_empty df then st_show ErrNotFound
       else match df_first_aid df with
            | Some a => sql_tx (cancel_sql (dec_text a)) >>> st_show Canceled
            | None => raise DBError
            end)
  else st_show ErrEmptyField.

(** Lines 42-152. *)
Definition page_sql (cfg : config) (e : run_env) (req : request) : M unit :=
  let now := utcnow_astimezone (utc_wall e) (local_offset e) in
  match current_session now (cfg_dates cfg) with
  | Exc ex => raise ex
  | Ok NoneScheduled => st_show TitleNoLecture
  | Ok (NotYetOpen i) => st_show (TitleNextLecture (date_string i))
  | Ok (Open i) =>
      let d := date_string i in
      st_show (TitleApply d) >>>
      let* df := sql_query (applycount_sql (date_text d)) in
      match df_count df with
      | None => raise DBError
      | Some cnt =>
          (if Nat.ltb cnt (cfg_limit cfg) then
             st_show ApplyForm >>>
             match req with
             | SubmitApply n s p =>
                 apply_submit_sql d (utcnow_astimezone (utc_wall_apply e) (local_offset e)) n s p
             | _ => pret tt
             end
           else st_show CapacityFull) >>>
          st_show LookupForm >>>
          match req with
          | SubmitLookup s p => lookup_submit_sql d s p
          | SubmitCancel s p => cancel_submit_sql d s p
          | _ => pret tt
          end
      end
  end.

(** ** Refinement: quote-free requests run as in [Page] *)

Lemma check_form_proper s p : Proper ((≡) ==> (≡)) (check_form s p).
Proof. intros k1 k2 Hk. unfold check_form. by repeat case_if. Qed.

(** A SELECT whose text means [q] reads what [run_query q] reads. *)
Lemma sql_query_bind {A B} text (q : table → A) (f : A → qresult) (k : qresult → M B) :
  (∀ tb, exec_sql text tb = Some (f (q tb), tb)) →
  (let* r := sql_query text in k r) ≡ (let* x := run_query q in k (f x)).
Proof.
  intros Hq [tb fs sh]. cbv [sql_query run_query pbind connect raise]. simpl.
  destruct fs as [|[] fs]; simpl; by rewrite ?Hq.
Qed.

(** A statement whose text means [u] does what [run_tx u] does. *)
Lemma sql_tx_refines text (u : table → table) :
  (∀ tb, exec_sql text tb = Some (RDone, u tb)) → sql_tx text ≡ run_tx u.
Proof.
  intros Hu [tb fs sh]. cbv [sql_tx run_tx pbind connect raise modify]. simpl.
  destruct fs as [|[] fs]; simpl; by rewrite ?Hu.
Qed.

Lemma values_tuple_lookup r : values_tuple (lookup_values r) = Some (lookup_columns r).
Proof. reflexivity. Qed.

Lemma df_frame_lookup rs : df_frame (RCols lookup_names (map lookup_values rs)) = map lookup_columns rs.
Proof.
  unfold df_frame. induction rs as [|r rs IH]; [done|].
  change (lookup_columns r :: omap values_tuple (map lookup_values rs) = map lookup_columns (r :: rs)).
  by rewrite IH.
Qed.

Section Handlers.
  Context (d : date) (s p : string).
  Hypothesis (Hs : no_quote s = true) (Hp : no_quote p = true) (Hd : printable_date d).

Lemma apply_submit_sql_refines ts n :
    no_quote n = true → (0 <= year (strftime_date timezone_kst ts) < 10000)%Z →
    apply_submit_sql d ts n s p ≡ apply_submit d ts n s p.
  Proof.
    intros Hn Hts. unfold apply_submit_sql, apply_submit. case_if; [|reflexivity].
    apply check_form_proper.
    etrans; [apply (sql_query_bind _ (select_registered s d) RRows); intros; by apply exec_check|].
    apply pbind_proper; [reflexivity|]. intros [|r rs]; simpl; [|reflexivity].
    apply pbind_proper; [|reflexivity]. apply sql_tx_refines. intros. by apply exec_apply.
  Qed.

Lemma lookup_submit_sql_refines : lookup_submit_sql d s p ≡ lookup_submit d s p.
  Proof.
    unfold lookup_submit_sql, lookup_submit. case_if; [|reflexivity].
    apply check_form_proper.
    etrans; [apply (sql_query_bind _ (select_secret s d p)
                      (λ rs, RCols lookup_names (map lookup_values rs))); intros; by apply exec_lookup|].
    apply pbind_proper; [reflexivity|]. intros [|r rs]; simpl; [reflexivity|].
    apply pbind_proper; [reflexivity|]. intros _.
    etrans; [apply (sql_query_bind _ (select_secret s d p)
                      (λ rs, RCols lookup_names (map lookup_values rs))); intros; by apply exec_lookup|].
    apply pbind_proper; [reflexivity|]. intros rs'. cbv beta. by rewrite df_frame_lookup.
  Qed.

Lemma cancel_submit_sql_refines : cancel_submit_sql d s p ≡ cancel_submit d s p.
  Proof.
    unfold cancel_submit_sql, cancel_submit. case_if; [|reflexivity].
    apply check_form_proper.
    etrans; [apply (sql_query_bind _ (select_secret s d p)
                      (λ rs, RCols lookup_names (map lookup_values rs))); intros; by apply exec_lookup|].
    apply pbind_proper; [reflexivity|]. intros [|r rs]; simpl; [reflexivity|].
    apply pbind_proper; [|reflexivity]. apply sql_tx_refines. intros. apply exec_cancel.
  Qed.
End Handlers.

(** The requests whose fields contain no quote. *)
Definition req_safe (req : request) : bool :=
  match req with
  | NoSubmit => true
  | SubmitApply n s p => no_quote n && no_quote s && no_quote p
  | SubmitLookup s p | SubmitCancel s p => no_quote s && no_quote p
  end.

(** The configured instants fall in years of four digits. *)
Definition cfg_printable (cfg : config) : Prop :=
  ∀ i, i ∈ cfg_dates cfg → (0 <= year (date_string i) < 10000)%Z.

(** The timestamp of line 92 falls in a year of four digits. *)
Definition env_printable (e : run_env) : Prop :=
  (0 <= year (strftime_date timezone_kst (utcnow_astimezone (utc_wall_apply e) (local_offset e)))
   < 10000)%Z.

Lemma date_string_printable i : (0 <= year (date_string i) < 10000)%Z → printable_date (date_string i).
Proof. intros Hy. split; [apply days_civil_roundtrip|exact Hy]. Qed.

Lemma page_sql_refines_page cfg e req :
  req_safe req = true → cfg_printable cfg → env_printable e → page_sql cfg e req ≡ page cfg e req.
Proof.
  intros Hr Hc He. unfold page_sql, page.
  destruct (current_session _ _) as [[|i|i]|ex] eqn:Hcs; try reflexivity.
  assert (Hd : printable_date (date_string i))
    by (apply date_string_printable, Hc, (current_session_open_in _ _ _ Hcs)).
  apply pbind_proper; [reflexivity|]. intros _.
  etrans; [apply (sql_query_bind _ (count_active (date_string i)) RCount);
           intros; by apply exec_applycount|].
  apply pbind_proper; [reflexivity|]. intros cnt. cbn [df_count].
  apply pbind_proper; [|intros _; apply pbind_proper; [reflexivity|intros _]].
  - case_if; [|reflexivity]. apply pbind_proper; [reflexivity|intros _].
    destruct req as [|n s p|s p|s p]; try reflexivity.
    simpl in Hr. rewrite !andb_true_iff in Hr. destruct Hr as [[??]?].
    by apply apply_submit_sql_refines.
  - destruct req as [|n s p|s p|s p]; try reflexivity; simpl in Hr; rewrite !andb_true_iff in Hr;
      destruct Hr; [apply lookup_submit_sql_refines|apply cancel_submit_sql_refines]; done.
Qed.

(** Successive runs of the text-level page on quote-free requests. *)
Inductive page_sql_step (cfg : config) : world → world → Prop :=
  | PageSqlRun e req w :
      req_safe req = true → env_printable e →
      page_sql_step cfg w (snd (run_pym (page_sql cfg e req) w)).

Lemma page_sql_step_page_step cfg w w' :
  cfg_printable cfg → page_sql_step cfg w w' → page_step cfg w w'.
Proof. intros Hc [e req w0 Hr He]. rewrite (page_sql_refines_page cfg e req Hr Hc He w0). constructor. Qed.

Lemma rtc_page_sql_step cfg w w' :
  cfg_printable cfg → rtc (page_sql_step cfg) w w' → rtc (page_step cfg) w w'.
Proof.
  intros Hc. induction 1 as [|w1 w2 w3 Hs _ IH]; [done|].
  eapply rtc_l; [by apply page_sql_step_page_step|exact IH].
Qed.

(** ** What a quote in a field does *)

Ltac run_sql_simpl :=
  cbv [apply_submit_sql lookup_submit_sql cancel_submit_sql check_form sql_query sql_tx
       connect st_show modify pbind pret raise] in *; simpl in *.

Lemma length_check_pass s p :
  (10 ≤ String.length s)%nat → (4 ≤ String.length p)%nat →
  Nat.ltb (String.length s) 10 = false ∧ Nat.ltb (String.length p) 4 = false.
Proof. intros. split; by apply Nat.ltb_ge. Qed.


Lemma forged_apply_run d ts s p tb sh :
  truthy s && truthy p = true → (10 ≤ String.length s)%nat → (4 ≤ String.length p)%nat →
  no_quote s = true → free_of "010"%char s = true → free_of "010"%char p = true →
  printable_date d → select_registered s d tb = [] →
  run_pym (apply_submit_sql d ts forged_sname s p) (mkWorld tb [] sh) =
  (Ok tt, mkWorld (insert_apply "x" "2023-00001" (mkDate 2023 3 7) forged_ts "0000" tb) []
                  (sh ++ [Applied])).
Proof.
  intros Ht Hs Hp Hq Hls Hlp Hd Hn. destruct (length_check_pass _ _ Hs Hp) as [Es Ep].
  run_sql_simpl. rewrite Ht, Es, Ep. simpl.
  rewrite exec_check by auto with attend. rewrite Hn. simpl.
  rewrite exec_apply_forged by auto using date_text_one_line, ts_text_one_line. done.
Qed.

Lemma stacked_apply_run d ts s p tb sh :
  truthy s && truthy p = true → (10 ≤ String.length s)%nat → (4 ≤ String.length p)%nat →
  no_quote s = true → free_of "010"%char s = true → free_of "010"%char p = true →
  printable_date d → select_registered s d tb = [] →
  run_pym (apply_submit_sql d ts stacked_sname s p) (mkWorld tb [] sh) =
  (Ok tt, mkWorld (cancel_every (insert_apply "x" "2023-00001" (mkDate 2023 3 7) forged_ts "0000" tb))
                  [] (sh ++ [Applied])).
Proof.
  intros Ht Hs Hp Hq Hls Hlp Hd Hn. destruct (length_check_pass _ _ Hs Hp) as [Es Ep].
  run_sql_simpl. rewrite Ht, Es, Ep. simpl.
  rewrite exec_check by auto with attend. rewrite Hn. simpl.
  rewrite exec_apply_stacked by auto using date_text_one_line, ts_text_one_line. done.
Qed.

Lemma cancel_every_canceled tb : Forall (λ r, canceled r = true) (rows (cancel_every tb)).
Proof. unfold cancel_every. simpl. rewrite Forall_map. by apply Forall_true. Qed.

Lemma count_active_cancel_every d tb : count_active d (cancel_every tb) = 0.
Proof.
  unfold count_active. rewrite (proj2 (filter_nil_forall _ _)); [done|].
  eapply Forall_impl; [apply cancel_every_canceled|]. intros r Hr [_ Hc]. congruence.
Qed.

Lemma injected_lookup_run d p tb sh r rs :
  rows tb = r :: rs → truthy p = true → (4 ≤ String.length p)%nat → free_of "010"%char p = true →
  run_pym (lookup_submit_sql d inj_sid p) (mkWorld tb [] sh) =
  (Ok tt, mkWorld tb [] (sh ++ [LookedUp] ++ [Frame (map lookup_columns (rows tb))])).
Proof.
  intros Hr Ht Hp Hlp. run_sql_simpl. rewrite Ht, (proj2 (Nat.ltb_ge _ _) Hp). simpl.
  rewrite exec_lookup_injected by auto using date_text_one_line. simpl.
  rewrite bool_decide_false by (rewrite Hr; discriminate). simpl.
  rewrite exec_lookup_injected by auto using date_text_one_line.
  rewrite df_frame_lookup. simpl. by rewrite <- app_assoc.
Qed.

Lemma injected_cancel_run d p tb sh r rs :
  rows tb = r :: rs → truthy p = true → (4 ≤ String.length p)%nat → free_of "010"%char p = true →
  run_pym (cancel_submit_sql d inj_sid p) (mkWorld tb [] sh) =
  (Ok tt, mkWorld (update_cancel (aid r) tb) [] (sh ++ [Canceled])).
Proof.
  intros Hr Ht Hp Hlp. run_sql_simpl. rewrite Ht, (proj2 (Nat.ltb_ge _ _) Hp). simpl.
  rewrite exec_lookup_injected by auto using date_text_one_line. simpl.
  rewrite bool_decide_false by (rewrite Hr; discriminate). rewrite Hr. simpl.
  by rewrite exec_cancel.
Qed.

(** ** Theorems *)

(** C27: for a request whose fields contain no quote, configured dates and an application timestamp in four-digit years, a run of the page that sends SQL text gives the same result and the same world as the run of [Page.page] with statements by meaning, whatever the world, the clock and the database faults. *)
Theorem page_sql_refines cfg e req w :
  req_safe req = true → cfg_printable cfg → env_printable e →
  run_pym (page_sql cfg e req) w = run_pym (page cfg e req) w.
Proof. intros Hr Hc He. apply (page_sql_refines_page cfg e req Hr Hc He w). Qed.

(** C28: every world reachable from an empty table by text-level page runs on quote-free requests keeps distinct [aid]s, one active registration per student and date, and the capacity bound. *)
Theorem reachable_page_sql_inv cfg fs w :
  cfg_printable cfg → rtc (page_sql_step cfg) (initial_world fs) w → page_inv (cfg_limit cfg) (tbl w).
Proof.
  intros Hc Hr. eapply rtc_page_step_inv; [apply initial_world_inv|by apply rtc_page_sql_step].
Qed.

(** C31: a name that closes its string constant and supplies its own VALUES passes the page's checks with a fresh student id and inserts a registration of another student (2023-00001, 2023-03-07, secret 0000); when that student was already registered for the date, the table ends with two active registrations of theirs, so uniqueness fails. *)
Theorem forged_name_breaks_uniqueness d ts s p tb sh :
  truthy s && truthy p = true → (10 ≤ String.length s)%nat → (4 ≤ String.length p)%nat →
  no_quote s = true → free_of "010"%char s = true → free_of "010"%char p = true →
  printable_date d → select_registered s d tb = [] →
  select_registered "2023-00001" (mkDate 2023 3 7) tb ≠ [] →
  let w' := snd (run_pym (apply_submit_sql d ts forged_sname s p) (mkWorld tb [] sh)) in
  (2 ≤ length (select_registered "2023-00001" (mkDate 2023 3 7) (tbl w')))%nat ∧
  ¬ unique_active (tbl w').
Proof.
  intros Ht Hs Hp Hq Hls Hlp Hd Hn Hv. simpl. rewrite forged_apply_run by done. simpl.
  assert (1 ≤ length (select_registered "2023-00001" (mkDate 2023 3 7) tb))%nat
    by (destruct (select_registered "2023-00001" (mkDate 2023 3 7) tb); [done|simpl; lia]).
  rewrite select_registered_insert_same, length_app. simpl.
  split; [lia|]. intros Hu. specialize (Hu "2023-00001" (mkDate 2023 3 7)).
  rewrite select_registered_insert_same, length_app in Hu. simpl in Hu. lia.
Qed.

(** C22: a name that closes its string constant, supplies its own VALUES and appends a second statement [UPDATE apply SET canceled = True WHERE canceled = False] passes the page's checks with a fresh student id; [run_tx] sends the whole text, PostgreSQL runs both statements and the [finally] clause commits them: the visitor is told the application succeeded and every registration of every date, theirs included, is canceled. *)
Theorem stacked_name_cancels_all d ts s p tb sh :
  truthy s && truthy p = true → (10 ≤ String.length s)%nat → (4 ≤ String.length p)%nat →
  no_quote s = true → free_of "010"%char s = true → free_of "010"%char p = true →
  printable_date d → select_registered s d tb = [] →
  let w' := snd (run_pym (apply_submit_sql d ts stacked_sname s p) (mkWorld tb [] sh)) in
  shown w' = (sh ++ [Applied])%list ∧ Forall (λ r, canceled r = true) (rows (tbl w')) ∧
  ∀ d', count_active d' (tbl w') = 0.
Proof.
  intros Ht Hs Hp Hq Hls Hlp Hd Hn. cbv zeta. rewrite stacked_apply_run by done.
  cbn [snd tbl shown]. split_and!; [done|apply cancel_every_canceled|intros d'; apply count_active_cancel_every].
Qed.

(** C32: the 10-character student id [' OR 1=1--] passes the length check and turns the lookup's WHERE clause into [sid = '' OR 1 = 1]: the lookup shows the [aid], name, id and date of every row of the table, canceled or not, of any date, and the cancel button cancels the first row of the table, whoever it belongs to. *)
Theorem injected_id_exposes_and_cancels d p tb sh r rs :
  rows tb = r :: rs → truthy p = true → (4 ≤ String.length p)%nat → free_of "010"%char p = true →
  run_pym (lookup_submit_sql d inj_sid p) (mkWorld tb [] sh) =
    (Ok tt, mkWorld tb [] (sh ++ [LookedUp] ++ [Frame (map lookup_columns (rows tb))])) ∧
  run_pym (cancel_submit_sql d inj_sid p) (mkWorld tb [] sh) =
    (Ok tt, mkWorld (update_cancel (aid r) tb) [] (sh ++ [Canceled])).
Proof. intros. split; [by eapply injected_lookup_run|by eapply injected_cancel_run]. Qed.


(** ** Witnesses *)

Lemma scenario_config_printable : cfg_printable scenario_config.
Proof.
  intros i Hi. apply list_elem_of_singleton in Hi as ->.
  assert (E : year (date_string (datetime 2023 3 7 11 0 0 timezone_kst)) = 2023%Z)
    by (vm_compute; reflexivity).
  rewrite E. lia.
Qed.

Lemma scenario_env_printable : env_printable scenario_env.
Proof.
  unfold env_printable.
  assert (E : year (strftime_date timezone_kst (utcnow_astimezone (utc_wall_apply scenario_env)
                                                  (local_offset scenario_env))) = 2023%Z)
    by (vm_compute; reflexivity).
  rewrite E. lia.
Qed.

Lemma page_sql_refines_witness :
  (req_safe demo_apply = true ∧ cfg_printable scenario_config ∧ env_printable scenario_env) ∧
  run_pym (page_sql scenario_config scenario_env demo_apply) (initial_world [])
  = run_pym (page scenario_config scenario_env demo_apply) (initial_world []).
Proof.
  split; [exact (conj eq_refl (conj scenario_config_printable scenario_env_printable))|].
  exact (page_sql_refines scenario_config scenario_env demo_apply (initial_world []) eq_refl
           scenario_config_printable scenario_env_printable).
Defined.

Lemma reachable_page_sql_inv_witness :
  let w := snd (run_pym (page_sql scenario_config scenario_env demo_apply) (initial_world [])) in
  (cfg_printable scenario_config ∧ rtc (page_sql_step scenario_config) (initial_world []) w) ∧
  page_inv (cfg_limit scenario_config) (tbl w).
Proof.
  intros w. assert (H : rtc (page_sql_step scenario_config) (initial_world []) w)
    by (apply rtc_once; constructor; [reflexivity|exact scenario_env_printable]).
  split; [exact (conj scenario_config_printable H)|].
  exact (reachable_page_sql_inv _ _ _ scenario_config_printable H).
Defined.

Lemma forged_name_breaks_uniqueness_witness :
  (truthy "2023-99999" && truthy "9999" = true ∧ (10 ≤ String.length "2023-99999")%nat ∧
   (4 ≤ String.length "9999")%nat ∧ no_quote "2023-99999" = true ∧
   free_of "010"%char "2023-99999" = true ∧ free_of "010"%char "9999" = true ∧
   printable_date demo_date ∧ select_registered "2023-99999" demo_date demo_table = [] ∧
   select_registered "2023-00001" (mkDate 2023 3 7) demo_table ≠ []) ∧
  let w' := snd (run_pym (apply_submit_sql demo_date forged_ts forged_sname "2023-99999" "9999")
                         (mkWorld demo_table [] [])) in
  (2 ≤ length (select_registered "2023-00001" (mkDate 2023 3 7) (tbl w')))%nat ∧
  ¬ unique_active (tbl w').
Proof.
  assert (Hv : select_registered "2023-00001" (mkDate 2023 3 7) demo_table ≠ []) by (vm_compute; discriminate).
  split; [refine (conj eq_refl (conj _ (conj _ (conj eq_refl (conj eq_refl (conj eq_refl
            (conj demo_date_printable (conj eq_refl Hv)))))))); simpl; lia|].
  apply forged_name_breaks_uniqueness; first [reflexivity | exact demo_date_printable | exact Hv | simpl; lia].
Defined.

Lemma stacked_name_cancels_all_witness :
  (truthy "2023-99999" && truthy "9999" = true ∧ (10 ≤ String.length "2023-99999")%nat ∧
   (4 ≤ String.length "9999")%nat ∧ no_quote "2023-99999" = true ∧
   free_of "010"%char "2023-99999" = true ∧ free_of "010"%char "9999" = true ∧
   printable_date demo_date ∧ select_registered "2023-99999" demo_date demo_table = []) ∧
  let w' := snd (run_pym (apply_submit_sql demo_date forged_ts stacked_sname "2023-99999" "9999")
                         (mkWorld demo_table [] [])) in
  shown w' = ([] ++ [Applied])%list ∧ Forall (λ r, canceled r = true) (rows (tbl w')) ∧
  ∀ d', count_active d' (tbl w') = 0.
Proof.
  split; [refine (conj eq_refl (conj _ (conj _ (conj eq_refl (conj eq_refl (conj eq_refl
            (conj demo_date_printable eq_refl))))))); simpl; lia|].
  apply stacked_name_cancels_all; first [reflexivity | exact demo_date_printable | simpl; lia].
Defined.

Lemma injected_id_exposes_and_cancels_witness :
  (rows demo_table = demo_row :: [] ∧ truthy "0000" = true ∧ (4 ≤ String.length "0000")%nat ∧
   free_of "010"%char "0000" = true) ∧
  run_pym (lookup_submit_sql demo_date inj_sid "0000") (mkWorld demo_table [] []) =
    (Ok tt, mkWorld demo_table [] ([] ++ [LookedUp] ++ [Frame (map lookup_columns (rows demo_table))])) ∧
  run_pym (cancel_submit_sql demo_date inj_sid "0000") (mkWorld demo_table [] []) =
    (Ok tt, mkWorld (update_cancel (aid demo_row) demo_table) [] ([] ++ [Canceled])).
Proof.
  split; [refine (conj eq_refl (conj eq_refl (conj _ eq_refl))); simpl; lia|].
  apply injected_id_exposes_and_cancels with (rs := []); first [reflexivity | simpl; lia].
Defined.


End PageSql.
