(* ===== verification/Script.v ===== *)
(** * Script: one run of the page as a program of database actions

    [Page.page] runs the script in one go.  To interleave runs, a run is
    written here as a tree of the database accesses it makes (a free monad
    over the five statements of [Store]): [Act a k] sends the statement
    [a] and continues with [k] applied to its result, [Show x k] renders a
    widget, [Done] ends the run and [Fail ex] ends it with an exception.
    [page_prog] follows lines 42-152 statement by statement, and [interp]
    runs such a tree with [Page.run_query] and [Page.run_tx]; the first
    theorem of the file is that the two descriptions of a run agree
    ([page_prog_interp]), so everything proved of [page_prog] in
    [Sessions] is about the page itself. *)

From S2P Require Import Prelude Calendar Clock Session Store Page.
Import Selector Table Page.

Module Script.

(** ** The statements a run sends *)

Inductive action :=
  | ACount (d : date)                                     (* line 69 *)
  | ASelectRegistered (s : string) (d : date)             (* line 88 *)
  | ASelectSecret (s : string) (d : date) (p : string)    (* lines 121, 141 *)
  | AInsert (n s : string) (d : date) (ts : Z) (p : string)  (* line 93 *)
  | ACancel (a : Z).                                      (* line 148 *)

(** What [run_query] hands back (the frame's [count] or its rows) and what
    [run_tx] returns ([None] in Python, [tt] here). *)
Definition result (a : action) : Type :=
  match a with
  | ACount _ => nat
  | ASelectRegistered _ _ | ASelectSecret _ _ _ => list row
  | AInsert _ _ _ _ _ | ACancel _ => unit
  end.

(** The statement executed on the table: its result and the new table. *)
Definition action_run (a : action) (tb : table) : result a * table :=
  match a as a0 return result a0 * table with
  | ACount d => (count_active d tb, tb)
  | ASelectRegistered s d => (select_registered s d tb, tb)
  | ASelectSecret s d p => (select_secret s d p tb, tb)
  | AInsert n s d ts p => (tt, insert_apply n s d ts p tb)
  | ACancel x => (tt, update_cancel x tb)
  end.

Definition is_insert (a : action) : bool :=
  match a with AInsert _ _ _ _ _ => true | _ => false end.

Definition is_count (a : action) : bool :=
  match a with ACount _ => true | _ => false end.

(** ** Runs as trees of actions *)

Inductive prog :=
  | Done
  | Fail (ex : exn)
  | Show (x : widget) (k : prog)
  | Act (a : action) (k : result a → prog).

(** [p] then [q]: the statements of a Python block followed by the next. *)
Fixpoint pseq (p q : prog) : prog :=
  match p with
  | Done => q
  | Fail ex => Fail ex
  | Show x k => Show x (pseq k q)
  | Act a k => Act a (λ r, pseq (k r) q)
  end.

(** ** The handlers, as in [Page] *)

Definition check_form_prog (sid spwd : string) (k : prog) : prog :=
  if Nat.ltb (String.length sid) 10 then Show ErrStudentId Done
  else if Nat.ltb (String.length spwd) 4 then Show ErrPassword Done
  else k.

(** Lines 79-99. *)
Definition apply_prog (d : date) (ts : Z) (sname sid spwd : string) : prog :=
  if truthy sname && truthy sid && truthy spwd then
    check_form_prog sid spwd
      (Act (ASelectRegistered sid d) (λ found : list row,
         match found with
         | [] => Act (AInsert sname sid d ts spwd) (λ _, Show Applied Done)
         | _ :: _ => Show ErrAlreadyApplied Done
         end))
  else Show ErrEmptyField Done.

(** Lines 112-130. *)
Definition lookup_prog (d : date) (sid spwd : string) : prog :=
  if truthy sid && truthy spwd then
    check_form_prog sid spwd
      (Act (ASelectSecret sid d spwd) (λ df : list row,
         match df with
         | [] => Show ErrNotFound Done
         | _ :: _ =>
             Show LookedUp
               (Act (ASelectSecret sid d spwd) (λ df' : list row,
                  Show (Frame (map lookup_columns df')) Done))
         end))
  else Show ErrEmptyField Done.

(** Lines 132-152. *)
Definition cancel_prog (d : date) (sid spwd : string) : prog :=
  if truthy sid && truthy spwd then
    check_form_prog sid spwd
      (Act (ASelectSecret sid d spwd) (λ df : list row,
         match df with
         | [] => Show ErrNotFound Done
         | r :: _ => Act (ACancel (aid r)) (λ _, Show Canceled Done)
         end))
  else Show ErrEmptyField Done.

(** Lines 42-152. *)
Definition page_prog (cfg : config) (e : run_env) (req : request) : prog :=
  let now := utcnow_astimezone (utc_wall e) (local_offset e) in
  match current_session now (cfg_dates cfg) with
  | Exc ex => Fail ex
  | Ok NoneScheduled => Show TitleNoLecture Done
  | Ok (NotYetOpen i) => Show (TitleNextLecture (date_string i)) Done
  | Ok (Open i) =>
      let d := date_string i in
      Show (TitleApply d)
        (Act (ACount d) (λ cnt : nat,
           pseq
             (if Nat.ltb cnt (cfg_limit cfg) then
                Show ApplyForm
                  match req with
                  | SubmitApply n s p =>
                      apply_prog d (utcnow_astimezone (utc_wall_apply e) (local_offset e)) n s p
                  | _ => Done
                  end
              else Show CapacityFull Done)
             (Show LookupForm
                match req with
                | SubmitLookup s p => lookup_prog d s p
                | SubmitCancel s p => cancel_prog d s p
                | _ => Done
                end)))
  end.

(** ** Running a tree with the page's primitives *)

Definition run_action (a : action) : M (result a) :=
  match a as a0 return M (result a0) with
  | ACount d => run_query (count_active d)
  | ASelectRegistered s d => run_query (select_registered s d)
  | ASelectSecret s d p => run_query (select_secret s d p)
  | AInsert n s d ts p => run_tx (insert_apply n s d ts p)
  | ACancel x => run_tx (update_cancel x)
  end.

Fixpoint interp (p : prog) : M unit :=
  match p with
  | Done => pret tt
  | Fail ex => raise ex
  | Show x k => st_show x >>> interp k
  | Act a k => let* r := run_action a in interp (k r)
  end.

(** ** The tree runs as the page *)

Lemma interp_pseq p q : interp (pseq p q) ≡ (interp p >>> interp q).
Proof.
  induction p as [| ex | x k IH | a k IH]; simpl.
  - by intros w.
  - by intros w.
  - rewrite pbind_assoc. apply pbind_proper; [done|]. intros _. apply IH.
  - rewrite pbind_assoc. apply pbind_proper; [done|]. intros r. apply IH.
Qed.

Ltac interp_tac :=
  repeat first [ done | apply pbind_ret_unit
               | apply pbind_proper; [done|intros ?]
               | case_match ]; simpl.

Lemma interp_check_form sid spwd k :
  interp (check_form_prog sid spwd k) ≡ check_form sid spwd (interp k).
Proof. unfold check_form_prog, check_form. interp_tac. Qed.

Lemma interp_apply_prog d ts n s p : interp (apply_prog d ts n s p) ≡ apply_submit d ts n s p.
Proof.
  unfold apply_prog, apply_submit. case_match; simpl; [|interp_tac].
  rewrite interp_check_form. unfold check_form. interp_tac.
Qed.

Lemma interp_lookup_prog d s p : interp (lookup_prog d s p) ≡ lookup_submit d s p.
Proof.
  unfold lookup_prog, lookup_submit. case_match; simpl; [|interp_tac].
  rewrite interp_check_form. unfold check_form. interp_tac.
Qed.

Lemma interp_cancel_prog d s p : interp (cancel_prog d s p) ≡ cancel_submit d s p.
Proof.
  unfold cancel_prog, cancel_submit. case_match; simpl; [|interp_tac].
  rewrite interp_check_form. unfold check_form. interp_tac.
Qed.

(** The tree of database actions [page_prog] of a run, executed by [interp] with the page's [run_query] and [run_tx], gives exactly the result and final world of the page run [Page.page], on every configuration, clock, request and world (tables and database faults included). *)
Theorem page_prog_interp cfg e req : interp (page_prog cfg e req) ≡ page cfg e req.
Proof.
  unfold page_prog, page.
  destruct (current_session _ _) as [[|i|i]|ex]; cbn [interp]; [interp_tac|interp_tac| |done].
  apply pbind_proper; [done|]. intros _. apply pbind_proper; [done|]. intros cnt.
  rewrite interp_pseq. apply pbind_proper.
  - destruct (_ <? _); cbn [interp]; [|interp_tac]. apply pbind_proper; [done|]. intros _.
    destruct req; [done|apply interp_apply_prog|done|done].
  - intros _. cbn [interp]. apply pbind_proper; [done|]. intros _.
    destruct req; [done|done|apply interp_lookup_prog|apply interp_cancel_prog].
Qed.

(** ** Which statements a run may send *)

(** Every statement on every path of [p] satisfies [P]. *)
Fixpoint acts_ok (P : action → Prop) (p : prog) : Prop :=
  match p with
  | Done | Fail _ => True
  | Show _ k => acts_ok P k
  | Act a k => P a ∧ ∀ r, acts_ok P (k r)
  end.

Lemma acts_ok_pseq P p q : acts_ok P p → acts_ok P q → acts_ok P (pseq p q).
Proof. induction p; cbn [pseq acts_ok]; naive_solver. Qed.

Lemma acts_ok_check_form P s p k : acts_ok P k → acts_ok P (check_form_prog s p k).
Proof. intros. unfold check_form_prog. by repeat case_match. Qed.

(** The statements other than the INSERT are allowed by [P]. *)
Definition allows_reads (P : action → Prop) : Prop := ∀ a, is_insert a = false → P a.

Section Statements.
Context (P : action → Prop) (H_reads : allows_reads P).

Ltac acts_tac :=
  repeat first
    [ done | apply acts_ok_pseq | apply acts_ok_check_form | progress cbn [acts_ok result] in *
    | split; [by apply H_reads|] | progress intros | case_match ].

Lemma acts_ok_lookup d s p : acts_ok P (lookup_prog d s p).
Proof. unfold lookup_prog. acts_tac. Qed.

Lemma acts_ok_cancel d s p : acts_ok P (cancel_prog d s p).
Proof. unfold cancel_prog. acts_tac. Qed.

(** [P] holds of the INSERT whenever the form's checks pass. *)
Lemma acts_ok_apply d ts n s p :
  (truthy n = true → (10 ≤ String.length s)%nat → (4 ≤ String.length p)%nat →
   P (AInsert n s d ts p)) →
  acts_ok P (apply_prog d ts n s p).
Proof.
  intros HP. unfold apply_prog, check_form_prog.
  destruct (truthy n) eqn:Hn; cbn [andb]; [|acts_tac].
  destruct (String.length s <? 10) eqn:Hs; [acts_tac|].
  destruct (String.length p <? 4) eqn:Hp; [acts_tac|].
  apply Nat.ltb_ge in Hs, Hp. destruct (truthy s && truthy p); [|acts_tac].
  cbn [acts_ok]. split; [by apply H_reads|]. intros [|r rs]; [|acts_tac].
  cbn [acts_ok]. split; [by apply HP|]. acts_tac.
Qed.

Lemma acts_ok_page cfg e req :
  (∀ i, i ∈ cfg_dates cfg → ∀ ts n s p, truthy n = true → (10 ≤ String.length s)%nat →
     (4 ≤ String.length p)%nat → P (AInsert n s (date_string i) ts p)) →
  acts_ok P (page_prog cfg e req).
Proof.
  intros HP. unfold page_prog.
  destruct (current_session _ _) as [[|i|i]|ex] eqn:Hcs; [acts_tac|acts_tac| |acts_tac].
  apply current_session_open_in in Hcs.
  cbn [acts_ok]. split; [by apply H_reads|]. intros cnt. cbn [result] in cnt.
  apply acts_ok_pseq.
  - destruct (_ <? _); [|acts_tac]. cbn [acts_ok].
    destruct req; [acts_tac| |acts_tac|acts_tac]. apply acts_ok_apply. auto.
  - cbn [acts_ok]. destruct req; [acts_tac|acts_tac|apply acts_ok_lookup|apply acts_ok_cancel].
Qed.

End Statements.

(** ** Where a run may insert *)

(** No INSERT on any path. *)
Definition clean (p : prog) : Prop := acts_ok (λ a, is_insert a = false) p.

(** At most one INSERT on every path, for the date [d]. *)
Fixpoint armed (d : date) (p : prog) : Prop :=
  match p with
  | Done | Fail _ => True
  | Show _ k => armed d k
  | Act a k =>
      match a with
      | AInsert _ _ d' _ _ => d' = d ∧ ∀ r, clean (k r)
      | _ => ∀ r, armed d (k r)
      end
  end.

(** Every INSERT comes after a count of its date that was below [lim], and
    after such a count at most one INSERT follows. *)
Fixpoint guarded (lim : nat) (p : prog) : Prop :=
  match p with
  | Done | Fail _ => True
  | Show _ k => guarded lim k
  | Act a k =>
      match a as a0 return (result a0 → prog) → Prop with
      | ACount d => λ k',
          ∀ n : nat, (n < lim → armed d (k' n)) ∧ (lim ≤ n → guarded lim (k' n))
      | AInsert _ _ _ _ _ => λ _, False
      | _ => λ k', ∀ r, guarded lim (k' r)
      end k
  end.

Lemma clean_allows_reads : allows_reads (λ a, is_insert a = false).
Proof. by intros a. Qed.

Lemma clean_armed d p : clean p → armed d p.
Proof.
  induction p as [| | x k IH | a k IH]; cbn [clean acts_ok armed]; [done..| |].
  - apply IH.
  - intros [Ha Hk]. destruct a; try done; intros r; apply IH, Hk.
Qed.

Lemma clean_guarded lim p : clean p → guarded lim p.
Proof.
  induction p as [| | x k IH | a k IH]; cbn [clean acts_ok guarded]; [done..| |].
  - apply IH.
  - intros [Ha Hk]. destruct a; try done; try (intros r; apply IH, Hk).
    intros n. split; [intros _; apply clean_armed|intros _; apply IH]; apply Hk.
Qed.

Lemma armed_pseq d p q : armed d p → clean q → armed d (pseq p q).
Proof.
  intros Hp Hq. induction p as [| | x k IH | a k IH]; cbn [pseq armed] in *;
    [by apply clean_armed|done|by apply IH|].
  destruct a; try (intros r; by apply IH).
  destruct Hp as [-> Hk]. split; [done|]. intros r. apply acts_ok_pseq; [apply Hk|apply Hq].
Qed.

Lemma clean_lookup d s p : clean (lookup_prog d s p).
Proof. apply acts_ok_lookup, clean_allows_reads. Qed.

Lemma clean_cancel d s p : clean (cancel_prog d s p).
Proof. apply acts_ok_cancel, clean_allows_reads. Qed.

Lemma armed_apply d ts n s p : armed d (apply_prog d ts n s p).
Proof.
  unfold apply_prog, check_form_prog. repeat case_match; cbn [armed]; try done.
  intros [|r rs]; cbn [armed]; [|done]. split; [done|]. by intros _.
Qed.

(** A run of the page inserts only after a count of the date under the
    configured limit, and at most once. *)
Lemma guarded_page cfg e req : guarded (cfg_limit cfg) (page_prog cfg e req).
Proof.
  unfold page_prog.
  destruct (current_session _ _) as [[|i|i]|ex]; cbn [guarded]; [done..| |done].
  intros n. split; intros Hn.
  - rewrite (proj2 (Nat.ltb_lt _ _) Hn). apply armed_pseq.
    + cbn [armed]. destruct req; [done|apply armed_apply|done|done].
    + cbn [clean acts_ok]. destruct req; [done|done|apply clean_lookup|apply clean_cancel].
  - rewrite (proj2 (Nat.ltb_ge _ _) Hn). cbn [pseq guarded]. apply clean_guarded.
    cbn [clean acts_ok]. destruct req; [done|done|apply clean_lookup|apply clean_cancel].
Qed.

(** ** How many steps a run takes *)

(** Every path of [p] has at most [n] widgets and statements. *)
Fixpoint bounded (n : nat) (p : prog) {struct p} : Prop :=
  match p with
  | Done | Fail _ => True
  | Show _ k => match n with 0 => False | S m => bounded m k end
  | Act _ k => match n with 0 => False | S m => ∀ r, bounded m (k r) end
  end.

Lemma bounded_mono n m p : bounded n p → n ≤ m → bounded m p.
Proof.
  induction p as [| | x k IH | a k IH] in n, m |- *; cbn [bounded]; [by intros|by intros| |];
    (destruct n as [|n]; [by intros []|]); (destruct m as [|m]; [intros; lia|]).
  - intros Hk Hle. apply (IH n); [done|lia].
  - intros Hk Hle r. apply (IH r n); [done|lia].
Qed.

Lemma bounded_pseq n m p q : bounded n p → bounded m q → bounded (n + m) (pseq p q).
Proof.
  induction p as [| | x k IH | a k IH] in n |- *; cbn [bounded pseq]; intros Hp Hq.
  - eapply bounded_mono; [done|lia].
  - done.
  - destruct n; [done|]. by apply IH.
  - destruct n; [done|]. intros r. by apply IH.
Qed.

Lemma bounded_check_form n s p k : bounded (S n) k → bounded (S n) (check_form_prog s p k).
Proof. unfold check_form_prog. by repeat case_match. Qed.

Ltac bounded_tac :=
  repeat first
    [ done | apply bounded_check_form | progress cbn [bounded result] in *
    | progress intros | case_match ].

Lemma bounded_apply d ts n s p : bounded 3 (apply_prog d ts n s p).
Proof. unfold apply_prog. bounded_tac. Qed.

Lemma bounded_lookup d s p : bounded 4 (lookup_prog d s p).
Proof. unfold lookup_prog. bounded_tac. Qed.

Lemma bounded_cancel d s p : bounded 3 (cancel_prog d s p).
Proof. unfold cancel_prog. bounded_tac. Qed.

(** The longest run: title, count, form, lookup query, message, second
    query, frame. *)
Definition page_steps : nat := 8.

Lemma bounded_page cfg e req : bounded page_steps (page_prog cfg e req).
Proof.
  unfold page_prog, page_steps.
  destruct (current_session _ _) as [[|i|i]|ex]; cbn [bounded]; [done..| |done].
  intros cnt. destruct req as [|n s p|s p|s p].
  - apply (bounded_pseq 2 4); [case_match|]; done.
  - apply (bounded_pseq 4 2); [case_match|]; cbn [bounded]; [apply bounded_apply|done..].
  - apply (bounded_pseq 1 5); [case_match|]; [done|done|apply bounded_lookup].
  - apply (bounded_pseq 2 4); [case_match|]; [done|done|].
    cbn [bounded]. eapply bounded_mono; [apply bounded_cancel|lia].
Qed.

End Script.
