(* ===== verification/Sessions.v ===== *)
(** * Sessions: concurrent runs of the page

    Every visitor's interaction starts a run of the script, and Streamlit
    serves several sessions at once, so runs interleave.  A statement is
    atomic (each [run_query] and [run_tx] opens its own connection and runs
    one statement in its own transaction), and nothing else is shared
    between runs: the interleaving happens between statements.

    A [thread] is a run in progress: the rest of its [Script.prog] and the
    widgets it rendered.  [tstep] is one step of one run (render a widget,
    execute a statement, or have the statement fail and raise
    [DBError] or [NameError] ([fault_exn])
    with the table unchanged); [cstep] lets any run of the pool take its
    next step (the pool is written [ts1 ++ t :: ts2]); [sys_step] adds the
    arrival of a new run of [page_prog] with any clock and request. *)

From S2P Require Import Prelude Calendar Clock Session Store Page Script.
Import Selector Table Page Script.

Module Sessions.

(** ** Runs in progress and their steps *)

Record thread := mkThread { tprog : prog; tout : list widget }.

Inductive tstep : table * thread → table * thread → Prop :=
  | TShow tb x k out :
      tstep (tb, mkThread (Show x k) out) (tb, mkThread k (out ++ [x]))
  | TAct tb a k out :
      tstep (tb, mkThread (Act a k) out)
            ((action_run a tb).2, mkThread (k (action_run a tb).1) out)
  | TFault tb a k out f :
      f ≠ NoFault →
      tstep (tb, mkThread (Act a k) out) (tb, mkThread (Fail (fault_exn f)) out).

Record conf := mkConf { ctbl : table; cthreads : list thread }.

Inductive cstep : conf → conf → Prop :=
  | CStep tb tb' t t' ts1 ts2 :
      tstep (tb, t) (tb', t') →
      cstep (mkConf tb (ts1 ++ t :: ts2)) (mkConf tb' (ts1 ++ t' :: ts2)).

Inductive sys_step (cfg : config) : conf → conf → Prop :=
  | SysRun c c' : cstep c c' → sys_step cfg c c'
  | SysArrive e req c :
      sys_step cfg c (mkConf (ctbl c) (cthreads c ++ [mkThread (page_prog cfg e req) []])).

(** A run has ended, normally or with an exception. *)
Definition finished (t : thread) : Prop :=
  match tprog t with Done | Fail _ => True | _ => False end.

(** The end of a tree that [interp] ran to the outcome [r]. *)
Definition outcome_prog (r : outcome unit) : prog :=
  match r with Ok _ => Done | Exc ex => Fail ex end.

(** ** A run alone is an execution of the pool *)

Lemma run_action_run a w :
  run_pym (run_action a) w =
  match faults w with
  | [] => (Ok (action_run a (tbl w)).1, mkWorld (action_run a (tbl w)).2 [] (shown w))
  | NoFault :: bs => (Ok (action_run a (tbl w)).1, mkWorld (action_run a (tbl w)).2 bs (shown w))
  | f :: bs => (Exc (fault_exn f), mkWorld (tbl w) bs (shown w))
  end.
Proof. destruct w as [tb [|[| |] bs] sh], a; reflexivity. Qed.

Lemma interp_tsteps p w :
  rtc tstep (tbl w, mkThread p (shown w))
    (tbl (run_pym (interp p) w).2,
     mkThread (outcome_prog (run_pym (interp p) w).1) (shown (run_pym (interp p) w).2)).
Proof.
  induction p as [| ex | x k IH | a k IH] in w |- *; cbn [interp].
  - apply rtc_refl.
  - apply rtc_refl.
  - eapply rtc_l; [constructor|]. apply (IH (mkWorld (tbl w) (faults w) (shown w ++ [x]))).
  - cbv [pbind]. cbn [run_pym]. rewrite run_action_run.
    destruct w as [tb fs sh]; cbn [faults tbl shown].
    destruct fs as [|[| |] bs]; cbn [tbl shown fst snd].
    + eapply rtc_l; [apply TAct|]. apply (IH _ (mkWorld _ [] sh)).
    + eapply rtc_l; [apply TAct|]. apply (IH _ (mkWorld _ bs sh)).
    + eapply rtc_l; [apply (TFault _ _ _ _ ConnectFault); discriminate|]. apply rtc_refl.
    + eapply rtc_l; [apply (TFault _ _ _ _ StmtFault); discriminate|]. apply rtc_refl.
Qed.

Lemma rtc_tstep_cstep ts1 ts2 tb t tb' t' :
  rtc tstep (tb, t) (tb', t') →
  rtc cstep (mkConf tb (ts1 ++ t :: ts2)) (mkConf tb' (ts1 ++ t' :: ts2)).
Proof.
  apply (rtc_congruence (λ x : table * thread, mkConf x.1 (ts1 ++ x.2 :: ts2))).
  intros [??] [??] H. by constructor.
Qed.

Lemma rtc_cstep_sys cfg c c' : rtc cstep c c' → rtc (sys_step cfg) c c'.
Proof. apply rtc_subrel. intros ???. by constructor. Qed.

(** A run of the page on its own, from a world with table [tb] and fault schedule [fs], is one schedule of the concurrent sessions: the run arrives in any pool of runs, takes all its steps before any other run moves, and ends with the table and the rendered widgets of [Page.page], [Done] when the page returned and [Fail ex] when it raised [ex]. *)
Theorem page_run_is_schedule cfg e req tb fs ts :
  let res := run_pym (page cfg e req) (mkWorld tb fs []) in
  rtc (sys_step cfg) (mkConf tb ts)
      (mkConf (tbl res.2) (ts ++ [mkThread (outcome_prog res.1) (shown res.2)])).
Proof.
  intros res. eapply rtc_l; [apply (SysArrive cfg e req)|]. cbn [ctbl cthreads].
  apply rtc_cstep_sys. subst res. rewrite <- (page_prog_interp cfg e req (mkWorld tb fs [])).
  rewrite <- (app_nil_r (ts ++ [_])), <- !app_assoc. cbn [app].
  apply rtc_tstep_cstep, (interp_tsteps _ (mkWorld tb fs [])).
Qed.

(** ** Invariants of the table under every interleaving *)

(** A property [I] of the table that every statement allowed by [P] keeps
    holds in every configuration reached by any interleaving of arriving
    runs, as long as every run sends only statements allowed by [P]. *)
Section Invariant.
Context (cfg : config) (P : action → Prop) (I : table → Prop).
Hypothesis H_act : ∀ a tb, P a → I tb → I (action_run a tb).2.
Hypothesis H_arrive : ∀ e req, acts_ok P (page_prog cfg e req).

Definition pool_ok (c : conf) : Prop :=
  I (ctbl c) ∧ Forall (λ t, acts_ok P (tprog t)) (cthreads c).

Lemma tstep_ok tb t tb' t' :
  tstep (tb, t) (tb', t') → I tb → acts_ok P (tprog t) → I tb' ∧ acts_ok P (tprog t').
Proof.
  inversion 1; subst; cbn [tprog acts_ok]; [done| |done].
  intros HI [HP Hk]. split; [by apply H_act|apply Hk].
Qed.

Lemma cstep_ok c c' : cstep c c' → pool_ok c → pool_ok c'.
Proof.
  intros [tb tb' t t' ts1 ts2 Hs] [HI Hts]. cbn [ctbl cthreads] in *.
  apply Forall_app in Hts as [H1 [Ht H2]%Forall_cons].
  destruct (tstep_ok _ _ _ _ Hs HI Ht) as [HI' Ht'].
  split; [done|]. apply Forall_app. by split; [|constructor].
Qed.

Lemma sys_step_ok c c' : sys_step cfg c c' → pool_ok c → pool_ok c'.
Proof.
  intros [c1 c2 Hs|e req [tb ts]]; [by apply cstep_ok|].
  intros [HI Hts]. split; [done|]. apply Forall_app. split; [done|]. apply Forall_singleton, H_arrive.
Qed.

Lemma rtc_sys_step_ok c c' : rtc (sys_step cfg) c c' → pool_ok c → pool_ok c'.
Proof. induction 1; eauto using sys_step_ok. Qed.

End Invariant.

(** What the page checks before it sends an INSERT: the lengths of the
    form's fields, a non-empty name and the date of a configured lecture. *)
Definition insert_checked (dates : list Z) (a : action) : Prop :=
  match a with
  | AInsert n s d ts p => row_wf dates (mkRow 0 n s d ts p false)
  | _ => True
  end.

Lemma page_prog_insert_checked cfg e req :
  acts_ok (insert_checked (cfg_dates cfg)) (page_prog cfg e req).
Proof.
  apply acts_ok_page; [by intros []|]. intros i Hi ts n s p Hn Hs Hp.
  cbn [insert_checked]. split_and!; [done|done|done|]. by exists i.
Qed.

(** The state of the table every interleaving keeps, relative to the
    table [tb0] the sessions started from. *)
Definition sessions_safe (dates : list Z) (tb0 tb : table) : Prop :=
  aids_fresh tb ∧ table_wf dates tb ∧ table_evolves tb0 tb.

Lemma action_run_safe dates tb0 a tb :
  insert_checked dates a → sessions_safe dates tb0 tb →
  sessions_safe dates tb0 (action_run a tb).2.
Proof.
  destruct a as [d|s d|s d p|n s d ts p|x]; cbn [action_run snd insert_checked];
    try done; intros Hc (Hf & Hwf & Hev).
  - split_and!; [by apply insert_apply_fresh| |by etrans; [|apply insert_apply_evolves]].
    destruct Hc as (? & ? & ? & ? & ? & ?). apply table_wf_insert; eauto.
  - split_and!; [by apply update_cancel_fresh|by apply table_wf_cancel|].
    by etrans; [|apply update_cancel_evolves].
Qed.

(** C23: whatever the interleaving of any number of runs arriving at any time with any clocks, requests and database faults, starting from a table with fresh [aid]s and well-formed rows, the [aid]s stay distinct and below the sequence, every row keeps a student id of at least 10 characters, a secret of at least 4, a non-empty name and a configured date, and rows are never deleted or reordered and only go from active to canceled. *)
Theorem sessions_reachable_safe cfg tb0 c :
  aids_fresh tb0 → table_wf (cfg_dates cfg) tb0 →
  rtc (sys_step cfg) (mkConf tb0 []) c → sessions_safe (cfg_dates cfg) tb0 (ctbl c).
Proof.
  intros Hf Hwf Hr.
  apply (rtc_sys_step_ok cfg _ _ (action_run_safe (cfg_dates cfg) tb0)
           (page_prog_insert_checked cfg) _ _ Hr).
  split; [split_and!; [done|done|reflexivity]|constructor].
Qed.

(** ** Every interleaving ends, with every run finished *)

(** A relation whose executions from [x] are never longer than [B] has no
    infinite execution from [x]. *)
Lemma sn_nsteps_bound {A} (R : relation A) (B : nat) x :
  (∀ k y, nsteps R k x y → k ≤ B) → sn R x.
Proof.
  induction B as [|B IH] in x |- *; intros Hb; constructor; intros y Hy.
  - assert (nsteps R 1 x y) as H1 by (by apply nsteps_once). specialize (Hb _ _ H1). lia.
  - apply IH. intros k z Hz.
    assert (nsteps R (S k) x z) as H1 by (econstructor; [exact Hy|exact Hz]).
    specialize (Hb _ _ H1). lia.
Qed.

Lemma tstep_bounded tb t tb' t' n :
  tstep (tb, t) (tb', t') → bounded n (tprog t) → ∃ m, n = S m ∧ bounded m (tprog t').
Proof.
  inversion 1; subst; cbn [tprog bounded]; (destruct n as [|m]; [done|]); intros Hk;
    exists m; split; try done; apply Hk.
Qed.

(** The runs of [c] take at most [ns] more steps each. *)
Definition pool_bounded (ns : list nat) (c : conf) : Prop :=
  Forall2 (λ n t, bounded n (tprog t)) ns (cthreads c).

Lemma cstep_bounded c c' ns :
  cstep c c' → pool_bounded ns c → ∃ ns', pool_bounded ns' c' ∧ S (sum_list ns') = sum_list ns.
Proof.
  intros [tb tb' t t' ts1 ts2 Hs] Hb. unfold pool_bounded in *. cbn [cthreads] in *.
  apply Forall2_app_inv_r in Hb as (ns1 & ns2' & H1 & H2 & ->).
  apply Forall2_cons_inv_r in H2 as (n & ns2 & Ht & H2 & ->).
  destruct (tstep_bounded _ _ _ _ _ Hs Ht) as (m & -> & Ht').
  exists (ns1 ++ m :: ns2). split; [by apply Forall2_app; [|constructor]|].
  rewrite !sum_list_with_app. simpl. lia.
Qed.

Lemma nsteps_cstep_bounded k c c' ns :
  nsteps cstep k c c' → pool_bounded ns c → k ≤ sum_list ns.
Proof.
  induction 1 as [|k c1 c2 c3 Hs _ IH] in ns |- *; [lia|]. intros Hb.
  destruct (cstep_bounded _ _ _ Hs Hb) as (ns' & Hb' & Hsum). specialize (IH _ Hb'). lia.
Qed.

(** Every run of a reachable pool has at most [page_steps] steps left. *)
Lemma rtc_sys_step_bounded cfg tb0 c :
  rtc (sys_step cfg) (mkConf tb0 []) c → pool_bounded (replicate (length (cthreads c)) page_steps) c.
Proof.
  intros Hr. unfold pool_bounded. apply Forall2_replicate_l; [done|].
  cut (Forall (λ t, bounded page_steps (tprog t)) (cthreads (mkConf tb0 []))); [|constructor].
  induction Hr as [|c1 c2 c3 Hs _ IH]; [done|]. intros H1. apply IH. clear IH.
  destruct Hs as [c1 c2 [tb tb' t t' ts1 ts2 Hs]|e req [tb ts]]; cbn [cthreads] in *.
  - apply Forall_app in H1 as [H1 [Ht H2]%Forall_cons]. apply Forall_app. split; [done|].
    constructor; [|done]. destruct (tstep_bounded _ _ _ _ _ Hs Ht) as (m & Hm & Ht').
    eapply bounded_mono; [exact Ht'|lia].
  - apply Forall_app. split; [done|]. apply Forall_singleton, bounded_page.
Qed.

Lemma reachable_nsteps_bound cfg tb0 c c' k :
  rtc (sys_step cfg) (mkConf tb0 []) c → nsteps cstep k c c' →
  k ≤ page_steps * length (cthreads c).
Proof.
  intros Hr Hk. rewrite Nat.mul_comm, <- sum_list_replicate.
  eapply nsteps_cstep_bounded; [exact Hk|by eapply rtc_sys_step_bounded].
Qed.

Lemma reachable_sn cfg tb0 c : rtc (sys_step cfg) (mkConf tb0 []) c → sn cstep c.
Proof.
  intros Hr. apply (sn_nsteps_bound _ (page_steps * length (cthreads c))).
  intros k c'. by eapply reachable_nsteps_bound.
Qed.

(** From any configuration reachable by arriving runs and their interleaving, whatever the order in which the runs are scheduled and whichever statements fail, the runs in progress have no infinite execution, and every execution in which no new run arrives ends after at most [page_steps] (8) steps per run of the pool: no run loops or waits for another. *)
Theorem sessions_terminate cfg tb0 c :
  rtc (sys_step cfg) (mkConf tb0 []) c →
  sn cstep c ∧ ∀ c' k, nsteps cstep k c c' → k ≤ page_steps * length (cthreads c).
Proof.
  intros Hr. split; [by eapply reachable_sn|]. intros c' k. by eapply reachable_nsteps_bound.
Qed.

#[export] Instance finished_dec t : Decision (finished t).
Proof. unfold finished. destruct (tprog t); apply _. Defined.

(** A run that has not finished can always take a step: nothing blocks. *)
Lemma tstep_progress tb t : ¬ finished t → ∃ tb' t', tstep (tb, t) (tb', t').
Proof.
  destruct t as [[| | x k | a k] out]; cbn [finished tprog]; [done|done| |];
    intros _; eexists _, _; constructor.
Qed.

Lemma unfinished_red c : ¬ Forall finished (cthreads c) → red cstep c.
Proof.
  intros Hn. apply not_Forall_Exists, Exists_exists in Hn as (t & Ht & Hn); [|apply _].
  apply list_elem_of_split in Ht as (ts1 & ts2 & Hts).
  destruct (tstep_progress (ctbl c) t Hn) as (tb' & t' & Hs).
  destruct c as [tb ts]; cbn [cthreads ctbl] in *; subst. eexists. by constructor.
Qed.

Lemma nf_cstep_finished c : nf cstep c → Forall finished (cthreads c).
Proof.
  intros Hnf. destruct (decide (Forall finished (cthreads c))) as [|Hn]; [done|].
  by destruct Hnf; apply unfinished_red.
Qed.

Lemma sn_cstep_finish c : sn cstep c → ∃ c', rtc cstep c c' ∧ Forall finished (cthreads c').
Proof.
  induction 1 as [c _ IH].
  destruct (decide (Forall finished (cthreads c))) as [|Hn]; [by exists c|].
  destruct (unfinished_red c Hn) as [c1 Hs].
  destruct (IH c1 Hs) as (c' & ? & ?). exists c'. split; [by eapply rtc_l|done].
Qed.

(** From any configuration reachable by arriving runs and their interleaving, every run in progress finishes under every scheduler: every execution that cannot be continued has all its runs finished (returned or raised), since a run that has not finished can always step, and an execution finishing all runs exists. *)
Theorem sessions_runs_finish cfg tb0 c :
  rtc (sys_step cfg) (mkConf tb0 []) c →
  (∀ c', rtc cstep c c' → nf cstep c' → Forall finished (cthreads c')) ∧
  ∃ c', rtc cstep c c' ∧ Forall finished (cthreads c').
Proof.
  intros Hr. split; [intros c' _; apply nf_cstep_finished|].
  apply sn_cstep_finish. by eapply reachable_sn.
Qed.

(** ** Witnesses *)

(** The pool after one application has arrived on an empty table. *)
Definition demo_pool : conf :=
  mkConf empty_table [mkThread (page_prog scenario_config scenario_env demo_apply) []].

Lemma demo_pool_reachable : rtc (sys_step scenario_config) (mkConf empty_table []) demo_pool.
Proof. apply rtc_once, (SysArrive scenario_config scenario_env demo_apply (mkConf empty_table [])). Qed.

Lemma sessions_reachable_safe_witness :
  (aids_fresh empty_table ∧ table_wf (cfg_dates scenario_config) empty_table ∧
   rtc (sys_step scenario_config) (mkConf empty_table []) demo_pool) ∧
  sessions_safe (cfg_dates scenario_config) empty_table (ctbl demo_pool).
Proof.
  assert (H1 : aids_fresh empty_table) by apply empty_table_fresh.
  assert (H2 : table_wf (cfg_dates scenario_config) empty_table) by constructor.
  split; [split_and!; [exact H1|exact H2|exact demo_pool_reachable]|].
  exact (sessions_reachable_safe _ _ _ H1 H2 demo_pool_reachable).
Defined.

Lemma sessions_terminate_witness :
  rtc (sys_step scenario_config) (mkConf empty_table []) demo_pool ∧
  (sn cstep demo_pool ∧
   ∀ c' k, nsteps cstep k demo_pool c' → k ≤ page_steps * length (cthreads demo_pool)).
Proof. exact (conj demo_pool_reachable (sessions_terminate _ _ _ demo_pool_reachable)). Defined.

Lemma sessions_runs_finish_witness :
  rtc (sys_step scenario_config) (mkConf empty_table []) demo_pool ∧
  ((∀ c', rtc cstep demo_pool c' → nf cstep c' → Forall finished (cthreads c')) ∧
   ∃ c', rtc cstep demo_pool c' ∧ Forall finished (cthreads c')).
Proof. exact (conj demo_pool_reachable (sessions_runs_finish _ _ _ demo_pool_reachable)). Defined.

End Sessions.
