(* ===== verification/Races.v ===== *)
(** * Races: the page's checks under interleaving

    The page checks the capacity (lines 69-71) and the duplicate
    registration (lines 88-89) with one statement each and inserts (line
    93) with another, on separate connections: between a check and the
    INSERT other runs may execute their own statements.  This file states
    what the checks still guarantee under every interleaving of
    [Sessions.sys_step] and shows the schedules where they are not enough.

    - [sessions_capacity_bound]: a date never exceeds its initial count, or
      [student_limit - 1] plus the number of runs.  The proof follows each
      run with the program predicates of [Script] ([guarded] before the
      count, [armed] between a count below the limit and the INSERT,
      [clean] after it) and a list of flags saying which runs have
      inserted; the flags exist only in the invariant [cap_inv].
    - [two_applies_race]: two valid applications both run their count and
      duplicate check on the same table before either inserts; hence a
      student registered twice ([sessions_duplicate_reachable]) and a date
      at [student_limit + 1], the bound reached
      ([sessions_capacity_reached]). *)

From S2P Require Import Prelude Calendar Clock Session Store Page Script Sessions.
Import Selector Table Page Script Sessions.

Module Races.

Lemma count_active_insert_le n s d ts p tb d' :
  count_active d' (insert_apply n s d ts p tb) ≤ S (count_active d' tb).
Proof.
  destruct (decide (d' = d)) as [->|?];
    [rewrite count_active_insert_same|rewrite count_active_insert_other by done]; lia.
Qed.

(** The number of runs whose INSERT has executed, among the flags [fs]. *)
Definition nins (fs : list bool) : nat := length (filter (λ b, b = true) fs).

Lemma nins_app_cons fs1 f fs2 : nins (fs1 ++ f :: fs2) = nins fs1 + Nat.b2n f + nins fs2.
Proof.
  unfold nins. rewrite filter_app, length_app.
  destruct f; [rewrite filter_cons_True|rewrite filter_cons_False]; simpl; try done; lia.
Qed.

Section Bound.
Context (cfg : config) (tb0 : table).

Abbreviation lim := (cfg_limit cfg).

Definition thread_cap (tb : table) (ins : nat) (f : bool) (t : thread) : Prop :=
  if f then clean (tprog t)
  else guarded lim (tprog t) ∨ ∃ d, armed d (tprog t) ∧ count_active d tb < lim + ins.

Definition cap_bound (tb : table) (ins : nat) : Prop :=
  ∀ d, count_active d tb ≤ count_active d tb0 ∨ count_active d tb < lim + ins.

Definition cap_inv (c : conf) : Prop :=
  ∃ fs, Forall2 (thread_cap (ctbl c) (nins fs)) fs (cthreads c) ∧ cap_bound (ctbl c) (nins fs).

Lemma thread_cap_mono tb tb' ins ins' f t :
  ins ≤ ins' → (∀ d, count_active d tb' + ins ≤ count_active d tb + ins') →
  thread_cap tb ins f t → thread_cap tb' ins' f t.
Proof.
  intros Hi Hc. destruct f; [done|]. intros [?|(d & ? & ?)]; [by left|right].
  exists d. split; [done|]. specialize (Hc d). lia.
Qed.

Lemma act_noinsert_cap tb ins f a k out :
  is_insert a = false →
  (∀ d, count_active d (action_run a tb).2 ≤ count_active d tb) →
  thread_cap tb ins f (mkThread (Act a k) out) →
  thread_cap (action_run a tb).2 ins f (mkThread (k (action_run a tb).1) out).
Proof.
  intros Hins Hle. destruct f; cbn [thread_cap tprog clean acts_ok].
  - intros [_ Hk]. apply Hk.
  - intros [Hg|(d & Ha & Hc)].
    + destruct a as [d|s d|s d p|n s d ts p|x]; cbn [guarded action_run fst snd is_insert] in *;
        try done; try (left; by apply Hg).
      destruct (decide (count_active d tb < lim)).
      * right. exists d. split; [by apply (proj1 (Hg _))|lia].
      * left. apply (proj2 (Hg _)). lia.
    + right. exists d. split; [|specialize (Hle d); lia].
      destruct a; cbn [armed is_insert] in Ha, Hins |- *; [apply Ha..|done|apply Ha].
Qed.

Lemma action_run_count_le a tb d :
  is_insert a = false → count_active d (action_run a tb).2 ≤ count_active d tb.
Proof. destruct a; cbn [is_insert action_run snd]; try done; intros _; apply count_active_cancel. Qed.

Lemma act_insert_cap tb ins f n s d ts p k out :
  thread_cap tb ins f (mkThread (Act (AInsert n s d ts p) k) out) → cap_bound tb ins →
  f = false ∧ thread_cap (insert_apply n s d ts p tb) (S ins) true (mkThread (k tt) out) ∧
  cap_bound (insert_apply n s d ts p tb) (S ins).
Proof.
  destruct f; cbn [thread_cap tprog clean acts_ok guarded armed is_insert]; [by intros [? _]|].
  intros [[]|(d' & [<- Hk] & Hc)] Hb. split_and!; [done|apply Hk|]. intros d2.
  destruct (decide (d2 = d)) as [->|?].
  - right. rewrite count_active_insert_same. lia.
  - rewrite count_active_insert_other by done. destruct (Hb d2); [left|right]; lia.
Qed.

(** One step of one run keeps its part of the invariant and the bound;
    [δ] is 1 when the step is the run's INSERT. *)
Lemma tstep_cap tb t tb' t' f ins :
  tstep (tb, t) (tb', t') → thread_cap tb ins f t → cap_bound tb ins →
  ∃ f' δ, Nat.b2n f' = Nat.b2n f + δ ∧ thread_cap tb' (ins + δ) f' t' ∧
    cap_bound tb' (ins + δ) ∧ ∀ d, count_active d tb' + ins ≤ count_active d tb + (ins + δ).
Proof.
  inversion 1 as [? x k out|? a k out|? a k out]; subst; intros Ht Hb.
  - exists f, 0. rewrite !Nat.add_0_r. split_and!; [done|by destruct f|done|lia].
  - destruct (is_insert a) eqn:Hi.
    + destruct a as [| | |n s d ts p|]; try discriminate. cbn [action_run fst snd].
      destruct (act_insert_cap _ _ _ _ _ _ _ _ _ _ Ht Hb) as (-> & Ht' & Hb').
      exists true, 1. rewrite !Nat.add_1_r. split_and!; [done..|].
      intros d'. pose proof (count_active_insert_le n s d ts p tb d'). lia.
    + exists f, 0. rewrite !Nat.add_0_r.
      pose proof (λ d, action_run_count_le a tb d Hi) as Hle.
      split_and!; [done|by apply act_noinsert_cap| |].
      * intros d. specialize (Hb d). specialize (Hle d). lia.
      * intros d. specialize (Hle d). lia.
  - exists f, 0. rewrite !Nat.add_0_r.
    split_and!; [done|destruct f; [done|by left]|done|lia].
Qed.

Lemma cstep_cap c c' : cstep c c' → cap_inv c → cap_inv c'.
Proof.
  intros [tb tb' t t' ts1 ts2 Hs] (fs & Hf & Hb). cbn [ctbl cthreads] in *.
  apply Forall2_app_inv_r in Hf as (fs1 & fs2' & H1 & H2 & ->).
  apply Forall2_cons_inv_r in H2 as (f & fs2 & Ht & H2 & ->).
  destruct (tstep_cap _ _ _ _ _ _ Hs Ht Hb) as (f' & δ & Hfδ & Ht' & Hb' & Hle).
  exists (fs1 ++ f' :: fs2). cbn [ctbl cthreads].
  rewrite nins_app_cons in *.
  replace (nins fs1 + Nat.b2n f' + nins fs2) with (nins fs1 + Nat.b2n f + nins fs2 + δ) by lia.
  split; [|done]. apply Forall2_app; [|constructor; [done|]];
    (eapply Forall2_impl; [eassumption|]); intros; (eapply thread_cap_mono; [|apply Hle|eassumption]); lia.
Qed.

Lemma sys_step_cap c c' : sys_step cfg c c' → cap_inv c → cap_inv c'.
Proof.
  intros [c1 c2 Hs|e req [tb ts]]; [by apply cstep_cap|].
  intros (fs & Hf & Hb). exists (fs ++ [false]). cbn [ctbl cthreads] in *.
  rewrite nins_app_cons. cbn [Nat.b2n nins filter length]. rewrite !Nat.add_0_r.
  split; [|done]. apply Forall2_app; [done|]. constructor; [|done]. left. apply guarded_page.
Qed.

Lemma rtc_sys_step_cap c : rtc (sys_step cfg) (mkConf tb0 []) c → cap_inv c.
Proof.
  intros Hr. cut (cap_inv (mkConf tb0 [])).
  - induction Hr; eauto using sys_step_cap.
  - exists []. split; [constructor|]. intros d. by left.
Qed.

End Bound.
(** C24: under every interleaving of runs arriving at any time, every date has no more active registrations than when the sessions started, or fewer than [student_limit] plus the number of runs so far: with [n] runs in flight the capacity check of lines 69-71 lets at most [student_limit - 1 + n] registrations through. *)
Theorem sessions_capacity_bound cfg tb0 c d :
  rtc (sys_step cfg) (mkConf tb0 []) c →
  count_active d (ctbl c) ≤ count_active d tb0 ∨
  count_active d (ctbl c) < cfg_limit cfg + length (cthreads c).
Proof.
  intros Hr. destruct (rtc_sys_step_cap cfg tb0 c Hr) as (fs & Hf & Hb).
  pose proof (Forall2_length _ _ _ Hf). pose proof (length_filter (λ b, b = true) fs).
  unfold nins in Hb. destruct (Hb d); [left|right]; lia.
Qed.

(** ** Two applications racing *)

Section Race.
Context (cfg : config) (e : run_env) (i : Z).
Hypothesis H_open :
  current_session (utcnow_astimezone (utc_wall e) (local_offset e)) (cfg_dates cfg) = Ok (Open i).

Abbreviation d := (date_string i).
Abbreviation ts := (utcnow_astimezone (utc_wall_apply e) (local_offset e)).

(** The form's checks of a valid application. *)
Definition valid_apply (n s p : string) : Prop :=
  truthy n && truthy s && truthy p = true ∧ (10 ≤ String.length s)%nat ∧ (4 ≤ String.length p)%nat.

(** A valid application of a student not registered for the open date,
    counted below the limit, runs up to its INSERT without changing the
    table. *)
Lemma page_apply_to_insert n s p tb :
  count_active d tb < cfg_limit cfg → valid_apply n s p → select_registered s d tb = [] →
  ∃ k out, rtc tstep (tb, mkThread (page_prog cfg e (SubmitApply n s p)) [])
                     (tb, mkThread (Act (AInsert n s d ts p) k) out).
Proof.
  intros Hc (Ht & Hs & Hp) Hn. unfold page_prog. rewrite H_open. eexists _, _.
  eapply rtc_l; [apply TShow|]. eapply rtc_l; [apply TAct|]. cbn [action_run fst snd].
  rewrite (proj2 (Nat.ltb_lt _ _) Hc). cbn [pseq].
  eapply rtc_l; [apply TShow|]. unfold apply_prog, check_form_prog.
  rewrite Ht, (proj2 (Nat.ltb_ge _ _) Hs), (proj2 (Nat.ltb_ge _ _) Hp). cbn [pseq].
  eapply rtc_l; [apply TAct|]. cbn [action_run fst snd]. rewrite Hn. cbn [pseq].
  apply rtc_refl.
Qed.

(** Both runs arrive, both count and check on the same table, then both
    insert. *)
Lemma two_applies_race n1 s1 p1 n2 s2 p2 tb0 :
  count_active d tb0 < cfg_limit cfg →
  valid_apply n1 s1 p1 → select_registered s1 d tb0 = [] →
  valid_apply n2 s2 p2 → select_registered s2 d tb0 = [] →
  ∃ c, rtc (sys_step cfg) (mkConf tb0 []) c ∧ length (cthreads c) = 2 ∧
       ctbl c = insert_apply n2 s2 d ts p2 (insert_apply n1 s1 d ts p1 tb0).
Proof.
  intros Hc Hv1 Hn1 Hv2 Hn2.
  destruct (page_apply_to_insert _ _ _ _ Hc Hv1 Hn1) as (k1 & o1 & H1).
  destruct (page_apply_to_insert _ _ _ _ Hc Hv2 Hn2) as (k2 & o2 & H2).
  exists (mkConf (insert_apply n2 s2 d ts p2 (insert_apply n1 s1 d ts p1 tb0))
                 [mkThread (k1 tt) o1; mkThread (k2 tt) o2]).
  split; [|done].
  eapply rtc_l; [apply (SysArrive cfg e (SubmitApply n1 s1 p1))|]. cbn [ctbl cthreads app].
  eapply rtc_l; [apply (SysArrive cfg e (SubmitApply n2 s2 p2))|]. cbn [ctbl cthreads app].
  apply rtc_cstep_sys.
  eapply rtc_trans;
    [apply (rtc_tstep_cstep [] [mkThread (page_prog cfg e (SubmitApply n2 s2 p2)) []] _ _ _ _ H1)|].
  eapply rtc_trans; [apply (rtc_tstep_cstep [mkThread (Act (AInsert n1 s1 d ts p1) k1) o1] []
                              _ _ _ _ H2)|].
  eapply rtc_l;
    [eapply (CStep _ _ _ _ [] [mkThread (Act (AInsert n2 s2 d ts p2) k2) o2]); apply TAct|].
  eapply rtc_l; [eapply (CStep _ _ _ _ [mkThread (k1 tt) o1] []); apply TAct|]. apply rtc_refl.
Qed.

End Race.

(** C25: when a lecture is open with a place left and a student with no active registration for its date submits two valid applications in two sessions, there is an interleaving of the two runs of the page (both duplicate checks of line 88 before either INSERT of line 93) after which the table holds two active registrations of the student for the date, against the uniqueness that sequential runs keep. *)
Theorem sessions_duplicate_reachable cfg e i n s p1 p2 tb0 :
  current_session (utcnow_astimezone (utc_wall e) (local_offset e)) (cfg_dates cfg) = Ok (Open i) →
  count_active (date_string i) tb0 < cfg_limit cfg →
  valid_apply n s p1 → valid_apply n s p2 → select_registered s (date_string i) tb0 = [] →
  ∃ c, rtc (sys_step cfg) (mkConf tb0 []) c ∧
       length (select_registered s (date_string i) (ctbl c)) = 2 ∧ ¬ unique_active (ctbl c).
Proof.
  intros Ho Hc Hv1 Hv2 Hn.
  destruct (two_applies_race cfg e i Ho n s p1 n s p2 tb0 Hc Hv1 Hn Hv2 Hn) as (c & Hr & _ & Ht).
  exists c. rewrite Ht, !select_registered_insert_same, Hn. split_and!; [done|done|].
  intros Hu. specialize (Hu s (date_string i)).
  rewrite !select_registered_insert_same, Hn in Hu. simpl in Hu. lia.
Qed.

(** C26: the bound of [sessions_capacity_bound] is reached: when a lecture has one place left and two students without a registration apply in two sessions, the interleaving in which both runs read the count of line 69 before either inserts leaves the date with [student_limit + 1] active registrations, the limit plus the two runs minus one. *)
Theorem sessions_capacity_reached cfg e i n1 s1 p1 n2 s2 p2 tb0 :
  current_session (utcnow_astimezone (utc_wall e) (local_offset e)) (cfg_dates cfg) = Ok (Open i) →
  S (count_active (date_string i) tb0) = cfg_limit cfg →
  valid_apply n1 s1 p1 → select_registered s1 (date_string i) tb0 = [] →
  valid_apply n2 s2 p2 → select_registered s2 (date_string i) tb0 = [] →
  ∃ c, rtc (sys_step cfg) (mkConf tb0 []) c ∧ length (cthreads c) = 2 ∧
       count_active (date_string i) (ctbl c) = cfg_limit cfg + length (cthreads c) - 1 ∧
       ¬ within_capacity (cfg_limit cfg) (ctbl c).
Proof.
  intros Ho Hc Hv1 Hn1 Hv2 Hn2.
  destruct (two_applies_race cfg e i Ho n1 s1 p1 n2 s2 p2 tb0 ltac:(lia) Hv1 Hn1 Hv2 Hn2)
    as (c & Hr & Hl & Ht).
  exists c. rewrite Hl, Ht, !count_active_insert_same. split_and!; [done|done|lia|].
  intros Hw. specialize (Hw (date_string i)). rewrite !count_active_insert_same in Hw. lia.
Qed.

(** ** Witnesses *)

Lemma sessions_capacity_bound_witness :
  rtc (sys_step scenario_config) (mkConf empty_table []) demo_pool ∧
  (count_active demo_date (ctbl demo_pool) ≤ count_active demo_date empty_table ∨
   count_active demo_date (ctbl demo_pool) < cfg_limit scenario_config + length (cthreads demo_pool)).
Proof.
  exact (conj demo_pool_reachable (sessions_capacity_bound _ _ _ demo_date demo_pool_reachable)).
Defined.

Definition lecture_0307 : Z := datetime 2023 3 7 11 0 0 timezone_kst.

Lemma scenario_open :
  current_session (utcnow_astimezone (utc_wall scenario_env) (local_offset scenario_env))
    (cfg_dates scenario_config) = Ok (Open lecture_0307).
Proof. vm_compute. reflexivity. Qed.

Lemma valid_apply_intro n s p :
  truthy n && truthy s && truthy p = true → (10 ≤ String.length s)%nat → (4 ≤ String.length p)%nat →
  valid_apply n s p.
Proof. intros. by split_and!. Qed.

Lemma sessions_duplicate_reachable_witness :
  (current_session (utcnow_astimezone (utc_wall scenario_env) (local_offset scenario_env))
     (cfg_dates scenario_config) = Ok (Open lecture_0307) ∧
   count_active (date_string lecture_0307) empty_table < cfg_limit scenario_config ∧
   valid_apply "Hong" "2023-00001" "1234" ∧ valid_apply "Hong" "2023-00001" "5678" ∧
   select_registered "2023-00001" (date_string lecture_0307) empty_table = []) ∧
  ∃ c, rtc (sys_step scenario_config) (mkConf empty_table []) c ∧
       length (select_registered "2023-00001" (date_string lecture_0307) (ctbl c)) = 2 ∧
       ¬ unique_active (ctbl c).
Proof.
  assert (H2 : count_active (date_string lecture_0307) empty_table < cfg_limit scenario_config)
    by (vm_compute; lia).
  assert (H3 : valid_apply "Hong" "2023-00001" "1234")
    by (apply valid_apply_intro; [reflexivity|cbn; lia|cbn; lia]).
  assert (H4 : valid_apply "Hong" "2023-00001" "5678")
    by (apply valid_apply_intro; [reflexivity|cbn; lia|cbn; lia]).
  assert (H5 : select_registered "2023-00001" (date_string lecture_0307) empty_table = [])
    by reflexivity.
  split; [split_and!; [exact scenario_open|exact H2|exact H3|exact H4|exact H5]|].
  exact (sessions_duplicate_reachable _ _ _ _ _ _ _ _ scenario_open H2 H3 H4 H5).
Defined.

Lemma sessions_capacity_reached_witness :
  (current_session (utcnow_astimezone (utc_wall scenario_env) (local_offset scenario_env))
     (cfg_dates scenario_config) = Ok (Open lecture_0307) ∧
   S (count_active (date_string lecture_0307) demo_table) = cfg_limit scenario_config ∧
   valid_apply "Kim" "2023-00002" "1111" ∧
   select_registered "2023-00002" (date_string lecture_0307) demo_table = [] ∧
   valid_apply "Lee" "2023-00003" "2222" ∧
   select_registered "2023-00003" (date_string lecture_0307) demo_table = []) ∧
  ∃ c, rtc (sys_step scenario_config) (mkConf demo_table []) c ∧ length (cthreads c) = 2 ∧
       count_active (date_string lecture_0307) (ctbl c) = cfg_limit scenario_config + length (cthreads c) - 1 ∧
       ¬ within_capacity (cfg_limit scenario_config) (ctbl c).
Proof.
  assert (H2 : S (count_active (date_string lecture_0307) demo_table) = cfg_limit scenario_config)
    by (vm_compute; reflexivity).
  assert (H3 : valid_apply "Kim" "2023-00002" "1111")
    by (apply valid_apply_intro; [reflexivity|cbn; lia|cbn; lia]).
  assert (H4 : select_registered "2023-00002" (date_string lecture_0307) demo_table = [])
    by (vm_compute; reflexivity).
  assert (H5 : valid_apply "Lee" "2023-00003" "2222")
    by (apply valid_apply_intro; [reflexivity|cbn; lia|cbn; lia]).
  assert (H6 : select_registered "2023-00003" (date_string lecture_0307) demo_table = [])
    by (vm_compute; reflexivity).
  split; [split_and!; [exact scenario_open|exact H2|exact H3|exact H4|exact H5|exact H6]|].
  exact (sessions_capacity_reached _ _ _ _ _ _ _ _ _ _ scenario_open H2 H3 H4 H5 H6).
Defined.

End Races.
