(* ===== verification/Forms.v ===== *)
(** * Forms: what the visitor types and what the handlers receive

    The handlers read their fields from Streamlit widgets (lines 75-77 and
    107-108): [st.text_input('Student ID:', ..., max_chars=10)] and
    [st.text_input('Password:', type='password', max_chars=4)] limit what
    can be typed, the name field has no limit.  [text_input] is the value
    such a widget hands to the script for the text the visitor typed: the
    browser keeps at most [max_chars] characters.  [form_request] builds the
    request of a run from the typed texts and the button pressed (lines
    74-79 and 106-112), and [form_step] is a run of the page on such a
    request.

    The handler itself only rejects short values (lines 82-86); with the
    widgets' limits, every row stored through the forms has a student id of
    exactly 10 characters and a secret of exactly 4, as the spec asks
    ([form_rows_exact]).  The limits do not stop the injections of
    [PageSql]: the student id [' OR 1=1--] has exactly 10 characters and
    the name field is unlimited. *)

From S2P Require Import Prelude Calendar Clock Session Store SqlText Sql Page.
Import Selector Table Sql Page.

Local Open Scope string_scope.

Module Forms.

(** ** Widgets *)

(** [st.text_input(..., max_chars=n)]: the typed text, cut to [n]
    characters. *)
Definition text_input (max_chars : option nat) (typed : string) : string :=
  match max_chars with
  | Some n => String.substring 0 n typed
  | None => typed
  end.

(** The texts typed into the form and the button pressed. *)
Inductive form_input :=
  | NoClick
  | ClickApply (sname sid spwd : string)      (* lines 74-78, button [신청] *)
  | ClickLookup (sid spwd : string)           (* lines 106-109, button [조회] *)
  | ClickCancel (sid spwd : string).          (* lines 106-110, button [신청 취소] *)

Definition form_request (i : form_input) : request :=
  match i with
  | NoClick => NoSubmit
  | ClickApply n s p =>
      SubmitApply (text_input None n) (text_input (Some 10) s) (text_input (Some 4) p)
  | ClickLookup s p => SubmitLookup (text_input (Some 10) s) (text_input (Some 4) p)
  | ClickCancel s p => SubmitCancel (text_input (Some 10) s) (text_input (Some 4) p)
  end.

(** A run of the page on what a visitor typed. *)
Inductive form_step (cfg : config) : world → world → Prop :=
  | FormRun e i w : form_step cfg w (snd (run_pym (page cfg e (form_request i)) w)).

(** ** Lengths *)

Lemma substring_length n s : (String.length (String.substring 0 n s) ≤ n)%nat.
Proof.
  induction n as [|n IH] in s |- *; destruct s as [|c s]; simpl; try lia.
  specialize (IH s). lia.
Qed.

Lemma text_input_length n s : (String.length (text_input (Some n) s) ≤ n)%nat.
Proof. apply substring_length. Qed.

(** The fields a request of the forms carries fit their widgets. *)
Definition fits_widgets (req : request) : Prop :=
  match req with
  | NoSubmit => True
  | SubmitApply _ s p | SubmitLookup s p | SubmitCancel s p =>
      (String.length s ≤ 10)%nat ∧ (String.length p ≤ 4)%nat
  end.

Lemma form_request_fits i : fits_widgets (form_request i).
Proof. destruct i; cbn [form_request fits_widgets]; auto using text_input_length. Qed.

(** Every row has a student id of at most 10 and a secret of at most 4
    characters. *)
Definition rows_short (tb : table) : Prop :=
  Forall (λ r, String.length (sid r) ≤ 10 ∧ String.length (secret r) ≤ 4)%nat (rows tb).

Lemma rows_short_effect limit req tb tb' :
  fits_widgets req → page_effect limit req tb tb' → rows_short tb → rows_short tb'.
Proof.
  intros Hfit [->|[(n & s & p & d & ts & -> & _ & _ & ->)|(s & p & d & r & _ & _ & ->)]] Hs;
    [done| |].
  - unfold rows_short, insert_apply. cbn [rows]. apply Forall_app. split; [done|].
    by apply Forall_singleton.
  - unfold rows_short, update_cancel. cbn [rows]. rewrite Forall_map.
    eapply Forall_impl; [exact Hs|]. intros r' Hr'. unfold cancel_row. by case_decide.
Qed.

(** The spec's shape of a stored row: exactly 10 and exactly 4. *)
Definition rows_exact (tb : table) : Prop :=
  Forall (λ r, String.length (sid r) = 10 ∧ String.length (secret r) = 4)%nat (rows tb).

Lemma rows_exact_of dates tb : table_wf dates tb → rows_short tb → rows_exact tb.
Proof.
  unfold table_wf, rows_short, rows_exact. intros Hwf Hs.
  apply Forall_forall. intros r Hr.
  apply (Forall_forall _ _) with (x := r) in Hwf as (? & ? & _); [|done].
  apply (Forall_forall _ _) with (x := r) in Hs as [? ?]; [|done]. lia.
Qed.

(** C20: in every world reachable from an empty table by runs of the page on what visitors typed into the forms, whatever they typed, the clocks and the database faults, every row has a student id of exactly 10 characters and a secret of exactly 4: the handler's checks of lines 82-86 give the lower bounds and the widgets' [max_chars] of lines 76-77 the upper ones. *)
Theorem form_rows_exact cfg fs w :
  rtc (form_step cfg) (initial_world fs) w → rows_exact (tbl w).
Proof.
  intros Hr. cut (table_wf (cfg_dates cfg) (tbl w) ∧ rows_short (tbl w)).
  { intros [? ?]. by eapply rows_exact_of. }
  assert (H0 : table_wf (cfg_dates cfg) (tbl (initial_world fs)) ∧ rows_short (tbl (initial_world fs)))
    by (split; constructor).
  revert H0. induction Hr as [|w1 w2 w3 Hs _ IH]; [done|].
  intros [Hwf Hsh]. apply IH. destruct Hs as [e i w]. split; [by apply page_run_wf|].
  eapply rows_short_effect; [apply form_request_fits|apply page_effect_run|done].
Qed.

(** The injected student id of [PageSql] fits its widget as it is, and
    the name carrying a second statement goes through the unlimited name
    field. *)
Lemma injections_pass_widgets :
  text_input (Some 10) inj_sid = inj_sid ∧ text_input None stacked_sname = stacked_sname.
Proof. split; reflexivity. Qed.

(** ** Witnesses *)

(** A visitor who types an 11-character id and a 6-character password:
    the widgets keep the first 10 and 4 characters. *)
Definition demo_typing : form_input := ClickApply "Hong" "2023-000012" "123456".

Lemma form_rows_exact_witness :
  let w := snd (run_pym (page scenario_config scenario_env (form_request demo_typing)) (initial_world [])) in
  rtc (form_step scenario_config) (initial_world []) w ∧ rows_exact (tbl w).
Proof.
  intros w. assert (H : rtc (form_step scenario_config) (initial_world []) w)
    by (apply rtc_once; constructor).
  split; [exact H|exact (form_rows_exact _ _ _ H)].
Defined.

End Forms.
